(** * ComfyUI-Lightx2vWrapper: the node adapters of [nodes.py]

    A shallow embedding of the node classes of [nodes.py] and the
    properties of their adapter methods.

    Conventions of the embedding.
    - A Python exception is a value of [exn]; a method that may raise
      returns a [result].
    - A Python [dict] with string keys is a [gmap string pyval]. An
      [EasyDict] is the same map: its entries are its instance attributes
      as well, so that reading an attribute is a lookup that raises
      [AttributeError] on a missing key, and an entry named after a method
      hides the method. The names [__class__], [__dict__] and
      [__weakref__] are attributes of the object itself and cannot be
      stored as entries are: the constructor ([EasyDict.construct])
      raises on them, or replaces the attributes of the object;
      [EasyDict.storable] tells the dictionaries where it does neither.
    - A Python [float] held in a configuration is a rational ([Q]). The
      elements of a tensor are binary floating-point numbers
      ([spec_float]) in the format of the tensor's dtype, with their
      rounding, infinities and NaN.
    - A [str] is a [string] whose characters stand for code points below 256.
    - [pathlib.Path] is modelled for the POSIX flavour; the file system the
      paths are checked against is a [filesystem] record.
    - The wrapped inference library (T5, CLIP, VAE, WanModel, schedulers)
      is not part of this repository: its constructors appear as values
      that record their arguments, its stateful objects as an interface
      ([Engine]) whose calls are logged in a trace. *)

From Stdlib Require Import ZArith QArith Qround Qabs Qminmax String Ascii List Bool Lia.
From stdpp Require Import gmap strings list fin_maps.
From Stdlib Require Import SpecFloat.

Local Open Scope string_scope.
Local Open Scope Z_scope.

(** ** Exceptions and results *)

Inductive exn : Type :=
| AssertionError
| FileNotFoundError
| ValueError
| NotImplementedError
| KeyError
| AttributeError
| TypeError
| IndexError
| ZeroDivisionError
| RuntimeError.

#[global] Instance exn_eq_dec : EqDecision exn.
Proof. solve_decision. Defined.

Inductive result (A : Type) : Type :=
| Ok (a : A)
| Raise (e : exn).

Arguments Ok {A} a.
Arguments Raise {A} e.

#[global] Instance result_ret : MRet result := fun A a => Ok a.

#[global] Instance result_bind : MBind result := fun A B k m =>
  match m with
  | Ok a => k a
  | Raise e => Raise e
  end.

(** [assert c] *)
Definition py_assert (c : bool) : result unit :=
  if c then Ok tt else Raise AssertionError.

Definition raises {A : Type} (m : result A) (e : exn) : Prop := m = Raise e.

Definition succeeds {A : Type} (m : result A) : Prop := exists a, m = Ok a.

(** ** Strings *)

(** [str.isspace] on one character, for code points below 256. *)
Definition py_isspace (c : ascii) : bool :=
  let n := nat_of_ascii c in
  ((9 <=? n) && (n <=? 13) || (28 <=? n) && (n <=? 32)
   || (n =? 133) || (n =? 160))%nat.

Fixpoint lstrip (s : string) : string :=
  match s with
  | EmptyString => EmptyString
  | String c s' => if py_isspace c then lstrip s' else s
  end.

Fixpoint rstrip (s : string) : string :=
  match s with
  | EmptyString => EmptyString
  | String c s' =>
      match rstrip s' with
      | EmptyString => if py_isspace c then EmptyString else String c EmptyString
      | r => String c r
      end
  end.

(** [s.strip()] *)
Definition strip (s : string) : string := rstrip (lstrip s).

(** Truth value of a [str]: non-empty. *)
Definition str_truthy (s : string) : bool :=
  match s with
  | EmptyString => false
  | String _ _ => true
  end.

Fixpoint all_space (s : string) : bool :=
  match s with
  | EmptyString => true
  | String c s' => py_isspace c && all_space s'
  end.

(** ** pathlib (POSIX flavour) *)

(** A pure path: the number of leading slashes it keeps (0 for a relative
    path, 1 for [/], 2 for [//]) and its components. *)
Record path : Type := MkPath { root : nat; parts : list string }.

#[global] Instance path_eq_dec : EqDecision path.
Proof. solve_decision. Defined.

Definition slash : ascii := "/"%char.

(** The components of [s] between slashes; [cur] is the component read
    so far. *)
Fixpoint split_slash (s : string) (cur : string) : list string :=
  match s with
  | EmptyString => [cur]
  | String c s' =>
      if Ascii.eqb c slash then cur :: split_slash s' EmptyString
      else split_slash s' (cur ++ String c EmptyString)
  end.

Fixpoint leading_slashes (s : string) : nat :=
  match s with
  | String c s' => if Ascii.eqb c slash then S (leading_slashes s') else O
  | EmptyString => O
  end.

Definition keep_part (p : string) : bool :=
  negb (String.eqb p "") && negb (String.eqb p ".").

(** [Path(s)]: empty components and single dots are dropped, two leading
    slashes (exactly) are kept apart from one. *)
Definition Path (s : string) : path :=
  let n := leading_slashes s in
  {| root := match n with O => 0 | 2 => 2 | _ => 1 end%nat;
     parts := List.filter keep_part (split_slash s EmptyString) |}.

(** [p / s] *)
Definition joinpath (p : path) (s : string) : path :=
  let q := Path s in
  match root q with
  | O => {| root := root p; parts := parts p ++ parts q |}
  | _ => q
  end.

(** [p.parent] *)
Definition parent (p : path) : path :=
  {| root := root p; parts := removelast (parts p) |}.

Declare Scope path_scope.
Delimit Scope path_scope with path.
Bind Scope path_scope with path.
Notation "p // s" := (joinpath p s) (at level 40, left associativity) : path_scope.

(** What the adapters see of the operating system. *)
Inductive torch_device : Type :=
| comfy_torch_device      (* comfy_mm.get_torch_device() *)
| comfy_offload_device    (* comfy_mm.unet_offload_device() *)
| torch_cpu.              (* torch.device("cpu") *)

Inductive dtype : Type := bfloat16 | float16 | float32.

#[global] Instance dtype_eq_dec : EqDecision dtype.
Proof. solve_decision. Defined.

#[global] Instance torch_device_eq_dec : EqDecision torch_device.
Proof. solve_decision. Defined.

(** ** Python values held in the configuration dictionaries *)

#[local] Set Warnings "-register-all".

Inductive pyval : Type :=
| VNone
| VBool (b : bool)
| VInt (n : Z)
| VFloat (q : Q)
| VStr (s : string)
| VTuple (vs : list pyval)
| VList (vs : list pyval)
| VDict (kvs : list (string * pyval))
| VPath (p : path)
| VDevice (d : torch_device).

Abbreviation dict := (gmap string pyval).

Record filesystem : Type := MkFs {
  fs_exists : path -> bool;          (* Path.exists() *)
  fs_is_dir : path -> bool;          (* Path.is_dir() *)
  fs_json : path -> dict;            (* json.load of the file, a JSON object *)
  os_path_exists : string -> bool    (* os.path.exists *)
}.

(** ** EasyDict *)

Module EasyDict.

(** [object.__setattr__(self, name, value)], after the conversion of
    [value]: the attributes of the object itself are not set as entries
    are. [__class__] takes a class and [__weakref__] cannot be written;
    [__dict__] takes a dictionary, and then replaces the attributes of the
    object. No value of a configuration is a class. *)
Definition setattr_error (name : string) (value : pyval) : option exn :=
  if String.eqb name "__class__" then Some TypeError
  else if String.eqb name "__weakref__" then Some AttributeError
  else if String.eqb name "__dict__" then
    match value with
    | VDict _ => None
    | _ => Some TypeError
    end
  else None.

Definition first_error (es : list (option exn)) : option exn :=
  fold_right (fun e rest => match e with
                            | Some x => Some x
                            | None => rest
                            end) None es.

(** The conversion [__setattr__] makes of a value before it stores it: a
    dictionary becomes an [EasyDict], whose constructor sets each entry in
    turn, and so does each dictionary among the elements of a list or
    tuple. The result is the exception the conversion raises, if any. *)
Fixpoint convert_error (v : pyval) : option exn :=
  match v with
  | VDict kvs =>
      first_error
        (map (fun kv : string * pyval =>
                let '(k, x) := kv in
                match convert_error x with
                | Some e => Some e
                | None => setattr_error k x
                end) kvs)
  | VList vs | VTuple vs =>
      first_error
        (map (fun x => match x with
                       | VDict _ => convert_error x
                       | _ => None
                       end) vs)
  | _ => None
  end.

(** [setattr(self, k, v)] *)
Definition entry_error (k : string) (v : pyval) : option exn :=
  match convert_error v with
  | Some e => Some e
  | None => setattr_error k v
  end.

(** The dictionaries the constructor accepts: it sets every entry. *)
Definition constructible (d : dict) : bool :=
  bool_decide (map_Forall (fun k v => entry_error k v = None) d).

(** [EasyDict(d)]. The first entry that cannot be set raises. When entries
    of [d] raise different exceptions, the order of the entries decides,
    which the map does not keep: [construct] gives the [TypeError] then. *)
Definition construct (d : dict) : result dict :=
  if constructible d then Ok d
  else if bool_decide (map_Forall (fun k v => entry_error k v ≠ Some TypeError) d)
       then Raise AttributeError
       else Raise TypeError.

(** The dictionaries whose [EasyDict] has its entries as its attributes:
    the constructor accepts them, and no entry replaces [__dict__]. *)
Definition storable (d : dict) : bool :=
  constructible d && bool_decide (d !! "__dict__" = None).

(** [c.name(...)] for a method [name] of the class: the attribute of the
    object comes first, and no value of a configuration can be called. *)
Definition method (c : dict) (name : string) : result unit :=
  match c !! name with
  | Some _ => Raise TypeError
  | None => Ok tt
  end.

(** [c.get(name, d)] *)
Definition get (c : dict) (name : string) (d : pyval) : result pyval :=
  method c "get";;
  Ok (default d (c !! name)).

(** [c.update(e)] with [e] an [EasyDict] or [None]: [d = e or dict()],
    then [d.update(f)] with the keyword arguments (none here), then each
    entry of [d] is set on [c]. The second call is on [e] itself when [e]
    is not empty. *)
Definition update (c : dict) (e : option dict) : result dict :=
  method c "update";;
  let d := default ∅ e in
  method d "update";;
  Ok (d ∪ c).

End EasyDict.

(** ** Calling a method with keyword arguments

    The host invokes a node method with its inputs unpacked as keyword
    arguments: every argument is passed by keyword. A parameter is a name and, when it has
    one, its default value. *)

Definition signature := list (string * option pyval).

Definition param_names (sig : signature) : list string := sig.*1.

(** Binding of one parameter: the keyword argument, else the default, else
    a [TypeError] (missing required argument). *)
Definition bind_param (kwargs : dict) (p : string * option pyval)
  : result (string * pyval) :=
  match kwargs !! p.1, p.2 with
  | Some v, _ => Ok (p.1, v)
  | None, Some d => Ok (p.1, d)
  | None, None => Raise TypeError
  end.

Fixpoint bind_params (kwargs : dict) (sig : signature)
  : result (list (string * pyval)) :=
  match sig with
  | [] => Ok []
  | p :: sig' =>
      b ← bind_param kwargs p;
      bs ← bind_params kwargs sig';
      Ok (b :: bs)
  end.

(** A keyword that names no parameter is a [TypeError] (unexpected keyword
    argument); none of the node methods takes [**kwargs]. *)
Definition unexpected_keyword (kwargs : dict) (sig : signature) : bool :=
  negb (forallb (fun k => bool_decide (k ∈ param_names sig))
                (map_to_list kwargs).*1).

Definition bind_kwargs (kwargs : dict) (sig : signature) : result dict :=
  if unexpected_keyword kwargs sig then Raise TypeError
  else bs ← bind_params kwargs sig; Ok (list_to_map bs).

(** ** The node classes

    What a class body declares: the input names and type tags of
    [INPUT_TYPES] (widget options other than a combo's choices are left
    out), the class attributes the host reads, and the methods the class
    defines with their parameters after [self]. *)

Inductive input_type : Type :=
| TFloat
| TInt
| TString
| TBoolean
| TCombo (choices : list string)
| TCustom (tag : string).

Record node_class : Type := MkNode {
  INPUT_required : list (string * input_type);
  INPUT_optional : list (string * input_type);
  RETURN_TYPES : list string;
  RETURN_NAMES : list string;
  FUNCTION : string;
  CATEGORY : string;
  methods : list (string * signature)
}.

Definition required_names (c : node_class) : list string := (INPUT_required c).*1.

(** [INPUT_TYPES] is a classmethod without parameters. *)
Definition INPUT_TYPES_method : string * signature := ("INPUT_TYPES", []).

Definition req (n : string) : string * option pyval := (n, None).
Definition opt (n : string) (d : pyval) : string * option pyval := (n, Some d).

Definition precision_choices : list string := ["bf16"; "fp16"; "fp32"].
Definition device_choices : list string := ["cuda"; "cpu"].

Definition WanVideoTeaCache : node_class := {|
  INPUT_required :=
    [("rel_l1_thresh", TFloat); ("start_percent", TFloat); ("end_percent", TFloat);
     ("cache_device", TCombo ["main_device"; "offload_device"]);
     ("coefficients",
      TCombo ["i2v-14B-720p"; "i2v-14B-480p"; "1.3B"; "14B"; "disabled"])];
  INPUT_optional := [("mode", TCombo ["e"; "e0"])];
  RETURN_TYPES := ["LIGHT_TEACACHEARGS"];
  RETURN_NAMES := ["teacache_args"];
  FUNCTION := "process";
  CATEGORY := "LightX2V";
  methods :=
    [INPUT_TYPES_method;
     ("process",
      [req "rel_l1_thresh"; req "start_step"; req "end_step";
       req "cache_device"; req "coefficients"; opt "mode" (VStr "e")])]
|}.

Definition Lightx2vWanVideoModelDir : node_class := {|
  INPUT_required := [("model_dir", TString)];
  INPUT_optional := [];
  RETURN_TYPES := ["STRING"];
  RETURN_NAMES := ["STRING"];
  FUNCTION := "process";
  CATEGORY := "LightX2V";
  methods := [INPUT_TYPES_method; ("process", [req "model_dir"])]
|}.

Definition Lightx2vWanVideoT5EncoderLoader : node_class := {|
  INPUT_required :=
    [("model_name", TString); ("precision", TCombo precision_choices);
     ("device", TCombo device_choices)];
  INPUT_optional := [("model_dir", TString)];
  RETURN_TYPES := ["LIGHT_T5_ENCODER"];
  RETURN_NAMES := ["t5_encoder"];
  FUNCTION := "load_t5_encoder";
  CATEGORY := "LightX2V";
  methods :=
    [INPUT_TYPES_method;
     ("load_t5_encoder",
      [req "model_name"; req "precision"; req "device"; opt "model_dir" VNone])]
|}.

Definition Lightx2vWanVideoT5Encoder : node_class := {|
  INPUT_required :=
    [("t5_encoder", TCustom "LIGHT_T5_ENCODER"); ("prompt", TString);
     ("negative_prompt", TString)];
  INPUT_optional := [];
  RETURN_TYPES := ["LIGHT_TEXT_EMBEDDINGS"];
  RETURN_NAMES := ["text_embeddings"];
  FUNCTION := "encode_text";
  CATEGORY := "LightX2V";
  methods :=
    [INPUT_TYPES_method;
     ("encode_text", [req "t5_encoder"; req "prompt"; req "negative_prompt"])]
|}.

Definition Lightx2vWanVideoVaeLoader : node_class := {|
  INPUT_required :=
    [("model_name", TString); ("precision", TCombo precision_choices);
     ("device", TCombo device_choices); ("parallel", TBoolean)];
  INPUT_optional := [("model_dir", TString)];
  RETURN_TYPES := ["LIGHT_WAN_VAE"];
  RETURN_NAMES := ["wan_vae"];
  FUNCTION := "load_vae";
  CATEGORY := "LightX2V";
  methods :=
    [INPUT_TYPES_method;
     ("load_vae",
      [req "model_name"; req "precision"; req "device"; req "parallel";
       opt "model_dir" VNone])]
|}.

Definition Lightx2vWanVideoVaeDecoder : node_class := {|
  INPUT_required :=
    [("wan_vae", TCustom "LIGHT_WAN_VAE"); ("latent", TCustom "LIGHT_LATENT")];
  INPUT_optional := [];
  RETURN_TYPES := ["IMAGE"];
  RETURN_NAMES := ["images"];
  FUNCTION := "decode_latent";
  CATEGORY := "LightX2V";
  methods := [INPUT_TYPES_method; ("decode_latent", [req "wan_vae"; req "latent"])]
|}.

Definition Lightx2vWanVideoClipVisionEncoderLoader : node_class := {|
  INPUT_required :=
    [("model_name", TString); ("tokenizer_path", TString);
     ("precision", TCombo ["fp16"; "fp32"]); ("device", TCombo device_choices)];
  INPUT_optional := [("model_dir", TString)];
  RETURN_TYPES := ["LIGHT_CLIP_VISION_ENCODER"];
  RETURN_NAMES := ["clip_vision_encoder"];
  FUNCTION := "load_clip_vision_encoder";
  CATEGORY := "LightX2V";
  methods :=
    [INPUT_TYPES_method;
     ("load_clip_vision_encoder",
      [req "model_name"; req "tokenizer_path"; req "precision"; req "device";
       opt "model_dir" VNone])]
|}.

Definition Lightx2vWanVideoImageEncoder : node_class := {|
  INPUT_required :=
    [("vae", TCustom "LIGHT_WAN_VAE");
     ("clip_vision_encoder", TCustom "LIGHT_CLIP_VISION_ENCODER");
     ("image", TCustom "IMAGE"); ("width", TInt); ("height", TInt);
     ("num_frames", TInt)];
  INPUT_optional := [];
  RETURN_TYPES := ["LIGHT_IMAGE_EMBEDDINGS"];
  RETURN_NAMES := ["image_embeddings"];
  FUNCTION := "encode_image";
  CATEGORY := "LightX2V";
  methods :=
    [INPUT_TYPES_method;
     ("encode_image",
      [req "vae"; req "image"; req "clip_vision_encoder"; req "height";
       req "width"; req "num_frames"])]
|}.

Definition Lightx2vWanVideoEmptyEmbeds : node_class := {|
  INPUT_required := [("width", TInt); ("height", TInt); ("num_frames", TInt)];
  INPUT_optional := [];
  RETURN_TYPES := ["LIGHT_IMAGE_EMBEDDINGS"];
  RETURN_NAMES := ["image_embeddings"];
  FUNCTION := "process";
  CATEGORY := "LightX2V";
  methods :=
    [INPUT_TYPES_method;
     ("process",
      [req "num_frames"; req "width"; req "height"; opt "control_embeds" VNone])]
|}.

Definition Lightx2vWanVideoModelLoader : node_class := {|
  INPUT_required :=
    [("model_name", TString); ("model_type", TCombo ["t2v"; "i2v"]);
     ("precision", TCombo precision_choices); ("device", TCombo device_choices);
     ("attention_type", TCombo ["sdpa"; "flash_attn2"; "flash_attn3"]);
     ("cpu_offload", TBoolean); ("mm_type", TString)];
  INPUT_optional :=
    [("teacache_args", TCustom "LIGHT_TEACACHEARGS"); ("lora_path", TString);
     ("lora_strength", TFloat); ("model_dir", TString)];
  RETURN_TYPES := ["LIGHT_WAN_MODEL"];
  RETURN_NAMES := ["wan_model"];
  FUNCTION := "load_model";
  CATEGORY := "LightX2V";
  methods :=
    [INPUT_TYPES_method;
     ("load_model",
      [req "model_name"; req "model_type"; req "precision"; req "device";
       req "attention_type"; req "mm_type"; opt "lora_path" VNone;
       opt "lora_strength" (VFloat 1); opt "cpu_offload" (VBool false);
       opt "teacache_args" VNone; opt "model_dir" VNone])]
|}.

Definition Lightx2vWanVideoSampler : node_class := {|
  INPUT_required :=
    [("model", TCustom "LIGHT_WAN_MODEL");
     ("text_embeddings", TCustom "LIGHT_TEXT_EMBEDDINGS");
     ("image_embeddings", TCustom "LIGHT_IMAGE_EMBEDDINGS");
     ("steps", TInt); ("shift", TFloat); ("cfg_scale", TFloat); ("seed", TInt)];
  INPUT_optional := [];
  RETURN_TYPES := ["LIGHT_LATENT"];
  RETURN_NAMES := ["latent"];
  FUNCTION := "sample";
  CATEGORY := "LightX2V";
  methods :=
    [INPUT_TYPES_method;
     ("sample",
      [req "model"; req "text_embeddings"; req "steps"; req "shift";
       req "cfg_scale"; req "seed"; req "image_embeddings"])]
|}.

Definition NODE_CLASS_MAPPINGS : list (string * node_class) :=
  [("Lightx2vWanVideoModelDir", Lightx2vWanVideoModelDir);
   ("Lightx2vWanVideoT5EncoderLoader", Lightx2vWanVideoT5EncoderLoader);
   ("Lightx2vWanVideoT5Encoder", Lightx2vWanVideoT5Encoder);
   ("Lightx2vWanVideoClipVisionEncoderLoader",
    Lightx2vWanVideoClipVisionEncoderLoader);
   ("Lightx2vWanVideoVaeLoader", Lightx2vWanVideoVaeLoader);
   ("Lightx2vTeaCache", WanVideoTeaCache);
   ("Lightx2vWanVideoEmptyEmbeds", Lightx2vWanVideoEmptyEmbeds);
   ("Lightx2vWanVideoImageEncoder", Lightx2vWanVideoImageEncoder);
   ("Lightx2vWanVideoVaeDecoder", Lightx2vWanVideoVaeDecoder);
   ("Lightx2vWanVideoModelLoader", Lightx2vWanVideoModelLoader);
   ("Lightx2vWanVideoSampler", Lightx2vWanVideoSampler)].

(** The method a class's [FUNCTION] attribute names, when the class
    defines it. *)
Definition function_method (c : node_class) : option signature :=
  (list_to_map (methods c) : gmap string signature) !! FUNCTION c.

(** The host's registration convention, as a test on one class. *)
Definition registration_ok (c : node_class) : bool :=
  negb (Nat.eqb (length (RETURN_TYPES c)) 0)
  && bool_decide (FUNCTION c ∈ (methods c).*1)
  && String.eqb (CATEGORY c) "LightX2V".

(** Python's [==] between a value and a string literal. *)
Definition eq_str (v : pyval) (s : string) : bool :=
  match v with
  | VStr s' => String.eqb s' s
  | _ => false
  end.

(** An argument of a call whose keyword arguments were bound. *)
Definition arg (bound : dict) (name : string) : pyval :=
  default VNone (bound !! name).

Module TeaCache.

(** [WanVideoTeaCache.process], the body. *)
Definition process
  (rel_l1_thresh start_step end_step cache_device coefficients mode : pyval)
  : dict :=
  let teacache_device :=
    if eq_str cache_device "main_device" then comfy_torch_device
    else comfy_offload_device in
  let teacache_args : dict :=
    <["rel_l1_thresh" := rel_l1_thresh]>
    (<["start_step" := start_step]>
    (<["end_step" := end_step]>
    (<["cache_device" := VDevice teacache_device]>
    (<["coefficients" := coefficients]>
    (<["mode" := mode]> ∅))))) in
  teacache_args.

Definition process_signature : signature :=
  default [] (function_method WanVideoTeaCache).

(** The host's call of the node with the inputs [kwargs]. *)
Definition invoke (kwargs : dict) : result dict :=
  a ← bind_kwargs kwargs process_signature;
  Ok (process (arg a "rel_l1_thresh") (arg a "start_step") (arg a "end_step")
              (arg a "cache_device") (arg a "coefficients") (arg a "mode")).

End TeaCache.

Module ModelDir.

(** [Lightx2vWanVideoModelDir.process] *)
Definition process (fs : filesystem) (model_dir : string) : result string :=
  _ ← py_assert (fs_exists fs (Path model_dir));
  Ok model_dir.

End ModelDir.

(** ** The loader nodes *)

(** Truth value of an optional string widget: [None] and [""] are false. *)
Definition opt_truthy (s : option string) : bool :=
  match s with
  | Some s => str_truthy s
  | None => false
  end.

(** [d[k]] on a plain dictionary. *)
Definition getitem {V : Type} (d : gmap string V) (k : string) : result V :=
  match d !! k with
  | Some v => Ok v
  | None => Raise KeyError
  end.

(** The [dtype_map] literal of the three-precision loaders. *)
Definition dtype_map : gmap string dtype :=
  <["bf16" := bfloat16]> (<["fp16" := float16]> (<["fp32" := float32]> ∅)).

(** The [dtype_map] literal of the CLIP loader. *)
Definition clip_dtype_map : gmap string dtype :=
  <["fp16" := float16]> (<["fp32" := float32]> ∅).

(** [comfy_mm.get_torch_device() if device == "cuda" else torch.device("cpu")] *)
Definition resolve_device (device : string) : torch_device :=
  if String.eqb device "cuda" then comfy_torch_device else torch_cpu.

Fixpoint join_parts (ps : list string) : string :=
  match ps with
  | [] => ""
  | [p] => p
  | p :: ps' => p ++ "/" ++ join_parts ps'
  end.

(** [str(p)] *)
Definition path_str (p : path) : string :=
  let r := match root p with O => "" | 2%nat => "//" | _ => "/" end in
  match root p, parts p with
  | O, [] => "."
  | _, ps => r ++ join_parts ps
  end.

(** A variable that holds a [str] on one branch and a [Path] on the
    other. The [Path] methods do not exist on a [str]. *)
Inductive str_or_path : Type :=
| IsStr (s : string)
| IsPath (p : path).

Definition sp_truthy (x : str_or_path) : bool :=
  match x with
  | IsStr s => str_truthy s
  | IsPath _ => true
  end.

Definition sp_exists (fs : filesystem) (x : str_or_path) : result bool :=
  match x with
  | IsStr _ => Raise AttributeError
  | IsPath p => Ok (fs_exists fs p)
  end.

Definition sp_is_dir (fs : filesystem) (x : str_or_path) : result bool :=
  match x with
  | IsStr _ => Raise AttributeError
  | IsPath p => Ok (fs_is_dir fs p)
  end.

Definition sp_parent (x : str_or_path) : result path :=
  match x with
  | IsStr _ => Raise AttributeError
  | IsPath p => Ok (parent p)
  end.

(** [x / s]: a [str] has no [/] with a [str]. *)
Definition sp_join (x : str_or_path) (s : string) : result path :=
  match x with
  | IsStr _ => Raise TypeError
  | IsPath p => Ok (p // s)%path
  end.

(** The objects of the wrapped library the loaders construct, as the
    arguments of their constructors. *)
Record T5EncoderModel : Type := MkT5 {
  t5_text_len : Z;
  t5_dtype : dtype;
  t5_device : torch_device;
  t5_checkpoint_path : path;
  t5_tokenizer_path : path
}.

Record WanVAE : Type := MkVAE {
  vae_z_dim : Z;
  vae_pth : string;
  vae_dtype : dtype;
  vae_device : torch_device;
  vae_parallel : bool
}.

Record ClipVisionModel : Type := MkClip {
  clip_dtype : dtype;
  clip_device : torch_device;
  clip_checkpoint_path : str_or_path;
  clip_tokenizer_path : str_or_path
}.

Module T5EncoderLoader.

(** [Lightx2vWanVideoT5EncoderLoader.load_t5_encoder] *)
Definition load_t5_encoder (fs : filesystem)
  (model_name precision device : string) (model_dir : option string)
  : result T5EncoderModel :=
  dtype ← getitem dtype_map precision;
  '(model_name, tokenizer_path) ←
    (if opt_truthy model_dir then
       let model_dir := Path (default "" model_dir) in
       let model_name := (model_dir // model_name)%path in
       let tokenizer_path := (model_dir // "google" // "umt5-xxl")%path in
       Ok (model_name, tokenizer_path)
     else
       let model_name := Path model_name in
       py_assert (fs_exists fs model_name);;
       let tokenizer_path := (parent model_name // "google" // "umt5-xxl")%path in
       py_assert (fs_exists fs tokenizer_path);;
       Ok (model_name, tokenizer_path));
  let device := resolve_device device in
  let t5_encoder :=
    {| t5_text_len := 512; t5_dtype := dtype; t5_device := device;
       t5_checkpoint_path := model_name; t5_tokenizer_path := tokenizer_path |} in
  Ok t5_encoder.

End T5EncoderLoader.

Module VaeLoader.

(** [Lightx2vWanVideoVaeLoader.load_vae] *)
Definition load_vae (fs : filesystem)
  (model_name precision device : string) (parallel : bool)
  (model_dir : option string) : result WanVAE :=
  dtype ← getitem dtype_map precision;
  let model_name :=
    if opt_truthy model_dir
    then (Path (default "" model_dir) // model_name)%path
    else Path model_name in
  py_assert (fs_exists fs model_name);;
  let device := resolve_device device in
  let vae :=
    {| vae_z_dim := 16; vae_pth := path_str model_name; vae_dtype := dtype;
       vae_device := device; vae_parallel := parallel |} in
  Ok vae.

End VaeLoader.

Module ClipVisionEncoderLoader.

(** [Lightx2vWanVideoClipVisionEncoderLoader.load_clip_vision_encoder] *)
Definition load_clip_vision_encoder (fs : filesystem)
  (model_name tokenizer_path precision device : string)
  (model_dir : option string) : result ClipVisionModel :=
  dtype ← getitem clip_dtype_map precision;
  let '(model_name, tokenizer_path) :=
    if opt_truthy model_dir then
      let model_dir := Path (default "" model_dir) in
      (IsPath (model_dir // model_name)%path,
       IsPath (model_dir // tokenizer_path)%path)
    else (IsStr model_name, IsStr tokenizer_path) in
  e ← sp_exists fs model_name;
  py_assert e;;
  e ← sp_exists fs tokenizer_path;
  py_assert e;;
  let device := resolve_device device in
  let clip_vision_encoder :=
    {| clip_dtype := dtype; clip_device := device;
       clip_checkpoint_path := model_name;
       clip_tokenizer_path := tokenizer_path |} in
  Ok clip_vision_encoder.

End ClipVisionEncoderLoader.

(** ** The model loader *)

(** The [WanModel] object, as the arguments of its constructor other than
    the configuration, and the LoRA applied to it. The configuration it is
    constructed with is the very object stored under ["config"] in the
    node's output. *)
Record WanModel : Type := MkWanModel {
  wm_model_path : str_or_path;
  wm_device : torch_device;
  wm_lora : option (string * Q)
}.

(** The dictionary [{"wan_model": model, "config": config}]. The
    ["config"] entry is a reference to a mutable [EasyDict]: [md_config] is
    the content of that object at the time the dictionary is looked at. *)
Record model_dict : Type := MkModelDict {
  md_wan_model : WanModel;
  md_config : dict
}.

Module ModelLoader.

(** Truth value of [teacache_args]: a dictionary is true when it is not
    empty. *)
Definition teacache_truthy (teacache_args : option dict) : bool :=
  match teacache_args with
  | Some d => negb (bool_decide (d = ∅))
  | None => false
  end.

(** ["Tea" if teacache_args is not None else "NoCaching"] *)
Definition feature_caching_of (teacache_args : option dict) : string :=
  if bool_decide (teacache_args ≠ None) then "Tea" else "NoCaching".

(** [teacache_args["rel_l1_thresh"] if teacache_args else 0.26] *)
Definition teacache_thresh_of (teacache_args : option dict) : result pyval :=
  if teacache_truthy teacache_args
  then getitem (default ∅ teacache_args) "rel_l1_thresh"
  else Ok (VFloat (26 # 100)).

(** [lora_path if lora_path and lora_path.strip() else None] *)
Definition lora_path_entry (lora_path : option string) : pyval :=
  match lora_path with
  | Some s => if str_truthy s && str_truthy (strip s) then VStr s else VNone
  | None => VNone
  end.

(** The [config] dictionary literal. *)
Definition config_literal
  (cpu_offload : bool) (feature_caching : string) (teacache_thresh : pyval)
  (dtype : dtype) (mm_type : string) (model_name : str_or_path)
  (model_type : string) (device : torch_device) (attention_type : string)
  (lora_path : option string) (lora_strength : Q) : dict :=
  <["do_mm_calib" := VBool false]>
  (<["cpu_offload" := VBool cpu_offload]>
  (<["parallel_attn_type" := VNone]>
  (<["parallel_vae" := VBool false]>
  (<["max_area" := VBool false]>
  (<["vae_stride" := VTuple [VInt 4; VInt 8; VInt 8]]>
  (<["patch_size" := VTuple [VInt 1; VInt 2; VInt 2]]>
  (<["feature_caching" := VStr feature_caching]>
  (<["teacache_thresh" := teacache_thresh]>
  (<["use_ret_steps" := VBool false]>
  (<["use_bfloat16" := VBool (bool_decide (dtype = bfloat16))]>
  (<["mm_config" :=
      VDict [("mm_type", VStr mm_type);
             ("weight_auto_quant",
              VBool (if String.eqb mm_type "Default" then false else true))]]>
  (<["model_path" :=
      match model_name with IsStr s => VStr s | IsPath p => VPath p end]>
  (<["task" := VStr model_type]>
  (<["model_cls" := VStr "wan2.1"]>
  (<["device" := VDevice device]>
  (<["attention_type" := VStr attention_type]>
  (<["lora_path" := lora_path_entry lora_path]>
  (<["strength_model" := VFloat lora_strength]> ∅)))))))))))))))))).

(** [config.update] with the entries of [config_json]: the entries of [config.json] replace
    those of the literal. *)
Definition merge_config (config config_json : dict) : dict :=
  config_json ∪ config.

(** [Lightx2vWanVideoModelLoader.load_model] *)
Definition load_model (fs : filesystem)
  (model_name model_type precision device attention_type mm_type : string)
  (lora_path : option string) (lora_strength : Q) (cpu_offload : bool)
  (teacache_args : option dict) (model_dir : option string)
  : result model_dict :=
  dtype ← getitem dtype_map precision;
  let device := resolve_device device in
  let model_name :=
    if opt_truthy model_dir
    then IsPath (Path (default "" model_dir) // model_name)%path
    else IsStr model_name in
  py_assert (sp_truthy model_name);;
  e ← sp_exists fs model_name;
  py_assert e;;
  d ← sp_is_dir fs model_name;
  config_json_path ←
    (if (d : bool) then sp_join model_name "config.json"
     else p ← sp_parent model_name; Ok (p // "config.json")%path);
  config_json ←
    (if fs_exists fs config_json_path then Ok (fs_json fs config_json_path)
     else Raise FileNotFoundError);
  let feature_caching := feature_caching_of teacache_args in
  teacache_thresh ← teacache_thresh_of teacache_args;
  let config :=
    config_literal cpu_offload feature_caching teacache_thresh dtype mm_type
      model_name model_type device attention_type lora_path lora_strength in
  let config := merge_config config config_json in
  config ← EasyDict.construct config;
  let model :=
    {| wm_model_path := model_name; wm_device := device;
       wm_lora :=
         if opt_truthy lora_path && os_path_exists fs (default "" lora_path)
         then Some (default "" lora_path, lora_strength) else None |} in
  let wan_model := {| md_wan_model := model; md_config := config |} in
  Ok wan_model.

(** The path [load_model] checks, and the place it reads [config.json]
    from. *)
Definition model_path (model_dir : option string) (model_name : string) : path :=
  (Path (default "" model_dir) // model_name)%path.

Definition config_json_path (fs : filesystem) (p : path) : path :=
  if fs_is_dir fs p then (p // "config.json")%path
  else (parent p // "config.json")%path.

End ModelLoader.

(** ** Python operators on configuration values *)

Inductive num : Type := NInt (n : Z) | NFloat (q : Q).

Definition to_num (v : pyval) : option num :=
  match v with
  | VBool b => Some (NInt (if b then 1 else 0))
  | VInt n => Some (NInt n)
  | VFloat q => Some (NFloat q)
  | _ => None
  end.

Definition num_Q (x : num) : Q :=
  match x with
  | NInt n => inject_Z n
  | NFloat q => q
  end.

(** [a - b] and [a + b] on numbers; any other operand is a [TypeError]. *)
Definition py_sub (a b : pyval) : result pyval :=
  match to_num a, to_num b with
  | Some (NInt x), Some (NInt y) => Ok (VInt (x - y))
  | Some x, Some y => Ok (VFloat (num_Q x - num_Q y))
  | _, _ => Raise TypeError
  end.

Definition num_add (a b : pyval) : result pyval :=
  match to_num a, to_num b with
  | Some (NInt x), Some (NInt y) => Ok (VInt (x + y))
  | Some x, Some y => Ok (VFloat (num_Q x + num_Q y))
  | _, _ => Raise TypeError
  end.

(** [a // b]: floor division, [ZeroDivisionError] on a zero divisor. *)
Definition py_floordiv (a b : pyval) : result pyval :=
  match to_num a, to_num b with
  | Some (NInt x), Some (NInt y) =>
      if (y =? 0)%Z then Raise ZeroDivisionError else Ok (VInt (x `div` y))
  | Some x, Some y =>
      if Qeq_bool (num_Q y) 0 then Raise ZeroDivisionError
      else Ok (VFloat (inject_Z (Qfloor (num_Q x / num_Q y))))
  | _, _ => Raise TypeError
  end.

Fixpoint string_nth (s : string) (i : nat) : option ascii :=
  match s, i with
  | EmptyString, _ => None
  | String c _, O => Some c
  | String _ s', S i' => string_nth s' i'
  end.

(** [v[i]] for a literal index [i >= 0]. *)
Definition py_index (v : pyval) (i : nat) : result pyval :=
  match v with
  | VTuple l | VList l =>
      match l !! i with
      | Some x => Ok x
      | None => Raise IndexError
      end
  | VStr s =>
      match string_nth s i with
      | Some c => Ok (VStr (String c EmptyString))
      | None => Raise IndexError
      end
  | VDict _ => Raise KeyError
  | _ => Raise TypeError
  end.

Definition digit_of (c : ascii) : option Z :=
  let n := nat_of_ascii c in
  if ((48 <=? n) && (n <=? 57))%nat then Some (Z.of_nat (n - 48)) else None.

(** Decimal digits, single underscores allowed between digits. *)
Fixpoint parse_digits (s : string) (acc : Z) (after_digit : bool) : option Z :=
  match s with
  | EmptyString => if after_digit then Some acc else None
  | String c s' =>
      if Ascii.eqb c "_"%char then
        if after_digit then parse_digits s' acc false else None
      else
        match digit_of c with
        | Some d => parse_digits s' (10 * acc + d) true
        | None => None
        end
  end.

(** The white space [int] skips around the digits: the six characters of
    ASCII and, of the code points up to 255, the two spaces beyond ASCII.
    The separators [0x1c] to [0x1f], which [str.strip] removes, are not
    among them. *)
Definition int_isspace (c : ascii) : bool :=
  let n := nat_of_ascii c in
  ((9 <=? n) && (n <=? 13) || (n =? 32) || (n =? 133) || (n =? 160))%nat.

Fixpoint int_lstrip (s : string) : string :=
  match s with
  | EmptyString => EmptyString
  | String c s' => if int_isspace c then int_lstrip s' else s
  end.

Fixpoint int_rstrip (s : string) : string :=
  match s with
  | EmptyString => EmptyString
  | String c s' =>
      match int_rstrip s' with
      | EmptyString => if int_isspace c then EmptyString else String c EmptyString
      | r => String c r
      end
  end.

Fixpoint count_digits (s : string) : Z :=
  match s with
  | EmptyString => 0
  | String c s' =>
      (match digit_of c with Some _ => 1 | None => 0 end) + count_digits s'
  end.

(** [sys.int_info.default_max_str_digits]: a string of more digits is
    refused. *)
Definition int_max_str_digits : Z := 4300.

(** [int(s)] of a string, [None] for the strings it refuses. *)
Definition parse_int (s : string) : option Z :=
  let r := int_rstrip (int_lstrip s) in
  if int_max_str_digits <? count_digits r then None
  else
    match r with
    | String "+"%char r => parse_digits r 0 false
    | String "-"%char r => Z.opp <$> parse_digits r 0 false
    | r => parse_digits r 0 false
    end.

(** [int(v)] *)
Definition py_int (v : pyval) : result Z :=
  match v with
  | VInt n => Ok n
  | VBool b => Ok (if b then 1 else 0)
  | VFloat q => Ok (Qnum q `quot` Zpos (Qden q))
  | VStr s =>
      match parse_int s with
      | Some n => Ok n
      | None => Raise ValueError
      end
  | _ => Raise TypeError
  end.

(** [math.isclose(a, b)] with the default tolerances
    ([rel_tol = 1e-09], [abs_tol = 0.0]). *)
Definition isclose (a b : Q) : bool :=
  Qle_bool (Qabs (a - b)) ((1 # 1000000000) * Qminmax.Qmax (Qabs a) (Qabs b)).

(** ** Embeddings and the wrapped library's engine *)

(** A reference to a tensor (or generator) object of the wrapped library;
    the sampler never looks inside. *)
Inductive tensor_ref : Type := TensorRef (id : Z).

(** The dictionary [{"context": ..., "context_null": ...}]. *)
Record text_embeddings : Type := MkTextEmb {
  te_context : list tensor_ref;
  te_context_null : list tensor_ref
}.

(** The image embeddings dictionary: each key may be absent (or hold
    [None]), which [dict.get] does not tell apart. *)
Record image_embeddings : Type := MkImageEmb {
  ie_config : option dict;
  ie_clip_encoder_out : option tensor_ref;
  ie_vae_encode_out : option tensor_ref
}.

Record latent : Type := MkLatent {
  samples : tensor_ref;
  generator : tensor_ref
}.

Module EmptyEmbeds.

(** [Lightx2vWanVideoEmptyEmbeds.process] *)
Definition process (num_frames width height : Z) : image_embeddings :=
  let config : dict :=
    <["target_height" := VInt height]>
    (<["target_width" := VInt width]>
    (<["target_video_length" := VInt num_frames]>
    (<["vae_stride" := VTuple [VInt 4; VInt 8; VInt 8]]>
    (<["patch_size" := VTuple [VInt 1; VInt 2; VInt 2]]> ∅)))) in
  {| ie_config := Some config;
     ie_clip_encoder_out := None; ie_vae_encode_out := None |}.

End EmptyEmbeds.

Module ImageEncoder.

(** The dictionary [Lightx2vWanVideoImageEncoder.encode_image] returns:
    its configuration and the outputs of the two encoders. The method
    computes [lat_h] and [lat_w] in floating point from the aspect ratio
    of the image and rounds them to integers, and its encoder outputs are
    tensors of the wrapped library; the three are taken as given. *)
Definition encode_image_output (height width num_frames lat_h lat_w : Z)
  (clip_encoder_out vae_encode_out : tensor_ref) : image_embeddings :=
  let config : dict :=
    <["lat_w" := VInt lat_w]>
    (<["lat_h" := VInt lat_h]>
    (<["cpu_offload" := VBool false]>
    (<["target_height" := VInt height]>
    (<["target_width" := VInt width]>
    (<["target_video_length" := VInt num_frames]>
    (<["vae_stride" := VTuple [VInt 4; VInt 8; VInt 8]]>
    (<["patch_size" := VTuple [VInt 1; VInt 2; VInt 2]]> ∅))))))) in
  {| ie_config := Some config;
     ie_clip_encoder_out := Some clip_encoder_out;
     ie_vae_encode_out := Some vae_encode_out |}.

End ImageEncoder.

Module T5Encoder.

(** [Lightx2vWanVideoT5Encoder.encode_text]; [infer] is the encoder's
    method. The [print] of [context[0].shape] indexes the result. *)
Definition encode_text (infer : list string -> list tensor_ref)
  (prompt negative_prompt : string) : result text_embeddings :=
  let context := infer [prompt] in
  let context_null :=
    infer [if str_truthy negative_prompt then negative_prompt else ""] in
  let text_embeddings :=
    {| te_context := context; te_context_null := context_null |} in
  match context !! 0%nat with
  | Some _ => Ok text_embeddings
  | None => Raise IndexError
  end.

End T5Encoder.

Inductive scheduler_class : Type := WanScheduler | WanSchedulerTeaCaching.

(** The calls the sampler makes on objects it does not implement, in the
    order it makes them. A scheduler constructor is logged with the content
    of the configuration at the time of the call. *)
Inductive event : Type :=
| EvScheduler (cls : scheduler_class) (config : dict)
| EvSetScheduler
| EvPrepare (image_encoder_output : image_embeddings)
| EvProgressBar (total : Z)
| EvStepPre (step_index : Z)
| EvInfer (text_encoder_output : text_embeddings)
          (image_encoder_output : image_embeddings)
| EvStepPost
| EvProgressUpdate (n : Z)
| EvClear
| EvEmptyCache.

(** The wrapped library seen from the sampler: a state that each call
    transforms, and the three scheduler attributes the sampler reads. *)
Record Engine : Type := MkEngine {
  engine_state : Type;
  react : event -> engine_state -> engine_state;
  infer_steps : engine_state -> Z;
  latents : engine_state -> tensor_ref;
  sched_generator : engine_state -> tensor_ref
}.

(** ** The sampler

    [sample] runs in a state made of the content of the model's
    configuration object (shared with the model dictionary, so what
    [sample] writes stays after the call, also when it raises), the state
    of the wrapped library, and the log of the calls made on it. *)

Record sampler_state (E : Engine) : Type := MkState {
  st_config : dict;
  st_engine : engine_state E;
  st_trace : list event
}.

Arguments MkState {E} _ _ _.
Arguments st_config {E} _.
Arguments st_engine {E} _.
Arguments st_trace {E} _.

Definition M (E : Engine) (A : Type) : Type :=
  sampler_state E -> sampler_state E * result A.

#[global] Instance M_ret (E : Engine) : MRet (M E) := fun A a st => (st, Ok a).

#[global] Instance M_bind (E : Engine) : MBind (M E) := fun A B k m st =>
  match m st with
  | (st', Ok a) => k a st'
  | (st', Raise e) => (st', Raise e)
  end.

Section SamplerMonad.
Context {E : Engine}.

Definition raise {A : Type} (e : exn) : M E A := fun st => (st, Raise e).

Definition lift {A : Type} (r : result A) : M E A := fun st => (st, r).

Definition get_config : M E dict := fun st => (st, Ok (st_config st)).

(** [model_config.name] *)
Definition getattr (name : string) : M E pyval := fun st =>
  match st_config st !! name with
  | Some v => (st, Ok v)
  | None => (st, Raise AttributeError)
  end.

(** [model_config.name = v] *)
Definition setattr (name : string) (v : pyval) : M E unit := fun st =>
  (MkState (<[name := v]> (st_config st)) (st_engine st) (st_trace st), Ok tt).

(** [model_config.get(name, d)] *)
Definition config_get (name : string) (d : pyval) : M E pyval := fun st =>
  (st, EasyDict.get (st_config st) name d).

(** [model_config.update(e)]: [EasyDict.update] sets each entry of [e],
    and does nothing for [None]; the configuration is left as it is when
    the call raises. *)
Definition update_config (e : option dict) : M E unit := fun st =>
  match EasyDict.update (st_config st) e with
  | Ok c => (MkState c (st_engine st) (st_trace st), Ok tt)
  | Raise x => (st, Raise x)
  end.

(** A call on an object of the wrapped library. *)
Definition call (ev : event) : M E unit := fun st =>
  (MkState (st_config st) (react E ev (st_engine st)) (st_trace st ++ [ev]),
   Ok tt).

(** Reading an attribute of the scheduler. *)
Definition read {A : Type} (f : engine_state E -> A) : M E A := fun st =>
  (st, Ok (f (st_engine st))).

(** [for i in l: body(i)] *)
Fixpoint for_each (l : list Z) (body : Z -> M E unit) : M E unit :=
  match l with
  | [] => mret tt
  | i :: l' => body i;; for_each l' body
  end.

End SamplerMonad.

(** [range(n)] *)
Definition range (n : Z) : list Z := seqZ 0 n.

Definition is_None {A : Type} (o : option A) : bool :=
  match o with
  | None => true
  | Some _ => false
  end.

Module Sampler.
Section Sample.
Context {E : Engine}.

(** The check of the encoder outputs an [i2v] task needs. *)
Definition check_i2v_inputs (clip_encoder_out vae_encode_out : option tensor_ref)
  : M E unit :=
  task ← getattr "task";
  if eq_str task "i2v" && (is_None clip_encoder_out || is_None vae_encode_out)
  then raise ValueError
  else mret tt.

(** [wan_runner.set_target_shape] *)
Definition set_target_shape : M E unit :=
  num_channels_latents ← config_get "num_channels_latents" (VInt 16);
  task ← getattr "task";
  if eq_str task "i2v" then
    target_video_length ← getattr "target_video_length";
    a ← lift (py_sub target_video_length (VInt 1));
    vae_stride ← getattr "vae_stride";
    s0 ← lift (py_index vae_stride 0);
    b ← lift (py_floordiv a s0);
    frames ← lift (num_add b (VInt 1));
    lat_h ← getattr "lat_h";
    lat_w ← getattr "lat_w";
    setattr "target_shape" (VTuple [num_channels_latents; frames; lat_h; lat_w])
  else
    task ← getattr "task";
    if eq_str task "t2v" then
      target_video_length ← getattr "target_video_length";
      a ← lift (py_sub target_video_length (VInt 1));
      b ← lift (py_floordiv a (VInt 4));
      frames ← lift (num_add b (VInt 1));
      target_height ← getattr "target_height";
      h ← lift (py_int target_height);
      vae_stride ← getattr "vae_stride";
      s1 ← lift (py_index vae_stride 1);
      lat_h ← lift (py_floordiv (VInt h) s1);
      target_width ← getattr "target_width";
      w ← lift (py_int target_width);
      vae_stride ← getattr "vae_stride";
      s2 ← lift (py_index vae_stride 2);
      lat_w ← lift (py_floordiv (VInt w) s2);
      setattr "target_shape" (VTuple [VInt 16; frames; lat_h; lat_w])
    else mret tt.

(** [wan_runner.init_scheduler] *)
Definition init_scheduler : M E scheduler_class :=
  feature_caching ← getattr "feature_caching";
  if eq_str feature_caching "NoCaching" then
    model_config ← get_config;
    call (EvScheduler WanScheduler model_config);;
    mret WanScheduler
  else
    feature_caching ← getattr "feature_caching";
    if eq_str feature_caching "Tea" then
      model_config ← get_config;
      call (EvScheduler WanSchedulerTeaCaching model_config);;
      mret WanSchedulerTeaCaching
    else raise NotImplementedError.

(** One iteration of the sampling loop. *)
Definition sampling_step (text_embeddings : text_embeddings)
  (image_embeddings : image_embeddings) (step_index : Z) : M E unit :=
  call (EvStepPre step_index);;
  call (EvInfer text_embeddings image_embeddings);;
  call EvStepPost;;
  call (EvProgressUpdate 1).

(** The part of [sample] before the scheduler is constructed. *)
Definition configure (steps : Z) (shift cfg_scale : Q) (seed : Z)
  (image_embeddings : image_embeddings) : M E unit :=
  let image_config := ie_config image_embeddings in
  update_config image_config;;
  let clip_encoder_out := ie_clip_encoder_out image_embeddings in
  let vae_encode_out := ie_vae_encode_out image_embeddings in
  check_i2v_inputs clip_encoder_out vae_encode_out;;
  setattr "infer_steps" (VInt steps);;
  setattr "sample_shift" (VFloat shift);;
  setattr "sample_guide_scale" (VFloat cfg_scale);;
  setattr "seed" (VInt seed);;
  setattr "enable_cfg" (VBool (if isclose cfg_scale 1 then false else true));;
  setattr "offload_granularity" (VStr "block");;
  set_target_shape.

(** The part of [sample] from [wan_model.set_scheduler] on. *)
Definition run_sampling (steps : Z) (text_embeddings : text_embeddings)
  (image_embeddings : image_embeddings) : M E latent :=
  call EvSetScheduler;;
  call (EvPrepare image_embeddings);;
  call (EvProgressBar steps);;
  n ← read (infer_steps E);
  for_each (range n) (sampling_step text_embeddings image_embeddings);;
  call EvClear;;
  call EvEmptyCache;;
  s ← read (latents E);
  g ← read (sched_generator E);
  mret {| samples := s; generator := g |}.

(** [Lightx2vWanVideoSampler.sample]; the [model] argument is the state:
    its configuration is [st_config], its [WanModel] part of the engine. *)
Definition sample (text_embeddings : text_embeddings) (steps : Z)
  (shift cfg_scale : Q) (seed : Z) (image_embeddings : image_embeddings)
  : M E latent :=
  configure steps shift cfg_scale seed image_embeddings;;
  init_scheduler;;
  run_sampling steps text_embeddings image_embeddings.

End Sample.
End Sampler.

(** ** Tensors

    A tensor is its dtype, its shape and its element at each index. The
    elements are floating-point numbers in the format of the dtype: the
    arithmetic on them rounds to nearest (ties to even), overflows to an
    infinity and propagates NaN, as the operations of [SpecFloat] do. *)

(** The format of a dtype: the number of bits of the mantissa, the
    implicit one included, and the exponent of the infinities. *)
Definition precision_bits (dt : dtype) : Z :=
  match dt with
  | bfloat16 => 8
  | float16 => 11
  | float32 => 24
  end.

Definition max_exponent (dt : dtype) : Z :=
  match dt with
  | bfloat16 => 128
  | float16 => 16
  | float32 => 128
  end.

(** A Python [int] as an element of dtype [dt]. *)
Definition of_int (dt : dtype) (n : Z) : spec_float :=
  binary_normalize (precision_bits dt) (max_exponent dt) n 0 false.

(** An element as an element of dtype [dt]. *)
Definition cast (dt : dtype) (x : spec_float) : spec_float :=
  match x with
  | S754_finite s m e => binary_round (precision_bits dt) (max_exponent dt) s m e
  | _ => x
  end.

Definition fadd (dt : dtype) (x y : spec_float) : spec_float :=
  SFadd (precision_bits dt) (max_exponent dt) x y.

Definition fdiv (dt : dtype) (x y : spec_float) : spec_float :=
  SFdiv (precision_bits dt) (max_exponent dt) x y.

Definition isnan (x : spec_float) : bool :=
  match x with
  | S754_nan => true
  | _ => false
  end.

(** [x] is a number between [lo] and [hi]; NaN is not. *)
Definition between (lo hi x : spec_float) : bool := SFleb lo x && SFleb x hi.

(** [x] is a number, zero or infinite, of sign [s] ([true] for minus); NaN
    has no sign. *)
Definition has_sign (s : bool) (x : spec_float) : bool :=
  match x with
  | S754_zero s' | S754_infinity s' | S754_finite s' _ _ => Bool.eqb s' s
  | S754_nan => false
  end.

Record tensor : Type := MkTensor {
  dtype_of : dtype;
  shape : list nat;
  at_index : list nat -> spec_float
}.

(** An elementwise operation that keeps the dtype. *)
Definition tmap (f : spec_float -> spec_float) (x : tensor) : tensor :=
  {| dtype_of := dtype_of x; shape := shape x;
     at_index := fun idx => f (at_index x idx) |}.

(** [x + n] and [x / n] for a Python [int] [n]: the result has the dtype
    of [x]. *)
Definition add_int (x : tensor) (n : Z) : tensor :=
  tmap (fun a => fadd (dtype_of x) a (of_int (dtype_of x) n)) x.

Definition div_int (x : tensor) (n : Z) : tensor :=
  tmap (fun a => fdiv (dtype_of x) a (of_int (dtype_of x) n)) x.

(** [x.squeeze(0)]: drops the first dimension when its size is 1, and
    leaves the tensor as it is otherwise. *)
Definition squeeze0 (x : tensor) : tensor :=
  match shape x with
  | 1%nat :: s =>
      {| dtype_of := dtype_of x; shape := s;
         at_index := fun idx => at_index x (0%nat :: idx) |}
  | _ => x
  end.

(** The position of [j] in [dims]. *)
Fixpoint index_of (j : nat) (dims : list nat) : nat :=
  match dims with
  | [] => O
  | d :: ds => if Nat.eqb d j then O else S (index_of j ds)
  end.

Definition is_permutation (dims : list nat) (rank : nat) : bool :=
  Nat.eqb (length dims) rank
  && forallb (fun j => bool_decide (j ∈ dims)) (seq 0 rank).

(** [x.permute(dims)]: dimension [k] of the result is dimension [dims[k]]
    of [x]; a [RuntimeError] when [dims] is not a permutation of the
    dimensions of [x]. *)
Definition permute (dims : list nat) (x : tensor) : result tensor :=
  let rank := length (shape x) in
  if is_permutation dims rank then
    Ok {| dtype_of := dtype_of x;
          shape := (fun d => nth d (shape x) O) <$> dims;
          at_index := fun idx =>
            at_index x ((fun j => nth (index_of j dims) idx O) <$> seq 0 rank) |}
  else Raise RuntimeError.

(** [torch.clamp] on one element: NaN stays NaN, a number below [lo]
    becomes [lo], a number above [hi] becomes [hi]. *)
Definition clamp (lo hi x : spec_float) : spec_float :=
  if isnan x then x
  else if SFltb x lo then lo
  else if SFltb hi x then hi
  else x.

(** [torch.clamp(x, lo, hi)] for Python [int]s [lo] and [hi]. *)
Definition torch_clamp (x : tensor) (lo hi : Z) : tensor :=
  tmap (clamp (of_int (dtype_of x) lo) (of_int (dtype_of x) hi)) x.

(** ** The VAE decoder *)

Module VaeDecoder.

(** [Lightx2vWanVideoVaeDecoder.decode_latent]; [decode] is the VAE's
    method, called with the configuration [{"cpu_offload": False}]. *)
Definition decode_latent
  (decode : tensor_ref -> tensor_ref -> dict -> tensor) (latent : latent)
  : result tensor :=
  let config : dict := <["cpu_offload" := VBool false]> ∅ in
  let latents := samples latent in
  let generator := generator latent in
  let decoded_images := decode latents generator config in
  let images := div_int (add_int decoded_images 1) 2 in
  images ← permute [1; 2; 3; 0]%nat (squeeze0 images);
  let images := torch_clamp images 0 1 in
  Ok images.

End VaeDecoder.

(** ** Reading the log of calls *)

(** The calls of one iteration of the sampling loop, with index [i]. *)
Definition step_events (te : text_embeddings) (ie : image_embeddings) (i : Z)
  : list event :=
  [EvStepPre i; EvInfer te ie; EvStepPost; EvProgressUpdate 1].

(** The state of the wrapped library after a list of calls. *)
Definition run_events {E : Engine} (evs : list event) (s : engine_state E)
  : engine_state E :=
  fold_left (fun s ev => react E ev s) evs s.

(** The scheduler classes constructed in a log, in order. *)
Definition constructed (log : list event) : list scheduler_class :=
  omap (fun ev => match ev with EvScheduler c _ => Some c | _ => None end) log.

(** The calls of [run_sampling], given the number of iterations. *)
Definition sampling_events (steps : Z) (te : text_embeddings)
  (ie : image_embeddings) (n : Z) : list event :=
  [EvSetScheduler; EvPrepare ie; EvProgressBar steps]
  ++ (range n ≫= step_events te ie) ++ [EvClear; EvEmptyCache].

(** The value of [scheduler.infer_steps] when the loop starts. *)
Definition loop_bound {E : Engine} (steps : Z) (ie : image_embeddings)
  (s : engine_state E) : Z :=
  infer_steps E (run_events [EvSetScheduler; EvPrepare ie; EvProgressBar steps] s).

(** The attributes [sample] sets on the model configuration, besides the
    entries of the image configuration. *)
Definition written_keys : gset string :=
  {[ "infer_steps"; "sample_shift"; "sample_guide_scale"; "seed";
     "enable_cfg"; "offload_granularity"; "target_shape" ]}.

(** The configuration after the six assignments that follow the check of
    the encoder outputs. *)
Definition configured (steps : Z) (shift cfg_scale : Q) (seed : Z) (c : dict)
  : dict :=
  <["offload_granularity" := VStr "block"]>
  (<["enable_cfg" := VBool (if isclose cfg_scale 1 then false else true)]>
  (<["seed" := VInt seed]>
  (<["sample_guide_scale" := VFloat cfg_scale]>
  (<["sample_shift" := VFloat shift]>
  (<["infer_steps" := VInt steps]> c))))).

(** A computation that leaves the wrapped library alone and writes the
    configuration at the keys of [K] only. *)
Definition touches_only {E : Engine} {A : Type} (K : gset string) (m : M E A)
  : Prop :=
  ∀ st : sampler_state E,
    st_engine (m st).1 = st_engine st
    ∧ st_trace (m st).1 = st_trace st
    ∧ ∀ k, k ∉ K → st_config (m st).1 !! k = st_config st !! k.

(** The state after the constructor of class [cls] was called. *)
Definition with_scheduler {E : Engine} (cls : scheduler_class)
  (st : sampler_state E) : sampler_state E :=
  MkState (st_config st)
    (react E (EvScheduler cls (st_config st)) (st_engine st))
    (st_trace st ++ [EvScheduler cls (st_config st)]).

(** The configurations the scheduler constructors of a log were given. *)
Definition scheduler_configs (log : list event) : list dict :=
  omap (fun ev => match ev with EvScheduler _ c => Some c | _ => None end) log.

(** Image embeddings as the two upstream nodes return them. *)
Definition upstream_embeddings (ie : image_embeddings) : Prop :=
  (∃ num_frames width height : Z,
     ie = EmptyEmbeds.process num_frames width height)
  ∨ (∃ (height width num_frames lat_h lat_w : Z) (clip vae : tensor_ref),
       ie = ImageEncoder.encode_image_output height width num_frames lat_h lat_w
              clip vae).

(** ** The mask of the image encoder

    The tensor operations [encode_image] builds its mask with, on tensors
    of the dimensions they have there. *)

(** [torch.ones] with the sizes [s]: the default dtype is [float32]. *)
Definition ones (s : list nat) : tensor :=
  {| dtype_of := float32; shape := s; at_index := fun _ => of_int float32 1 |}.

(** [x[:, start:] = v] for a Python [int] [v], in place. *)
Definition fill_from (start : nat) (v : Z) (x : tensor) : tensor :=
  {| dtype_of := dtype_of x; shape := shape x;
     at_index := fun idx =>
       match idx with
       | _ :: i1 :: _ =>
           if (start <=? i1)%nat then of_int (dtype_of x) v else at_index x idx
       | _ => at_index x idx
       end |}.

(** [x[:, a:b]]; [b] is [None] for an open end. Bounds beyond the size of
    the dimension are clipped, as slices are. *)
Definition slice1 (a : nat) (b : option nat) (x : tensor) : tensor :=
  match shape x with
  | n0 :: n1 :: s =>
      let lo := Nat.min a n1 in
      let hi := Nat.max lo (Nat.min (default n1 b) n1) in
      {| dtype_of := dtype_of x; shape := n0 :: (hi - lo)%nat :: s;
         at_index := fun idx =>
           match idx with
           | i0 :: i1 :: rest => at_index x (i0 :: (lo + i1)%nat :: rest)
           | _ => at_index x idx
           end |}
  | _ => x
  end.

(** [torch.repeat_interleave(x, repeats=r, dim=1)] *)
Definition repeat_interleave1 (r : nat) (x : tensor) : tensor :=
  match shape x with
  | n0 :: n1 :: s =>
      {| dtype_of := dtype_of x; shape := n0 :: (n1 * r)%nat :: s;
         at_index := fun idx =>
           match idx with
           | i0 :: i1 :: rest => at_index x (i0 :: (i1 / r)%nat :: rest)
           | _ => at_index x idx
           end |}
  | _ => x
  end.

(** The dtype two floating-point dtypes are promoted to. *)
Definition promote (a b : dtype) : dtype :=
  if bool_decide (a = b) then a else float32.

(** [torch.concat([x, y], dim=1)]: a [RuntimeError] unless the sizes
    agree in every other dimension; the elements are cast to the promoted
    dtype. *)
Definition concat1 (x y : tensor) : result tensor :=
  match shape x, shape y with
  | n0 :: n1 :: s, m0 :: m1 :: s' =>
      if bool_decide (n0 = m0 ∧ s = s') then
        let dt := promote (dtype_of x) (dtype_of y) in
        Ok {| dtype_of := dt; shape := n0 :: (n1 + m1)%nat :: s;
              at_index := fun idx =>
                cast dt
                  match idx with
                  | i0 :: i1 :: rest =>
                      if (i1 <? n1)%nat then at_index x idx
                      else at_index y (i0 :: (i1 - n1)%nat :: rest)
                  | _ => at_index x idx
                  end |}
      else Raise RuntimeError
  | _, _ => Raise RuntimeError
  end.

Definition numel (s : list nat) : nat := foldr Nat.mul 1%nat s.

(** The position of an index in row-major order, and back. *)
Fixpoint ravel (idx s : list nat) : nat :=
  match idx, s with
  | i :: idx', _ :: s' => (i * numel s' + ravel idx' s')%nat
  | _, _ => O
  end.

Fixpoint unravel (k : nat) (s : list nat) : list nat :=
  match s with
  | [] => []
  | _ :: s' => (k / numel s')%nat :: unravel (k mod numel s') s'
  end.

(** [x.view] with the sizes [s], of a contiguous tensor: the same
    elements in row-major order; a [RuntimeError] when the numbers of
    elements differ. *)
Definition view (s : list nat) (x : tensor) : result tensor :=
  if Nat.eqb (numel s) (numel (shape x)) then
    Ok {| dtype_of := dtype_of x; shape := s;
          at_index := fun idx => at_index x (unravel (ravel idx s) (shape x)) |}
  else Raise RuntimeError.

(** [x.transpose(1, 2)] *)
Definition transpose12 (x : tensor) : result tensor :=
  match shape x with
  | n0 :: n1 :: n2 :: s =>
      Ok {| dtype_of := dtype_of x; shape := n0 :: n2 :: n1 :: s;
            at_index := fun idx =>
              match idx with
              | i0 :: i1 :: i2 :: rest => at_index x (i0 :: i2 :: i1 :: rest)
              | _ => at_index x idx
              end |}
  | _ => Raise IndexError
  end.

(** [x[0]] *)
Definition first_item (x : tensor) : result tensor :=
  match shape x with
  | S _ :: s =>
      Ok {| dtype_of := dtype_of x; shape := s;
            at_index := fun idx => at_index x (0%nat :: idx) |}
  | _ => Raise IndexError
  end.

Module ImageEncoderMask.

(** The tensor [msk] of [Lightx2vWanVideoImageEncoder.encode_image], from
    [torch.ones] to [msk.transpose(1, 2)[0]]. *)
Definition msk (target_video_length lat_h lat_w : nat) : result tensor :=
  let msk := ones [1; target_video_length; lat_h; lat_w]%nat in
  let msk := fill_from 1 0 msk in
  msk ← concat1 (repeat_interleave1 4 (slice1 0 (Some 1%nat) msk))
                (slice1 1 None msk);
  msk ← view [1; nth 1 (shape msk) O / 4; 4; lat_h; lat_w]%nat msk;
  msk ← transpose12 msk;
  first_item msk.

End ImageEncoderMask.

(** ** The target shape as a function of the configuration *)

(** [c.name] on a configuration that is not written. *)
Definition attr (c : dict) (name : string) : result pyval :=
  match c !! name with
  | Some v => Ok v
  | None => Raise AttributeError
  end.

(** The value [set_target_shape] assigns to [target_shape] on the
    configuration [c]: [None] when the task is neither ["i2v"] nor ["t2v"],
    an error when an expression of the assignment raises. *)
Definition target_shape_of (c : dict) : result (option pyval) :=
  num_channels_latents ← EasyDict.get c "num_channels_latents" (VInt 16);
  task ← attr c "task";
  if eq_str task "i2v" then
    target_video_length ← attr c "target_video_length";
    a ← py_sub target_video_length (VInt 1);
    vae_stride ← attr c "vae_stride";
    s0 ← py_index vae_stride 0;
    b ← py_floordiv a s0;
    frames ← num_add b (VInt 1);
    lat_h ← attr c "lat_h";
    lat_w ← attr c "lat_w";
    Ok (Some (VTuple [num_channels_latents; frames; lat_h; lat_w]))
  else
    task ← attr c "task";
    if eq_str task "t2v" then
      target_video_length ← attr c "target_video_length";
      a ← py_sub target_video_length (VInt 1);
      b ← py_floordiv a (VInt 4);
      frames ← num_add b (VInt 1);
      target_height ← attr c "target_height";
      h ← py_int target_height;
      vae_stride ← attr c "vae_stride";
      s1 ← py_index vae_stride 1;
      lat_h ← py_floordiv (VInt h) s1;
      target_width ← attr c "target_width";
      w ← py_int target_width;
      vae_stride ← attr c "vae_stride";
      s2 ← py_index vae_stride 2;
      lat_w ← py_floordiv (VInt w) s2;
      Ok (Some (VTuple [VInt 16; frames; lat_h; lat_w]))
    else Ok None.

(** The keys of the configuration [set_target_shape] reads. *)
Definition shape_keys : list string :=
  ["get"; "num_channels_latents"; "task"; "target_video_length"; "vae_stride";
   "lat_h"; "lat_w"; "target_height"; "target_width"].

(** The configuration [configure] leaves: the six assignments over the
    merged configuration, then the target shape. *)
Definition after_configure (steps : Z) (shift cfg_scale : Q) (seed : Z)
  (ic c : dict) (o : option pyval) : dict :=
  let w := configured steps shift cfg_scale seed (ic ∪ c) in
  match o with
  | Some v => <["target_shape" := v]> w
  | None => w
  end.

(** * Concrete inputs

    Inputs, file systems and an engine on which the adapters are run in
    the examples below. *)

(** The inputs of the TeaCache node at their declared defaults, named as
    [INPUT_TYPES] names them. *)
Definition teacache_default_inputs : dict :=
  <["rel_l1_thresh" := VFloat (26 # 100)]>
  (<["start_percent" := VFloat (1 # 10)]>
  (<["end_percent" := VFloat 1]>
  (<["cache_device" := VStr "offload_device"]>
  (<["coefficients" := VStr "i2v-14B-720p"]> ∅)))).


Definition wan_dir : string := "/models/Wan2.1-I2V-14B-480P".

(** A file system with nothing in it. *)
Definition empty_fs : filesystem :=
  {| fs_exists := fun _ => false; fs_is_dir := fun _ => false;
     fs_json := fun _ => ∅; os_path_exists := fun _ => false |}.


(** A [config.json] of the model directory. *)
Definition wan_config_json : dict :=
  <["dim" := VInt 5120]>
  (<["num_heads" := VInt 40]>
  (<["num_layers" := VInt 40]>
  (<["in_dim" := VInt 36]>
  (<["out_dim" := VInt 16]> ∅)))).

(** A file system that holds the model directory and its [config.json]. *)
Definition fs_with_config : filesystem :=
  {| fs_exists := fun p =>
       bool_decide (p = Path wan_dir)
       || bool_decide (p = (Path wan_dir // "config.json")%path);
     fs_is_dir := fun p => bool_decide (p = Path wan_dir);
     fs_json := fun p =>
       if bool_decide (p = (Path wan_dir // "config.json")%path)
       then wan_config_json else ∅;
     os_path_exists := fun _ => false |}.

(** The [float32] numbers 0.1 (the nearest one) and -3. *)
Definition f32_tenth : spec_float := S754_finite false 13421773 (-27).
Definition f32_minus_three : spec_float := S754_finite true 12582912 (-22).

(** A decoded [float32] video of one frame, two rows, two columns and
    three channels: the element at [[0; c; t; h; w]] is [c + h - w] in the
    first column of channel 0 and in channel 1, and 0.1, -3, infinity and
    NaN elsewhere. *)
Definition small_video : tensor :=
  {| dtype_of := float32;
     shape := [1; 3; 1; 2; 2]%nat;
     at_index := fun idx =>
       match idx with
       | [_; 0; _; 0; 1]%nat => f32_tenth
       | [_; 0; _; 1; 1]%nat => f32_minus_three
       | [_; 2; _; 0; 0]%nat => S754_infinity false
       | [_; 2; _; 0; 1]%nat => S754_infinity true
       | [_; 2; _; _; _]%nat => S754_nan
       | [_; c; _; h; w] => of_int float32 (Z.of_nat c + Z.of_nat h - Z.of_nat w)
       | _ => of_int float32 0
       end |}.

Definition small_latent : latent :=
  {| samples := TensorRef 1; generator := TensorRef 2 |}.

(** An engine that behaves as the schedulers of the wrapped library do in
    what the sampler reads: the constructor takes [infer_steps] from the
    configuration, [step_post] counts the steps done. The latents are
    named after the number of steps done. *)
Definition counting_engine : Engine :=
  {| engine_state := Z * Z;
     react := fun ev s =>
       match ev with
       | EvScheduler _ config =>
           (match config !! "infer_steps" with Some (VInt n) => n | _ => 0 end, 0)
       | EvStepPost => (s.1, s.2 + 1)
       | _ => s
       end;
     infer_steps := fun s => s.1;
     latents := fun s => TensorRef s.2;
     sched_generator := fun _ => TensorRef 0 |}.

(** The configuration [load_model] returns on [fs_with_config] for the
    given task, offload flag and caching arguments, the other widgets at
    their defaults. *)
Definition loaded_config (model_type : string) (cpu_offload : bool)
  (teacache_args : option dict) : dict :=
  match ModelLoader.load_model fs_with_config "" model_type "bf16" "cuda"
          "flash_attn3" "Default" None 1 cpu_offload teacache_args
          (Some wan_dir) with
  | Ok md => md_config md
  | Raise _ => ∅
  end.

Definition fresh_state (config : dict) : sampler_state counting_engine :=
  @MkState counting_engine config (0, 0) [].

Definition some_text : text_embeddings :=
  {| te_context := [TensorRef 10]; te_context_null := [TensorRef 11] |}.

(** Image embeddings as [encode_image] returns them. *)
Definition some_image : image_embeddings :=
  ImageEncoder.encode_image_output 480 832 81 60 104 (TensorRef 20) (TensorRef 21).

(** The model [load_model] returns on [fs_with_config] with the widgets at
    their defaults (and the model directory for [model_dir]). *)
Definition default_loaded_model : model_dict :=
  let p := IsPath (Path wan_dir // "")%path in
  {| md_wan_model :=
       {| wm_model_path := p; wm_device := comfy_torch_device; wm_lora := None |};
     md_config :=
       ModelLoader.merge_config
         (ModelLoader.config_literal false "NoCaching" (VFloat (26 # 100))
            bfloat16 "Default" p "i2v" comfy_torch_device "flash_attn3" None 1)
         wan_config_json |}.

(** A later invocation of the sampler on a model whose configuration is
    [config]: the wrapped library and the log start afresh, the
    configuration is the one the model dictionary refers to. *)
Definition next_invocation (st : sampler_state counting_engine)
  : sampler_state counting_engine :=
  fresh_state (st_config st).


(** ** The host's call of a node *)

Definition optional_names (c : node_class) : list string := (INPUT_optional c).*1.

(** The test that the host can call the [FUNCTION] method of a class with
    its declared inputs: each declared input names a parameter, and each
    parameter without a default is a declared required input. *)
Definition host_callable (c : node_class) : bool :=
  match function_method c with
  | Some sig =>
      forallb (fun n => bool_decide (n ∈ param_names sig))
        (required_names c ++ optional_names c)
      && forallb (fun p : string * option pyval =>
                    match p.2 with
                    | None => bool_decide (p.1 ∈ required_names c)
                    | Some _ => true
                    end) sig
  | None => false
  end.

(** The inputs of the empty-embeddings node at their declared defaults. *)
Definition empty_embeds_inputs : dict :=
  <["width" := VInt 832]> (<["height" := VInt 480]> (<["num_frames" := VInt 81]> ∅)).

(** Keyword arguments for [WanVideoTeaCache.process] named after its
    parameters. *)
Definition teacache_parameter_inputs : dict :=
  <["rel_l1_thresh" := VFloat (3 # 10)]>
  (<["start_step" := VInt 1]>
  (<["end_step" := VInt (-1)]>
  (<["cache_device" := VStr "main_device"]>
  (<["coefficients" := VStr "14B"]> ∅)))).

(** ** The display names *)

Definition NODE_DISPLAY_NAME_MAPPINGS : list (string * string) :=
  [("Lightx2vWanVideoModelDir", "LightX2V WAN Model Directory");
   ("Lightx2vWanVideoT5EncoderLoader", "LightX2V WAN T5 Encoder Loader");
   ("Lightx2vWanVideoT5Encoder", "LightX2V WAN T5 Encoder");
   ("Lightx2vWanVideoClipVisionEncoderLoader",
    "LightX2V WAN CLIP Vision Encoder Loader");
   ("Lightx2vWanVideoClipVisionEncoder", "LightX2V WAN CLIP Vision Encoder");
   ("Lightx2vWanVideoVaeLoader", "LightX2V WAN VAE Loader");
   ("Lightx2vWanVideoImageEncoder", "LightX2V WAN Image Encoder");
   ("Lightx2vWanVideoVaeDecoder", "LightX2V WAN VAE Decoder");
   ("Lightx2vWanVideoModelLoader", "LightX2V WAN Model Loader");
   ("Lightx2vWanVideoSampler", "LightX2V WAN Video Sampler");
   ("Lightx2vTeaCache", "LightX2V WAN Tea Cache");
   ("Lightx2vWanVideoEmptyEmbeds", "LightX2V WAN Video Empty Embeds")].

(** A decoded batch of two videos. *)
Definition two_videos : tensor :=
  {| dtype_of := float32; shape := [2; 3; 1; 2; 2]%nat;
     at_index := at_index small_video |}.

(** The model directory with a [config.json] that also has an entry named
    [name], as a method or an attribute of the configuration object may
    be. *)
Definition fs_with_entry (name : string) (v : pyval) : filesystem :=
  {| fs_exists := fs_exists fs_with_config;
     fs_is_dir := fs_is_dir fs_with_config;
     fs_json := fun p =>
       if bool_decide (p = (Path wan_dir // "config.json")%path)
       then <[name := v]> wan_config_json else ∅;
     os_path_exists := fun _ => false |}.

(** * Properties *)

(** ** Auxiliary facts *)

Lemma lstrip_all_space (s : string) : lstrip s = EmptyString ↔ all_space s = true.
Proof.
  induction s as [|c s IH]; simpl; [done|].
  destruct (py_isspace c); simpl; [done|]. split; discriminate.
Qed.

Lemma rstrip_empty (s : string) : rstrip s = EmptyString ↔ all_space s = true.
Proof.
  induction s as [|c s IH]; simpl; [done|].
  destruct (rstrip s) eqn:Hr.
  - destruct (py_isspace c); simpl.
    + split; [intros _; by apply IH | done].
    + split; discriminate.
  - split; [discriminate|].
    intros [_ Hs]%andb_true_iff. apply IH in Hs. discriminate.
Qed.

Lemma lstrip_no_space (s : string) :
  lstrip s ≠ EmptyString → all_space (lstrip s) = false.
Proof.
  induction s as [|c s IH]; simpl; [done|].
  destruct (py_isspace c) eqn:Hc; [done|]. intros _. simpl. by rewrite Hc.
Qed.

(** [s.strip()] is empty exactly when [s] holds white space only. *)
Lemma strip_empty (s : string) : strip s = EmptyString ↔ all_space s = true.
Proof.
  unfold strip. rewrite rstrip_empty. split.
  - intros H. destruct (lstrip s) eqn:Hl; [by apply lstrip_all_space|].
    assert (all_space (lstrip s) = false) as Hf
      by (apply lstrip_no_space; by rewrite Hl).
    rewrite Hl in Hf. congruence.
  - intros H. apply lstrip_all_space in H. by rewrite H.
Qed.

(** ** The model directory node *)

(** C5. [Lightx2vWanVideoModelDir.process] raises an [AssertionError]
    if and only if the path [model_dir] does not exist, it raises nothing
    else, and when the path exists it returns the string [model_dir]
    unchanged. *)
Theorem model_dir_process_spec (fs : filesystem) (model_dir : string) :
  (raises (ModelDir.process fs model_dir) AssertionError
   ↔ fs_exists fs (Path model_dir) = false)
  ∧ ModelDir.process fs model_dir =
      (if fs_exists fs (Path model_dir) then Ok model_dir
       else Raise AssertionError).
Proof.
  unfold raises, ModelDir.process.
  destruct (fs_exists fs (Path model_dir)); simpl; (split; [split|]);
    (done || discriminate).
Qed.

(** ** The registration table *)

(** C8. Every class registered in [NODE_CLASS_MAPPINGS] has a non-empty
    [RETURN_TYPES], a [FUNCTION] that names a method the class defines, and
    the [CATEGORY] ["LightX2V"]. *)
Theorem registered_classes_follow_convention (name : string) (c : node_class) :
  (name, c) ∈ NODE_CLASS_MAPPINGS →
  RETURN_TYPES c ≠ []
  ∧ (∃ sig, (FUNCTION c, sig) ∈ methods c)
  ∧ CATEGORY c = "LightX2V".
Proof.
  intros Hin.
  assert (registration_ok c = true) as Hok.
  { assert (forallb registration_ok (NODE_CLASS_MAPPINGS.*2) = true) as Hall
      by (vm_compute; reflexivity).
    rewrite forallb_forall in Hall. apply Hall.
    apply list_elem_of_In, list_elem_of_fmap. by exists (name, c). }
  unfold registration_ok in Hok.
  apply andb_true_iff in Hok as [[Hret Hfun]%andb_true_iff Hcat%String.eqb_eq].
  split; [|split; [|done]].
  - intros Hnil. rewrite Hnil in Hret. discriminate.
  - apply bool_decide_eq_true in Hfun.
    apply list_elem_of_fmap in Hfun as [[f sig] [Hf Hm]].
    simpl in Hf. subst. by exists sig.
Qed.

Lemma registered_classes_follow_convention_witness :
  RETURN_TYPES Lightx2vWanVideoSampler ≠ []
  ∧ (∃ sig, (FUNCTION Lightx2vWanVideoSampler, sig) ∈ methods Lightx2vWanVideoSampler)
  ∧ CATEGORY Lightx2vWanVideoSampler = "LightX2V".
Proof.
  apply (registered_classes_follow_convention "Lightx2vWanVideoSampler").
  unfold NODE_CLASS_MAPPINGS. do 10 apply list_elem_of_further.
  apply list_elem_of_here.
Defined.

(** ** Keyword binding and the TeaCache node *)

Lemma unexpected_keyword_intro (kwargs : dict) (sig : signature) (k : string) :
  is_Some (kwargs !! k) → k ∉ param_names sig →
  unexpected_keyword kwargs sig = true.
Proof.
  intros [v Hv] Hk. unfold unexpected_keyword.
  apply negb_true_iff, not_true_iff_false. intros Hall.
  rewrite forallb_forall in Hall.
  assert (k ∈ (map_to_list kwargs).*1) as Hin.
  { apply list_elem_of_fmap. exists (k, v). split; [done|].
    by apply elem_of_map_to_list. }
  apply list_elem_of_In, Hall, bool_decide_eq_true in Hin. done.
Qed.

Lemma bind_kwargs_unexpected (kwargs : dict) (sig : signature) (k : string) :
  is_Some (kwargs !! k) → k ∉ param_names sig →
  bind_kwargs kwargs sig = Raise TypeError.
Proof.
  intros Hs Hk. unfold bind_kwargs.
  by rewrite (unexpected_keyword_intro kwargs sig k).
Qed.

(** C9. [INPUT_TYPES] of [WanVideoTeaCache] declares the required inputs
    ["start_percent"] and ["end_percent"], [process] has no parameter of
    these names (it has [start_step] and [end_step]), and every call of
    [process] whose keyword arguments carry the declared required inputs
    fails with a [TypeError]. *)
Theorem teacache_declared_inputs_rejected (kwargs : dict) :
  (∀ n, n ∈ required_names WanVideoTeaCache → is_Some (kwargs !! n)) →
  ("start_percent" ∈ required_names WanVideoTeaCache
   ∧ "end_percent" ∈ required_names WanVideoTeaCache)
  ∧ (("start_percent" ∉ param_names TeaCache.process_signature)
     ∧ ("end_percent" ∉ param_names TeaCache.process_signature))
  ∧ ("start_step" ∈ param_names TeaCache.process_signature
     ∧ "end_step" ∈ param_names TeaCache.process_signature)
  ∧ TeaCache.invoke kwargs = Raise TypeError.
Proof.
  intros Hreq.
  assert ("start_percent" ∈ required_names WanVideoTeaCache) as Hsp
    by compute_done.
  assert ("start_percent" ∉ param_names TeaCache.process_signature) as Hnp
    by compute_done.
  split; [split; compute_done|].
  split; [split; compute_done|].
  split; [split; compute_done|].
  - unfold TeaCache.invoke.
    rewrite (bind_kwargs_unexpected kwargs _ "start_percent"); auto.
Qed.

Lemma teacache_declared_inputs_rejected_witness :
  TeaCache.invoke teacache_default_inputs = Raise TypeError.
Proof.
  apply (teacache_declared_inputs_rejected teacache_default_inputs).
  intros n Hn.
  unfold required_names, WanVideoTeaCache, teacache_default_inputs in *.
  simpl in Hn.
  repeat (apply elem_of_cons in Hn as [->|Hn]; [by simplify_map_eq|]).
  by apply elem_of_nil in Hn.
Defined.

(** ** The T5 encoder loader *)

Lemma str_truthy_ne (s : string) : s ≠ "" → str_truthy s = true.
Proof. by destruct s. Qed.

(** C10. With a non-empty [model_dir], [load_t5_encoder] does not look at
    the file system: its outcome is the same on every file system, and with
    a precision of [dtype_map] it returns the encoder constructed on the
    paths [model_dir / model_name] and [model_dir / "google" / "umt5-xxl"].
    Without [model_dir] it asserts that the checkpoint and the tokenizer
    paths exist. *)
Theorem t5_loader_checks_paths_only_without_model_dir
  (fs : filesystem) (model_name precision device model_dir : string) :
  model_dir ≠ "" →
  (∀ fs' : filesystem,
     T5EncoderLoader.load_t5_encoder fs' model_name precision device (Some model_dir)
     = T5EncoderLoader.load_t5_encoder fs model_name precision device (Some model_dir))
  ∧ (∀ dt : dtype, dtype_map !! precision = Some dt →
       T5EncoderLoader.load_t5_encoder fs model_name precision device (Some model_dir)
       = Ok {| t5_text_len := 512; t5_dtype := dt;
               t5_device := resolve_device device;
               t5_checkpoint_path := (Path model_dir // model_name)%path;
               t5_tokenizer_path :=
                 (Path model_dir // "google" // "umt5-xxl")%path |})
  ∧ (∀ dt : dtype, dtype_map !! precision = Some dt →
       (raises (T5EncoderLoader.load_t5_encoder fs model_name precision device None)
               AssertionError
        ↔ fs_exists fs (Path model_name)
          && fs_exists fs (parent (Path model_name) // "google" // "umt5-xxl")%path
          = false)).
Proof.
  intros Hdir. apply str_truthy_ne in Hdir.
  unfold T5EncoderLoader.load_t5_encoder, raises, getitem. simpl. rewrite Hdir.
  split; [done|]. split.
  - intros dt ->. done.
  - intros dt ->. simpl.
    destruct (fs_exists fs (Path model_name)); simpl; [|done].
    destruct (fs_exists fs _); simpl; [|done]. split; discriminate.
Qed.

Lemma t5_loader_checks_paths_only_without_model_dir_witness :
  T5EncoderLoader.load_t5_encoder empty_fs "models_t5_umt5-xxl-enc-bf16.pth"
    "bf16" "cuda" (Some wan_dir)
  = Ok {| t5_text_len := 512; t5_dtype := bfloat16;
          t5_device := comfy_torch_device;
          t5_checkpoint_path :=
            (Path wan_dir // "models_t5_umt5-xxl-enc-bf16.pth")%path;
          t5_tokenizer_path := (Path wan_dir // "google" // "umt5-xxl")%path |}.
Proof.
  assert (wan_dir ≠ "") as Hdir by discriminate.
  exact (proj1 (proj2 (t5_loader_checks_paths_only_without_model_dir
    empty_fs "models_t5_umt5-xxl-enc-bf16.pth" "bf16" "cuda" wan_dir Hdir))
    bfloat16 eq_refl).
Defined.

(** ** [EasyDict]: the constructor *)

Lemma construct_Ok (d : dict) :
  EasyDict.constructible d = true → EasyDict.construct d = Ok d.
Proof. intros H. unfold EasyDict.construct. by rewrite H. Qed.

Lemma construct_Ok_inv (d c : dict) :
  EasyDict.construct d = Ok c → c = d ∧ EasyDict.constructible d = true.
Proof.
  unfold EasyDict.construct. destruct (EasyDict.constructible d).
  - by intros [= <-].
  - by destruct (bool_decide _).
Qed.


Lemma entry_error_None (k : string) (v : pyval) :
  EasyDict.entry_error k v = None →
  EasyDict.convert_error v = None ∧ EasyDict.setattr_error k v = None.
Proof.
  unfold EasyDict.entry_error. by destruct (EasyDict.convert_error v).
Qed.


(** ** The model loader *)

(** The merged configuration is one the constructor accepts exactly when
    [config.json] is, and so is the threshold of [teacache_args] unless
    [config.json] replaces it: the other entries of the literal are
    scalars, paths, tuples of integers and a dictionary of two plain
    keys. *)
Lemma constructible_merge_config
  (cpu_offload : bool) (feature_caching : string) (teacache_thresh : pyval)
  (dt : dtype) (mm_type : string) (model_name : str_or_path)
  (model_type : string) (device : torch_device) (attention_type : string)
  (lora_path : option string) (lora_strength : Q) (config_json : dict) :
  EasyDict.constructible
    (ModelLoader.merge_config
       (ModelLoader.config_literal cpu_offload feature_caching teacache_thresh
          dt mm_type model_name model_type device attention_type lora_path
          lora_strength) config_json) = true
  ↔ EasyDict.constructible config_json = true
    ∧ (config_json !! "teacache_thresh" = None →
       EasyDict.convert_error teacache_thresh = None).
Proof.
  unfold EasyDict.constructible, ModelLoader.merge_config.
  rewrite !bool_decide_eq_true. split.
  - intros Hall. split; [by eapply map_Forall_union_1_1|].
    intros Hnone.
    refine (proj1 (entry_error_None "teacache_thresh" _ (Hall _ _ _))).
    rewrite lookup_union_r by done.
    unfold ModelLoader.config_literal. by simplify_map_eq.
  - intros [Hjson Hth] k v [Hk|[Hnone Hk]]%lookup_union_Some_raw;
      [by apply Hjson|].
    unfold ModelLoader.config_literal in Hk.
    repeat (apply lookup_insert_Some in Hk as [[<- <-]|[_ Hk]];
            [first [ reflexivity
                   | by (unfold EasyDict.entry_error; rewrite (Hth Hnone))
                   | by destruct model_name
                   | unfold ModelLoader.lora_path_entry;
                     by repeat case_match ]|]).
    by rewrite lookup_empty in Hk.
Qed.

(** What a successful [load_model] went through. *)
Lemma load_model_Ok_inv (fs : filesystem)
  (model_name model_type precision device attention_type mm_type : string)
  (lora_path : option string) (lora_strength : Q) (cpu_offload : bool)
  (teacache_args : option dict) (model_dir : option string) (md : model_dict) :
  ModelLoader.load_model fs model_name model_type precision device
    attention_type mm_type lora_path lora_strength cpu_offload teacache_args
    model_dir = Ok md →
  let p := ModelLoader.model_path model_dir model_name in
  ∃ (dt : dtype) (thresh : pyval),
    dtype_map !! precision = Some dt
    ∧ opt_truthy model_dir = true
    ∧ fs_exists fs p = true
    ∧ fs_exists fs (ModelLoader.config_json_path fs p) = true
    ∧ ModelLoader.teacache_thresh_of teacache_args = Ok thresh
    ∧ md_config md =
        ModelLoader.merge_config
          (ModelLoader.config_literal cpu_offload
             (ModelLoader.feature_caching_of teacache_args) thresh dt mm_type
             (IsPath p) model_type (resolve_device device) attention_type
             lora_path lora_strength)
          (fs_json fs (ModelLoader.config_json_path fs p)).
Proof.
  unfold ModelLoader.load_model, ModelLoader.model_path,
    ModelLoader.config_json_path, getitem.
  destruct (dtype_map !! precision) as [dt|]; simpl; [|discriminate].
  destruct (opt_truthy model_dir); simpl.
  2: { destruct (str_truthy model_name); simpl; discriminate. }
  destruct (fs_exists fs (Path (default "" model_dir) // model_name)%path);
    simpl; [|discriminate].
  destruct (fs_is_dir fs _); simpl.
  - destruct (fs_exists fs _); simpl; [|discriminate].
    destruct (ModelLoader.teacache_thresh_of teacache_args) as [th|];
      simpl; [|discriminate].
    destruct (EasyDict.construct _) as [c|] eqn:Hc; simpl; [|discriminate].
    apply construct_Ok_inv in Hc as [-> _].
    intros [= <-]. by exists dt, th.
  - destruct (fs_exists fs _); simpl; [|discriminate].
    destruct (ModelLoader.teacache_thresh_of teacache_args) as [th|];
      simpl; [|discriminate].
    destruct (EasyDict.construct _) as [c|] eqn:Hc; simpl; [|discriminate].
    apply construct_Ok_inv in Hc as [-> _].
    intros [= <-]. by exists dt, th.
Qed.

(** The constructor accepted the configuration of a loaded model. *)
Lemma load_model_Ok_constructible (fs : filesystem)
  (model_name model_type precision device attention_type mm_type : string)
  (lora_path : option string) (lora_strength : Q) (cpu_offload : bool)
  (teacache_args : option dict) (model_dir : option string) (md : model_dict) :
  ModelLoader.load_model fs model_name model_type precision device
    attention_type mm_type lora_path lora_strength cpu_offload teacache_args
    model_dir = Ok md →
  EasyDict.constructible (md_config md) = true.
Proof.
  unfold ModelLoader.load_model, getitem.
  destruct (dtype_map !! precision) as [dt|]; simpl; [|discriminate].
  destruct (opt_truthy model_dir); simpl.
  2: { destruct (str_truthy model_name); simpl; discriminate. }
  destruct (fs_exists fs _); simpl; [|discriminate].
  destruct (fs_is_dir fs _); simpl;
    (destruct (fs_exists fs _); simpl; [|discriminate];
     destruct (ModelLoader.teacache_thresh_of teacache_args) as [th|];
       simpl; [|discriminate];
     destruct (EasyDict.construct _) as [c|] eqn:Hc; simpl; [|discriminate];
     apply construct_Ok_inv in Hc as [-> Hc]; by intros [= <-]).
Qed.

Lemma dtype_map_lookup (precision : string) (dt : dtype) :
  dtype_map !! precision = Some dt
  ↔ (precision = "bf16" ∧ dt = bfloat16)
    ∨ (precision = "fp16" ∧ dt = float16)
    ∨ (precision = "fp32" ∧ dt = float32).
Proof.
  unfold dtype_map. rewrite !lookup_insert_Some, lookup_empty. split.
  - intros [[<- <-]|[_ [[<- <-]|[_ [[<- <-]|[_ ?]]]]]]; auto. done.
  - intros [[-> ->]|[[-> ->]|[-> ->]]]; [by left| |];
      right; (split; [done|]); [by left|].
    right. split; [done|]. by left.
Qed.

Lemma lora_path_entry_None (lora_path : option string) :
  ModelLoader.lora_path_entry lora_path = VNone
  ↔ lora_path = None ∨ ∃ s, lora_path = Some s ∧ all_space s = true.
Proof.
  unfold ModelLoader.lora_path_entry. destruct lora_path as [s|].
  - destruct s as [|c s]; simpl.
    + split; [right; by exists ""|done].
    + destruct (strip (String c s)) eqn:Hs; simpl.
      * apply strip_empty in Hs. split; [right; by eexists|done].
      * split; [done|]. intros [|[s' [[= <-] Hsp]]]; [done|].
        apply strip_empty in Hsp. congruence.
  - split; [by left|done].
Qed.

(** C6. The configuration [load_model] builds from the widget values:
    the precision maps to its torch dtype and ["use_bfloat16"] is true
    exactly for ["bf16"]; ["feature_caching"] is ["Tea"] when
    [teacache_args] is not [None] and ["NoCaching"] otherwise;
    ["teacache_thresh"] is [teacache_args["rel_l1_thresh"]] when
    [teacache_args] is given and [0.26] otherwise; ["lora_path"] is [None]
    when [lora_path] is missing, empty or white space only (and only then).
    The entries of [config.json] are merged over this dictionary, which
    leaves every key [config.json] does not define as built. *)
Theorem load_model_config_mapping (fs : filesystem)
  (model_name model_type precision device attention_type mm_type : string)
  (lora_path : option string) (lora_strength : Q) (cpu_offload : bool)
  (teacache_args : option dict) (model_dir : option string) (md : model_dict) :
  ModelLoader.load_model fs model_name model_type precision device
    attention_type mm_type lora_path lora_strength cpu_offload teacache_args
    model_dir = Ok md →
  let config_json :=
    fs_json fs (ModelLoader.config_json_path fs
                  (ModelLoader.model_path model_dir model_name)) in
  ∃ (dt : dtype) (config : dict),
    dtype_map !! precision = Some dt
    ∧ ((precision = "bf16" ∧ dt = bfloat16)
       ∨ (precision = "fp16" ∧ dt = float16)
       ∨ (precision = "fp32" ∧ dt = float32))
    ∧ md_config md = ModelLoader.merge_config config config_json
    ∧ (∀ k, config_json !! k = None → md_config md !! k = config !! k)
    ∧ config !! "use_bfloat16" = Some (VBool (bool_decide (precision = "bf16")))
    ∧ config !! "feature_caching" =
        Some (VStr (match teacache_args with
                    | Some _ => "Tea"
                    | None => "NoCaching"
                    end))
    ∧ (teacache_args = None →
       config !! "teacache_thresh" = Some (VFloat (26 # 100)))
    ∧ (∀ d v, teacache_args = Some d → d !! "rel_l1_thresh" = Some v →
       config !! "teacache_thresh" = Some v)
    ∧ (config !! "lora_path" = Some VNone
       ↔ lora_path = None ∨ ∃ s, lora_path = Some s ∧ all_space s = true).
Proof.
  intros Hok config_json. apply load_model_Ok_inv in Hok.
  destruct Hok as (dt & th & Hdt & _ & _ & _ & Hth & Hcfg).
  eexists dt, _. split; [exact Hdt|].
  split; [by apply dtype_map_lookup|].
  split; [exact Hcfg|].
  split.
  { intros k Hk. rewrite Hcfg. unfold ModelLoader.merge_config.
    by apply lookup_union_r. }
  unfold ModelLoader.config_literal.
  split.
  { simplify_map_eq. do 2 f_equal.
    apply dtype_map_lookup in Hdt as [[-> ->]|[[-> ->]|[-> ->]]]; done. }
  split.
  { simplify_map_eq. unfold ModelLoader.feature_caching_of.
    by destruct teacache_args. }
  split.
  { intros ->. simplify_map_eq. by injection Hth as <-. }
  split.
  { intros d v -> Hv. simplify_map_eq.
    unfold ModelLoader.teacache_thresh_of, ModelLoader.teacache_truthy in Hth.
    simpl in Hth. case_bool_decide as Hd; simpl in Hth.
    - subst d. by rewrite lookup_empty in Hv.
    - unfold getitem in Hth. rewrite Hv in Hth. by injection Hth as <-. }
  simplify_map_eq. rewrite <- lora_path_entry_None. split; [by intros [= ->]|by intros ->].
Qed.

Lemma load_model_config_mapping_witness :
  ModelLoader.load_model fs_with_config "" "i2v" "bf16" "cuda" "flash_attn3"
    "Default" None 1 false None (Some wan_dir) = Ok default_loaded_model
  ∧ md_config default_loaded_model !! "use_bfloat16" = Some (VBool true)
  ∧ md_config default_loaded_model !! "feature_caching" = Some (VStr "NoCaching")
  ∧ md_config default_loaded_model !! "teacache_thresh" = Some (VFloat (26 # 100))
  ∧ md_config default_loaded_model !! "lora_path" = Some VNone.
Proof.
  assert (ModelLoader.load_model fs_with_config "" "i2v" "bf16" "cuda"
            "flash_attn3" "Default" None 1 false None (Some wan_dir)
          = Ok default_loaded_model) as Hload by (vm_compute; reflexivity).
  split; [exact Hload|].
  destruct (load_model_config_mapping _ _ _ _ _ _ _ _ _ _ _ _ _ Hload)
    as (dt & config & _ & _ & _ & Hframe & Hbf & Hfc & Hth & _ & Hlora).
  rewrite !Hframe by (vm_compute; reflexivity).
  rewrite Hbf, Hfc, (Hth eq_refl), (proj2 Hlora (or_introl eq_refl)).
  repeat split; reflexivity.
Defined.

(** ** Floating-point elements *)

Section Rounding.
Variables prec emax : Z.

Lemma shr_1_nonneg (mrs : shr_record) : 0 <= shr_m mrs → 0 <= shr_m (shr_1 mrs).
Proof. destruct mrs as [[|[p|p|]|p] r s]; simpl; lia. Qed.

Lemma iter_shr_1_nonneg (p : positive) (mrs : shr_record) :
  0 <= shr_m mrs → 0 <= shr_m (iter_pos shr_1 p mrs).
Proof.
  revert mrs. induction p as [p IH|p IH|]; intros mrs H; simpl.
  - apply IH, IH. by apply shr_1_nonneg.
  - by apply IH, IH.
  - by apply shr_1_nonneg.
Qed.

Lemma shr_fexp_nonneg (m e : Z) (l : location) :
  0 <= m → 0 <= shr_m (shr_fexp prec emax m e l).1.
Proof.
  intros H. unfold shr_fexp, shr.
  assert (0 <= shr_m (shr_record_of_loc m l)) as H0
    by (by destruct l as [|[]]).
  destruct (fexp prec emax (Zdigits2 m + e) - e); simpl; try done.
  by apply iter_shr_1_nonneg.
Qed.

Lemma round_nearest_even_nonneg (m : Z) (l : location) :
  0 <= m → 0 <= round_nearest_even m l.
Proof.
  intros H. destruct l as [|[]]; simpl; try lia.
  destruct (Z.even m); lia.
Qed.

(** Rounding a mantissa that is not negative gives a number, zero or
    infinite, of the sign asked for: never NaN. *)
Lemma binary_round_aux_sign (s : bool) (m e : Z) (l : location) :
  0 <= m → has_sign s (binary_round_aux prec emax s m e l) = true.
Proof.
  intros H. unfold binary_round_aux.
  pose proof (shr_fexp_nonneg m e l H) as H1.
  destruct (shr_fexp prec emax m e l) as [mrs' e']. simpl in H1.
  pose proof (shr_fexp_nonneg _ e' loc_Exact
                (round_nearest_even_nonneg _ (loc_of_shr_record mrs') H1)) as H2.
  destruct (shr_fexp prec emax _ e' loc_Exact) as [mrs'' e'']. simpl in H2.
  destruct (shr_m mrs'') as [|p|p]; simpl; [by destruct s| |lia].
  destruct (e'' <=? emax - prec); by destruct s.
Qed.

Lemma binary_round_sign (s : bool) (m : positive) (e : Z) :
  has_sign s (binary_round prec emax s m e) = true.
Proof.
  unfold binary_round. destruct (shl_align _ _ _) as [mz ez].
  by apply binary_round_aux_sign.
Qed.

Lemma has_sign_not_nan (s : bool) (x : spec_float) :
  has_sign s x = true → isnan x = false.
Proof. by destruct x. Qed.

Lemma binary_normalize_not_nan (m e : Z) (sz : bool) :
  isnan (binary_normalize prec emax m e sz) = false.
Proof.
  destruct m as [|p|p]; simpl; [done|..];
    eapply has_sign_not_nan, binary_round_sign.
Qed.

(** A sum is NaN only when a term is, or when both are infinite. *)
Lemma SFadd_not_nan (x : spec_float) (s : bool) (m : positive) (e : Z) :
  isnan x = false → isnan (SFadd prec emax x (S754_finite s m e)) = false.
Proof.
  destruct x as [sx|sx| |sx mx ex]; simpl; try done.
  intros _. apply binary_normalize_not_nan.
Qed.

Lemma SFdiv_core_binary_nonneg (m1 m2 : positive) (e1 e2 : Z) :
  0 <= (SFdiv_core_binary prec emax (Zpos m1) e1 (Zpos m2) e2).1.1.
Proof.
  unfold SFdiv_core_binary.
  set (s := _ - _ - Z.min _ _). clearbody s.
  set (m' := match s with Z0 => Zpos m1 | Zpos _ => Z.shiftl (Zpos m1) s
             | Zneg _ => 0 end).
  assert (0 <= m') as Hm'.
  { subst m'. destruct s; try lia. apply Z.shiftl_nonneg. lia. }
  clearbody m'.
  pose proof (Z.div_pos m' (Zpos m2) Hm' ltac:(lia)) as Hq.
  unfold Z.div in Hq. by destruct (Z.div_eucl m' (Zpos m2)) as [q r].
Qed.

(** The quotient by a number other than zero is NaN only when the
    dividend is. *)
Lemma SFdiv_not_nan (x : spec_float) (s : bool) (m : positive) (e : Z) :
  isnan x = false → isnan (SFdiv prec emax x (S754_finite s m e)) = false.
Proof.
  destruct x as [sx|sx| |sx mx ex]; simpl; try done.
  intros _. pose proof (SFdiv_core_binary_nonneg mx m ex e) as Hq.
  destruct (SFdiv_core_binary _ _ _ _ _ _) as [[mz ez] lz]. simpl in Hq.
  eapply has_sign_not_nan, binary_round_aux_sign, Hq.
Qed.

End Rounding.

(** The order of the numbers is total. *)
Lemma SFcompare_swap (x y : spec_float) :
  SFcompare y x = CompOpp <$> SFcompare x y.
Proof.
  destruct x as [sx|sx| |sx mx ex], y as [sy|sy| |sy my ey]; simpl;
    try done; try (by destruct sx); try (by destruct sy);
    try (by destruct sx, sy).
  destruct sx, sy; simpl; try done.
  - rewrite (Z.compare_antisym ex ey).
    destruct (ex ?= ey); simpl; try done.
    f_equal. rewrite <- (Pos.compare_cont_antisym _ _ Eq).
    by rewrite CompOpp_involutive.
  - rewrite (Z.compare_antisym ex ey).
    destruct (ex ?= ey); simpl; try done.
    f_equal. by rewrite <- (Pos.compare_cont_antisym _ _ Eq).
Qed.

Lemma SFltb_false_SFleb (x y : spec_float) :
  isnan x = false → isnan y = false → SFltb x y = false → SFleb y x = true.
Proof.
  intros Hx Hy. unfold SFltb, SFleb. rewrite (SFcompare_swap x y).
  destruct (SFcompare x y) as [[]|] eqn:Hc; simpl; try done.
  destruct x, y; simpl in *; try done.
Qed.

(** [clamp] leaves NaN as it is and takes every number between the
    bounds. *)
Lemma clamp_nan (lo hi x : spec_float) :
  isnan lo = false → isnan hi = false →
  isnan (clamp lo hi x) = isnan x.
Proof.
  intros Hlo Hhi. unfold clamp. destruct (isnan x) eqn:Hx; [done|].
  destruct (SFltb x lo); [done|]. by destruct (SFltb hi x).
Qed.

Lemma clamp_between (lo hi x : spec_float) :
  isnan lo = false → isnan hi = false → SFleb lo hi = true →
  isnan x = false →
  between lo hi (clamp lo hi x) = true.
Proof.
  intros Hlo Hhi Hle Hx. unfold clamp, between. rewrite Hx.
  assert (∀ y, isnan y = false → SFleb y y = true) as Hrefl.
  { intros y Hy. apply SFltb_false_SFleb; try done.
    unfold SFltb. pose proof (SFcompare_swap y y) as Hs.
    destruct (SFcompare y y) as [[]|]; try done. }
  destruct (SFltb x lo) eqn:H1.
  { by rewrite Hrefl, Hle. }
  destruct (SFltb hi x) eqn:H2.
  { by rewrite Hle, Hrefl. }
  by rewrite !SFltb_false_SFleb.
Qed.

(** The integers 0, 1 and 2 in each dtype. *)
Lemma of_int_small (dt : dtype) :
  of_int dt 0 = S754_zero false
  ∧ (∃ m e, of_int dt 1 = S754_finite false m e)
  ∧ (∃ m e, of_int dt 2 = S754_finite false m e)
  ∧ SFleb (of_int dt 0) (of_int dt 1) = true.
Proof. destruct dt; vm_compute; repeat split; by eexists _, _. Qed.

(** The pixel of a decoded element: NaN exactly for NaN. *)
Lemma pixel_nan (dt : dtype) (x : spec_float) :
  isnan (clamp (of_int dt 0) (of_int dt 1)
           (fdiv dt (fadd dt x (of_int dt 1)) (of_int dt 2))) = isnan x.
Proof.
  destruct (of_int_small dt) as (H0 & (m1 & e1 & H1) & (m2 & e2 & H2) & _).
  rewrite clamp_nan by (by rewrite ?H0, ?H1).
  destruct (isnan x) eqn:Hx.
  - by destruct x.
  - rewrite H1, H2. unfold fadd, fdiv. by apply SFdiv_not_nan, SFadd_not_nan.
Qed.

Lemma pixel_between (dt : dtype) (x : spec_float) :
  isnan x = false →
  between (of_int dt 0) (of_int dt 1)
    (clamp (of_int dt 0) (of_int dt 1)
       (fdiv dt (fadd dt x (of_int dt 1)) (of_int dt 2))) = true.
Proof.
  intros Hx.
  destruct (of_int_small dt) as (H0 & (m1 & e1 & H1) & (m2 & e2 & H2) & Hle).
  apply clamp_between; [by rewrite H0|by rewrite H1|done|].
  rewrite H1, H2. unfold fadd, fdiv. by apply SFdiv_not_nan, SFadd_not_nan.
Qed.

(** ** The VAE decoder *)

(** What [decode_latent] returns on a tensor of five dimensions with a
    batch of one. *)
Lemma decode_latent_at
  (decode : tensor_ref → tensor_ref → dict → tensor) (lat : latent)
  (C T H W : nat) :
  let d := decode (samples lat) (generator lat) (<["cpu_offload" := VBool false]> ∅) in
  let dt := dtype_of d in
  shape d = [1; C; T; H; W]%nat →
  ∃ images : tensor,
    VaeDecoder.decode_latent decode lat = Ok images
    ∧ shape images = [T; H; W; C]
    ∧ dtype_of images = dt
    ∧ ∀ t h w c : nat,
        at_index images [t; h; w; c]
        = clamp (of_int dt 0) (of_int dt 1)
            (fdiv dt (fadd dt (at_index d [0; c; t; h; w]%nat) (of_int dt 1))
               (of_int dt 2)).
Proof.
  intros d dt Hshape. unfold VaeDecoder.decode_latent. fold d.
  unfold squeeze0, permute. simpl. rewrite Hshape. simpl.
  eexists. split; [reflexivity|]. simpl. done.
Qed.

(** C4, as stated, fails: a NaN in the decoded tensor comes out of
    [torch.clamp] as it is. In [small_video], of shape [[1; 3; 1; 2; 2]],
    the element of channel 2 at row 1 and column 0 is NaN, and so is the
    pixel returned for it, which therefore does not lie in [[0, 1]]. *)
Lemma decoded_nan_stays_nan :
  shape small_video = [1; 3; 1; 2; 2]%nat
  ∧ ∃ images : tensor,
      VaeDecoder.decode_latent (fun _ _ _ => small_video) small_latent = Ok images
      ∧ at_index images [0; 1; 0; 2]%nat = S754_nan
      ∧ between (of_int float32 0) (of_int float32 1)
          (at_index images [0; 1; 0; 2]%nat) = false.
Proof.
  split; [reflexivity|].
  destruct (decode_latent_at (fun _ _ _ => small_video) small_latent 3 1 2 2
              eq_refl) as (images & Hok & _ & _ & Hat).
  exists images. split; [exact Hok|].
  rewrite Hat. split; vm_compute; reflexivity.
Qed.

(** C4, amended. For a decoded tensor [d] of shape [[1; C; T; H; W]],
    [decode_latent] returns a tensor of the dtype of [d] and of shape
    [[T; H; W; C]] whose element at [[t; h; w; c]] is
    [clamp((d[0, c, t, h, w] + 1) / 2, 0, 1)], the sum and the quotient
    rounded in the dtype of [d]; the pixel of every element of [d] that is
    not NaN lies in [[0, 1]]. *)
Theorem decode_latent_image_convention
  (decode : tensor_ref → tensor_ref → dict → tensor) (lat : latent)
  (C T H W : nat) :
  let d := decode (samples lat) (generator lat) (<["cpu_offload" := VBool false]> ∅) in
  let dt := dtype_of d in
  shape d = [1; C; T; H; W]%nat →
  ∃ images : tensor,
    VaeDecoder.decode_latent decode lat = Ok images
    ∧ shape images = [T; H; W; C]
    ∧ dtype_of images = dt
    ∧ (∀ t h w c : nat,
         at_index images [t; h; w; c]
         = clamp (of_int dt 0) (of_int dt 1)
             (fdiv dt (fadd dt (at_index d [0; c; t; h; w]%nat) (of_int dt 1))
                (of_int dt 2)))
    ∧ (∀ t h w c : nat,
         isnan (at_index d [0; c; t; h; w]%nat) = false →
         between (of_int dt 0) (of_int dt 1) (at_index images [t; h; w; c])
         = true).
Proof.
  intros d dt Hshape.
  destruct (decode_latent_at decode lat C T H W Hshape)
    as (images & Hok & Hsh & Hdt & Hat).
  exists images. do 4 (split; [done|]).
  intros t h w c Hx. rewrite Hat. by apply pixel_between.
Qed.

Lemma decode_latent_image_convention_witness :
  ∃ images : tensor,
    VaeDecoder.decode_latent (fun _ _ _ => small_video) small_latent = Ok images
    ∧ shape images = [1; 2; 2; 3]%nat
    ∧ at_index images [0; 0; 0; 1]%nat = of_int float32 1
    ∧ at_index images [0; 0; 0; 0]%nat = S754_finite false 8388608 (-24)
    ∧ at_index images [0; 0; 1; 0]%nat = S754_finite false 9227469 (-24)
    ∧ between (of_int float32 0) (of_int float32 1)
        (at_index images [0; 1; 1; 0]%nat) = true.
Proof.
  destruct (decode_latent_image_convention (fun _ _ _ => small_video)
              small_latent 3 1 2 2 eq_refl)
    as (images & Hok & Hshape & _ & Hat & Hin).
  exists images. split; [exact Hok|]. split; [exact Hshape|].
  rewrite !Hat. do 3 (split; [vm_compute; reflexivity|]).
  rewrite <- Hat. apply Hin. reflexivity.
Defined.

(** ** EasyDict: methods hidden by entries *)

Lemma EasyDict_update_Ok (c : dict) (e : option dict) :
  c !! "update" = None → default ∅ e !! "update" = None →
  EasyDict.update c e = Ok (default ∅ e ∪ c).
Proof. intros Hc He. unfold EasyDict.update, EasyDict.method. by rewrite Hc, He. Qed.

Lemma EasyDict_update_inv (c : dict) (e : option dict) (c' : dict) :
  EasyDict.update c e = Ok c' →
  c !! "update" = None ∧ default ∅ e !! "update" = None
  ∧ c' = default ∅ e ∪ c.
Proof.
  unfold EasyDict.update, EasyDict.method.
  destruct (c !! "update"); [discriminate|].
  destruct (default ∅ e !! "update"); [discriminate|]. by intros [= <-].
Qed.

Lemma EasyDict_get_Ok (c : dict) (name : string) (d : pyval) :
  c !! "get" = None → EasyDict.get c name d = Ok (default d (c !! name)).
Proof. intros Hc. unfold EasyDict.get, EasyDict.method. by rewrite Hc. Qed.

(** ** The sampler: the state monad *)

Section SamplerFacts.
Context {E : Engine}.
Implicit Types (st : sampler_state E) (te : text_embeddings)
  (ie : image_embeddings).

Lemma M_bind_unfold {A B : Type} (m : M E A) (k : A → M E B) st :
  (m ≫= k) st =
  match m st with
  | (st', Ok a) => k a st'
  | (st', Raise e) => (st', Raise e)
  end.
Proof. reflexivity. Qed.

Lemma run_events_app (evs evs' : list event) (s : engine_state E) :
  run_events (evs ++ evs') s = run_events evs' (run_events evs s).
Proof. apply fold_left_app. Qed.

Lemma call_spec (ev : event) st :
  call ev st =
  (MkState (st_config st) (run_events [ev] (st_engine st)) (st_trace st ++ [ev]),
   Ok tt).
Proof. reflexivity. Qed.

Lemma bind_call {B : Type} (ev : event) (k : unit → M E B) st :
  (call ev ≫= k) st =
  k tt (MkState (st_config st) (react E ev (st_engine st)) (st_trace st ++ [ev])).
Proof. reflexivity. Qed.

Lemma bind_read {A B : Type} (f : engine_state E → A) (k : A → M E B) st :
  (read f ≫= k) st = k (f (st_engine st)) st.
Proof. reflexivity. Qed.

Lemma sampling_step_spec te ie (i : Z) st :
  Sampler.sampling_step te ie i st =
  (MkState (st_config st) (run_events (step_events te ie i) (st_engine st))
     (st_trace st ++ step_events te ie i), Ok tt).
Proof.
  unfold Sampler.sampling_step, step_events.
  rewrite !bind_call, call_spec. cbn [st_config st_engine st_trace].
  by rewrite <- !app_assoc.
Qed.

Lemma for_each_sampling_step te ie (l : list Z) st :
  for_each l (Sampler.sampling_step te ie) st =
  (MkState (st_config st)
     (run_events (l ≫= step_events te ie) (st_engine st))
     (st_trace st ++ (l ≫= step_events te ie)), Ok tt).
Proof.
  revert st. induction l as [|i l IH]; intros st.
  - simpl. rewrite app_nil_r. by destruct st.
  - cbn [for_each]. rewrite M_bind_unfold, sampling_step_spec, IH.
    cbn [st_config st_engine st_trace].
    rewrite bind_cons, run_events_app, <- app_assoc. done.
Qed.

Lemma run_sampling_spec (steps : Z) te ie st :
  let evs := sampling_events steps te ie (loop_bound steps ie (st_engine st)) in
  let s' := run_events evs (st_engine st) in
  Sampler.run_sampling steps te ie st =
  (MkState (st_config st) s' (st_trace st ++ evs),
   Ok {| samples := latents E s'; generator := sched_generator E s' |}).
Proof.
  unfold Sampler.run_sampling, sampling_events, loop_bound.
  rewrite !bind_call, bind_read. cbn [st_config st_engine st_trace].
  rewrite M_bind_unfold, for_each_sampling_step.
  cbn [st_config st_engine st_trace].
  rewrite !bind_call, !bind_read. cbn [st_config st_engine st_trace].
  rewrite !run_events_app. simpl. rewrite <- !app_assoc. simpl.
  reflexivity.
Qed.

End SamplerFacts.

(** ** The sampler: what [configure] writes *)

Section Frame.
Context {E : Engine}.
Implicit Types (st : sampler_state E) (K : gset string).

Lemma touches_only_ret {A : Type} K (a : A) : touches_only (E:=E) K (mret a).
Proof. by intros st. Qed.

Lemma touches_only_raise {A : Type} K (e : exn) :
  touches_only (E:=E) (A:=A) K (raise e).
Proof. by intros st. Qed.

Lemma touches_only_lift {A : Type} K (r : result A) :
  touches_only (E:=E) K (lift r).
Proof. by intros st. Qed.

Lemma touches_only_getattr K (name : string) :
  touches_only (E:=E) K (getattr name).
Proof. intros st. unfold getattr. by destruct (st_config st !! name). Qed.

Lemma touches_only_config_get K (name : string) (d : pyval) :
  touches_only (E:=E) K (config_get name d).
Proof. by intros st. Qed.

Lemma touches_only_setattr K (name : string) (v : pyval) :
  name ∈ K → touches_only (E:=E) K (setattr name v).
Proof.
  intros Hin st. repeat split. intros k Hk. simpl.
  apply lookup_insert_ne. intros ->. done.
Qed.

Lemma touches_only_update_config K (e : option dict) :
  dom (default ∅ e) ⊆ K → touches_only (E:=E) K (update_config e).
Proof.
  intros Hsub st. unfold update_config.
  destruct (EasyDict.update (st_config st) e) as [c|x] eqn:Hup; [|done].
  apply EasyDict_update_inv in Hup as (_ & _ & ->).
  repeat split. intros k Hk. simpl.
  apply lookup_union_r, not_elem_of_dom. set_solver.
Qed.

Lemma touches_only_bind {A B : Type} K (m : M E A) (k : A → M E B) :
  touches_only K m → (∀ a, touches_only K (k a)) → touches_only K (m ≫= k).
Proof.
  intros Hm Hk st. rewrite M_bind_unfold.
  destruct (Hm st) as (He & Ht & Hc).
  destruct (m st) as [st' [a|e]]; simpl in *.
  - destruct (Hk a st') as (He' & Ht' & Hc').
    split; [congruence|]. split; [congruence|].
    intros j Hj. rewrite Hc', Hc; done.
  - done.
Qed.

Lemma touches_only_if {A : Type} K (b : bool) (m1 m2 : M E A) :
  touches_only K m1 → touches_only K m2 →
  touches_only K (if b then m1 else m2).
Proof. by destruct b. Qed.

Lemma touches_only_mono {A : Type} K K' (m : M E A) :
  K ⊆ K' → touches_only K m → touches_only K' m.
Proof.
  intros Hsub Hm st. destruct (Hm st) as (He & Ht & Hc).
  repeat split; try done. intros k Hk. apply Hc. set_solver.
Qed.

End Frame.

Ltac touches_only_tac :=
  repeat first
    [ apply touches_only_ret
    | apply touches_only_raise
    | apply touches_only_lift
    | apply touches_only_getattr
    | apply touches_only_config_get
    | apply touches_only_setattr; set_solver
    | apply touches_only_if
    | apply touches_only_bind; [|intros ?] ].

Section Configure.
Context {E : Engine}.
Implicit Types (st : sampler_state E) (ie : image_embeddings).

Lemma set_target_shape_touches :
  touches_only (E:=E) {[ "target_shape" ]} Sampler.set_target_shape.
Proof. unfold Sampler.set_target_shape. touches_only_tac. Qed.

Lemma check_i2v_inputs_touches (clip vae : option tensor_ref) :
  touches_only (E:=E) ∅ (Sampler.check_i2v_inputs clip vae).
Proof. unfold Sampler.check_i2v_inputs. touches_only_tac. Qed.

Lemma configure_touches (steps : Z) (shift cfg_scale : Q) (seed : Z) ie :
  touches_only (E:=E) (dom (default ∅ (ie_config ie)) ∪ written_keys)
    (Sampler.configure steps shift cfg_scale seed ie).
Proof.
  unfold Sampler.configure, written_keys.
  apply touches_only_bind; [apply touches_only_update_config; set_solver|].
  intros _.
  apply touches_only_bind.
  { eapply touches_only_mono; [|apply check_i2v_inputs_touches]. set_solver. }
  intros _. touches_only_tac.
Qed.

Lemma init_scheduler_config st :
  st_config (Sampler.init_scheduler st).1 = st_config st.
Proof.
  unfold Sampler.init_scheduler. rewrite M_bind_unfold. unfold getattr.
  destruct (st_config st !! "feature_caching") as [fc|]; [|done].
  destruct (eq_str fc "NoCaching"); [done|].
  rewrite M_bind_unfold.
  destruct (st_config st !! "feature_caching") as [fc'|]; [|done].
  by destruct (eq_str fc' "Tea").
Qed.

End Configure.

(** ** The sampler: construction of the scheduler *)

Section Scheduler.
Context {E : Engine}.
Implicit Types (st : sampler_state E) (te : text_embeddings)
  (ie : image_embeddings).

Lemma eq_str_true (v : pyval) (s : string) : eq_str v s = true ↔ v = VStr s.
Proof.
  destruct v; simpl; try (split; [discriminate|congruence]).
  rewrite String.eqb_eq. split; congruence.
Qed.

Lemma eq_str_false (v : pyval) (s : string) : eq_str v s = false ↔ v ≠ VStr s.
Proof. rewrite <- eq_str_true. by destruct (eq_str v s). Qed.

Lemma init_scheduler_spec st :
  Sampler.init_scheduler st =
  match st_config st !! "feature_caching" with
  | None => (st, Raise AttributeError)
  | Some fc =>
      if eq_str fc "NoCaching" then (with_scheduler WanScheduler st, Ok WanScheduler)
      else if eq_str fc "Tea"
           then (with_scheduler WanSchedulerTeaCaching st, Ok WanSchedulerTeaCaching)
           else (st, Raise NotImplementedError)
  end.
Proof.
  unfold Sampler.init_scheduler. rewrite M_bind_unfold. unfold getattr.
  destruct (st_config st !! "feature_caching") as [fc|] eqn:Hfc; [|done].
  destruct (eq_str fc "NoCaching"); [done|].
  rewrite M_bind_unfold, Hfc. by destruct (eq_str fc "Tea").
Qed.

Lemma sample_unfold te (steps : Z) (shift cfg_scale : Q) (seed : Z) ie st :
  Sampler.sample te steps shift cfg_scale seed ie st =
  match Sampler.configure steps shift cfg_scale seed ie st with
  | (st1, Ok _) =>
      match Sampler.init_scheduler st1 with
      | (st2, Ok _) => Sampler.run_sampling steps te ie st2
      | (st2, Raise e) => (st2, Raise e)
      end
  | (st1, Raise e) => (st1, Raise e)
  end.
Proof.
  unfold Sampler.sample. rewrite M_bind_unfold.
  destruct (Sampler.configure _ _ _ _ _ _) as [st1 [[]|e]]; [|done].
  by rewrite M_bind_unfold.
Qed.

Lemma configure_trace (steps : Z) (shift cfg_scale : Q) (seed : Z) ie st :
  st_trace (Sampler.configure steps shift cfg_scale seed ie st).1 = st_trace st
  ∧ st_engine (Sampler.configure steps shift cfg_scale seed ie st).1 = st_engine st.
Proof.
  destruct (configure_touches steps shift cfg_scale seed ie st) as (He & Ht & _).
  done.
Qed.

End Scheduler.

(** C2. In a call of [sample] that reaches the construction of the
    scheduler, the class constructed is decided by the configuration's
    [feature_caching]: [WanScheduler] for ["NoCaching"],
    [WanSchedulerTeaCaching] for ["Tea"], each constructed on the
    configuration and followed by the sampling calls; for every other value
    [sample] raises [NotImplementedError] and has called nothing, no
    sampling step in particular. *)
Theorem scheduler_decided_by_feature_caching {E : Engine}
  (te : text_embeddings) (steps : Z) (shift cfg_scale : Q) (seed : Z)
  (ie : image_embeddings) (st st1 : sampler_state E) (fc : pyval) :
  Sampler.configure steps shift cfg_scale seed ie st = (st1, Ok tt) →
  st_config st1 !! "feature_caching" = Some fc →
  let out := Sampler.sample te steps shift cfg_scale seed ie st in
  (fc = VStr "NoCaching" →
   ∃ (n : Z) (lat : latent),
     out.2 = Ok lat
     ∧ st_trace out.1 =
         (st_trace st ++ EvScheduler WanScheduler (st_config st1)
                         :: sampling_events steps te ie n)%list)
  ∧ (fc = VStr "Tea" →
     ∃ (n : Z) (lat : latent),
       out.2 = Ok lat
       ∧ st_trace out.1 =
           (st_trace st ++ EvScheduler WanSchedulerTeaCaching (st_config st1)
                           :: sampling_events steps te ie n)%list)
  ∧ (fc ≠ VStr "NoCaching" → fc ≠ VStr "Tea" →
     out.2 = Raise NotImplementedError ∧ st_trace out.1 = st_trace st).
Proof.
  intros Hconf Hfc out.
  assert (st_trace st1 = st_trace st) as Htr.
  { pose proof (configure_trace steps shift cfg_scale seed ie st) as [Ht _].
    by rewrite Hconf in Ht. }
  subst out. rewrite sample_unfold, Hconf, init_scheduler_spec, Hfc.
  split; [|split].
  - intros ->. simpl. rewrite run_sampling_spec. simpl.
    eexists _, _. split; [reflexivity|]. by rewrite Htr, <- app_assoc.
  - intros ->. simpl. rewrite run_sampling_spec. simpl.
    eexists _, _. split; [reflexivity|]. by rewrite Htr, <- app_assoc.
  - intros Hn Ht. apply eq_str_false in Hn, Ht. rewrite Hn, Ht. done.
Qed.

Lemma constructed_app (l1 l2 : list event) :
  constructed (l1 ++ l2) = (constructed l1 ++ constructed l2)%list.
Proof. apply omap_app. Qed.

Lemma constructed_steps (te : text_embeddings) (ie : image_embeddings)
  (l : list Z) : constructed (l ≫= step_events te ie) = [].
Proof.
  induction l as [|i l IH]; [done|].
  rewrite bind_cons, constructed_app, IH. done.
Qed.

Lemma constructed_sampling_events (steps : Z) (te : text_embeddings)
  (ie : image_embeddings) (n : Z) :
  constructed (sampling_events steps te ie n) = [].
Proof.
  unfold sampling_events. by rewrite !constructed_app, constructed_steps.
Qed.

Lemma scheduler_decided_by_feature_caching_witness :
  let out :=
    Sampler.sample some_text 2 5 5 42 (EmptyEmbeds.process 81 832 480)
      (fresh_state (loaded_config "t2v" false None)) in
  (∃ lat, out.2 = Ok lat) ∧ constructed (st_trace out.1) = [WanScheduler].
Proof.
  intros out.
  destruct (scheduler_decided_by_feature_caching some_text 2 5 5 42
              (EmptyEmbeds.process 81 832 480)
              (fresh_state (loaded_config "t2v" false None))
              (Sampler.configure 2 5 5 42 (EmptyEmbeds.process 81 832 480)
                 (fresh_state (loaded_config "t2v" false None))).1
              (VStr "NoCaching")) as [Hno _];
    [vm_compute; reflexivity | vm_compute; reflexivity |].
  destruct (Hno eq_refl) as (n & lat & Hok & Htr).
  split; [by exists lat|].
  subst out. rewrite Htr, constructed_app.
  change (constructed (EvScheduler ?c ?cfg :: ?l)) with (c :: constructed l).
  by rewrite constructed_sampling_events.
Defined.

(** ** The sampler: the sampling loop *)

Lemma range_steps (te : text_embeddings) (ie : image_embeddings) (n : Z) :
  range n ≫= step_events te ie =
  seq 0 (Z.to_nat n) ≫= (fun i => step_events te ie (Z.of_nat i)).
Proof.
  unfold range, seqZ. generalize (seq 0 (Z.to_nat n)) as l.
  induction l as [|i l IH]; [done|].
  rewrite fmap_cons, !bind_cons, IH, Z.add_0_r. done.
Qed.

(** C7. A successful call of [sample] constructs a scheduler, prepares
    it, then runs exactly [scheduler.infer_steps] iterations (the value read
    when the loop starts), the iteration of index [i] calling
    [step_pre(step_index=i)], [infer(inputs)] and [step_post()] in that
    order (and then the progress bar); after the loop it calls [clear()]
    (and empties the cache) and returns the scheduler's latents and
    generator. *)
Theorem sampling_loop_sequence {E : Engine}
  (te : text_embeddings) (steps : Z) (shift cfg_scale : Q) (seed : Z)
  (ie : image_embeddings) (st st' : sampler_state E) (lat : latent) :
  Sampler.sample te steps shift cfg_scale seed ie st = (st', Ok lat) →
  ∃ (cls : scheduler_class) (config : dict),
    let n :=
      loop_bound steps ie (react E (EvScheduler cls config) (st_engine st)) in
    let loop :=
      seq 0 (Z.to_nat n) ≫=
        (fun i => [EvStepPre (Z.of_nat i); EvInfer te ie; EvStepPost;
                   EvProgressUpdate 1]) in
    let evs :=
      ([EvScheduler cls config; EvSetScheduler; EvPrepare ie; EvProgressBar steps]
       ++ loop ++ [EvClear; EvEmptyCache])%list in
    st_trace st' = (st_trace st ++ evs)%list
    ∧ st_engine st' = run_events evs (st_engine st)
    ∧ lat = {| samples := latents E (st_engine st');
               generator := sched_generator E (st_engine st') |}.
Proof.
  rewrite sample_unfold.
  pose proof (configure_trace steps shift cfg_scale seed ie st) as [Ht He].
  destruct (Sampler.configure _ _ _ _ _ _) as [st1 [[]|e]]; [|discriminate].
  simpl in Ht, He. rewrite init_scheduler_spec.
  destruct (st_config st1 !! "feature_caching") as [fc|]; [|discriminate].
  assert (∀ cls,
    Sampler.run_sampling steps te ie (with_scheduler cls st1) = (st', Ok lat) →
    ∃ (cls : scheduler_class) (config : dict),
      let n :=
        loop_bound steps ie (react E (EvScheduler cls config) (st_engine st)) in
      let loop :=
        seq 0 (Z.to_nat n) ≫=
          (fun i => [EvStepPre (Z.of_nat i); EvInfer te ie; EvStepPost;
                     EvProgressUpdate 1]) in
      let evs :=
        ([EvScheduler cls config; EvSetScheduler; EvPrepare ie;
          EvProgressBar steps] ++ loop ++ [EvClear; EvEmptyCache])%list in
      st_trace st' = (st_trace st ++ evs)%list
      ∧ st_engine st' = run_events evs (st_engine st)
      ∧ lat = {| samples := latents E (st_engine st');
                 generator := sched_generator E (st_engine st') |}) as Hrun.
  { intros cls. rewrite run_sampling_spec. cbn zeta.
    unfold with_scheduler, sampling_events. cbn [st_config st_engine st_trace].
    rewrite range_steps, Ht, He. intros [= <- <-].
    exists cls, (st_config st1). cbn [st_trace st_engine].
    split; [by rewrite <- app_assoc|]. split; reflexivity. }
  destruct (eq_str fc "NoCaching"); [by apply Hrun|].
  destruct (eq_str fc "Tea"); [by apply Hrun|discriminate].
Qed.

Lemma sampling_loop_sequence_witness :
  let te := some_text in
  let ie := EmptyEmbeds.process 81 832 480 in
  let st := fresh_state (loaded_config "t2v" false None) in
  ∃ (st' : sampler_state counting_engine) (cls : scheduler_class) (config : dict),
    Sampler.sample te 2 5 5 42 ie st
    = (st', Ok {| samples := TensorRef 2; generator := TensorRef 0 |})
    ∧ let n :=
        loop_bound 2 ie
          (react counting_engine (EvScheduler cls config) (st_engine st)) in
      let loop :=
        seq 0 (Z.to_nat n) ≫=
          (fun i => [EvStepPre (Z.of_nat i); EvInfer te ie; EvStepPost;
                     EvProgressUpdate 1]) in
      st_trace st' =
        (st_trace st
         ++ [EvScheduler cls config; EvSetScheduler; EvPrepare ie; EvProgressBar 2]
         ++ loop ++ [EvClear; EvEmptyCache])%list.
Proof.
  intros te ie st.
  pose (st' := (Sampler.sample te 2 5 5 42 ie st).1).
  assert (Sampler.sample te 2 5 5 42 ie st
          = (st', Ok {| samples := TensorRef 2; generator := TensorRef 0 |}))
    as Hrun by (vm_compute; reflexivity).
  destruct (sampling_loop_sequence te 2 5 5 42 ie st st' _ Hrun)
    as (cls & config & Htr & _).
  exists st', cls, config. split; [exact Hrun|exact Htr].
Defined.

(** ** The sampler: the shared configuration *)

Section SharedConfig.
Context {E : Engine}.
Implicit Types (st : sampler_state E) (te : text_embeddings)
  (ie : image_embeddings).

Lemma configure_unfold (steps : Z) (shift cfg_scale : Q) (seed : Z) ie st :
  Sampler.configure steps shift cfg_scale seed ie st =
  match EasyDict.update (st_config st) (ie_config ie) with
  | Raise x => (st, Raise x)
  | Ok c0 =>
      let st0 := MkState c0 (st_engine st) (st_trace st) in
      match c0 !! "task" with
      | None => (st0, Raise AttributeError)
      | Some task =>
          if eq_str task "i2v"
             && (is_None (ie_clip_encoder_out ie) || is_None (ie_vae_encode_out ie))
          then (st0, Raise ValueError)
          else Sampler.set_target_shape
                 (MkState (configured steps shift cfg_scale seed c0)
                    (st_engine st) (st_trace st))
      end
  end.
Proof.
  unfold Sampler.configure. rewrite M_bind_unfold. unfold update_config at 1.
  destruct (EasyDict.update (st_config st) (ie_config ie)) as [c0|x]; [|done].
  cbn iota beta zeta. rewrite M_bind_unfold.
  unfold Sampler.check_i2v_inputs at 1. rewrite M_bind_unfold.
  unfold getattr at 1. cbn [st_config].
  destruct (c0 !! "task") as [task|]; [|done].
  destruct (eq_str task "i2v" && _); done.
Qed.

(** [configure] on a configuration and an image configuration without an
    entry named [update]. *)
Lemma configure_unfold_Ok (steps : Z) (shift cfg_scale : Q) (seed : Z) ie st :
  st_config st !! "update" = None →
  default ∅ (ie_config ie) !! "update" = None →
  let st0 :=
    MkState (default ∅ (ie_config ie) ∪ st_config st) (st_engine st)
      (st_trace st) in
  Sampler.configure steps shift cfg_scale seed ie st =
  match st_config st0 !! "task" with
  | None => (st0, Raise AttributeError)
  | Some task =>
      if eq_str task "i2v"
         && (is_None (ie_clip_encoder_out ie) || is_None (ie_vae_encode_out ie))
      then (st0, Raise ValueError)
      else Sampler.set_target_shape
             (MkState (configured steps shift cfg_scale seed (st_config st0))
                (st_engine st) (st_trace st))
  end.
Proof.
  intros Hc He st0. rewrite configure_unfold, (EasyDict_update_Ok _ _ Hc He).
  done.
Qed.

(** After [configure], nothing in [sample] writes the configuration. *)
Lemma sample_config te (steps : Z) (shift cfg_scale : Q) (seed : Z) ie st :
  st_config (Sampler.sample te steps shift cfg_scale seed ie st).1 =
  st_config (Sampler.configure steps shift cfg_scale seed ie st).1.
Proof.
  rewrite sample_unfold.
  destruct (Sampler.configure _ _ _ _ _ _) as [st1 [[]|e]]; [|done].
  pose proof (init_scheduler_config st1) as Hi.
  destruct (Sampler.init_scheduler st1) as [st2 [c|e]]; [|done].
  rewrite run_sampling_spec. simpl in *. done.
Qed.

Lemma sample_Ok_configure te (steps : Z) (shift cfg_scale : Q) (seed : Z) ie
  st (lat : latent) :
  (Sampler.sample te steps shift cfg_scale seed ie st).2 = Ok lat →
  (Sampler.configure steps shift cfg_scale seed ie st).2 = Ok tt.
Proof.
  rewrite sample_unfold.
  by destruct (Sampler.configure _ _ _ _ _ _) as [st1 [[]|e]].
Qed.

Lemma configure_Ok_config (steps : Z) (shift cfg_scale : Q) (seed : Z) ie st
  (k : string) :
  (Sampler.configure steps shift cfg_scale seed ie st).2 = Ok tt →
  k ≠ "target_shape" →
  st_config (Sampler.configure steps shift cfg_scale seed ie st).1 !! k =
  configured steps shift cfg_scale seed
    (default ∅ (ie_config ie) ∪ st_config st) !! k.
Proof.
  rewrite configure_unfold.
  destruct (EasyDict.update (st_config st) (ie_config ie)) as [c0|x] eqn:Hup;
    [|discriminate].
  apply EasyDict_update_inv in Hup as (_ & _ & ->). cbn zeta.
  destruct ((default ∅ (ie_config ie) ∪ st_config st) !! "task")
    as [task|]; [|discriminate].
  destruct (eq_str task "i2v" && _); [discriminate|].
  intros _ Hk.
  destruct (set_target_shape_touches (E:=E)
    (MkState (configured steps shift cfg_scale seed
                (default ∅ (ie_config ie) ∪ st_config st))
       (st_engine st) (st_trace st))) as (_ & _ & Hc).
  apply Hc. set_solver.
Qed.

End SharedConfig.

(** C3, as stated, fails: [sample] writes into the configuration the model
    dictionary refers to. On a [t2v] model loaded with [cpu_offload] set,
    a call with the embeddings of an image leaves its seed in the
    configuration and replaces [cpu_offload] by the image configuration's;
    the scheduler of a later call with empty embeddings is then constructed
    with [cpu_offload] false, where on the model as loaded it is true. *)
Lemma sample_changes_model_config :
  let st := fresh_state (loaded_config "t2v" true None) in
  let first := (Sampler.sample some_text 2 5 5 42 some_image st).1 in
  let later s :=
    (Sampler.sample some_text 2 5 5 42 (EmptyEmbeds.process 81 832 480) s).1 in
  (st_config st !! "seed" = None
   ∧ st_config first !! "seed" = Some (VInt 42)
   ∧ st_config first ≠ st_config st)
  ∧ ((fun c : dict => c !! "cpu_offload")
       <$> scheduler_configs (st_trace (later (next_invocation first)))
     = [Some (VBool false)]
     ∧ (fun c : dict => c !! "cpu_offload")
         <$> scheduler_configs (st_trace (later st))
       = [Some (VBool true)]).
Proof.
  intros st first later.
  assert (st_config st !! "seed" = None) as Hbefore by (vm_compute; reflexivity).
  assert (st_config first !! "seed" = Some (VInt 42)) as Hafter
    by (vm_compute; reflexivity).
  split; [|split; vm_compute; reflexivity].
  clearbody first st. clear later.
  split; [exact Hbefore|]. split; [exact Hafter|].
  intros Heq. rewrite Heq, Hbefore in Hafter. clear -Hafter. discriminate.
Qed.

(** C3, amended. [sample] updates the configuration of the model
    dictionary in place. Whatever the outcome of the call, a key that is
    neither a key of the image configuration nor one of the attributes
    [sample] sets keeps its entry. When the call succeeds, the configuration
    holds the call's [steps], [shift], [cfg_scale] and [seed], the derived
    [enable_cfg], ["block"] for [offload_granularity], and the entries of
    the image configuration (under the keys [sample] does not set itself). *)
Theorem sample_writes_model_config {E : Engine}
  (te : text_embeddings) (steps : Z) (shift cfg_scale : Q) (seed : Z)
  (ie : image_embeddings) (st : sampler_state E) :
  let out := Sampler.sample te steps shift cfg_scale seed ie st in
  let image_config := default ∅ (ie_config ie) in
  (∀ k, k ∉ dom image_config → k ∉ written_keys →
        st_config out.1 !! k = st_config st !! k)
  ∧ (∀ lat, out.2 = Ok lat →
       st_config out.1 !! "infer_steps" = Some (VInt steps)
       ∧ st_config out.1 !! "sample_shift" = Some (VFloat shift)
       ∧ st_config out.1 !! "sample_guide_scale" = Some (VFloat cfg_scale)
       ∧ st_config out.1 !! "seed" = Some (VInt seed)
       ∧ st_config out.1 !! "enable_cfg" =
           Some (VBool (negb (isclose cfg_scale 1)))
       ∧ st_config out.1 !! "offload_granularity" = Some (VStr "block")
       ∧ (∀ k v, image_config !! k = Some v → k ∉ written_keys →
                 st_config out.1 !! k = Some v)).
Proof.
  intros out image_config. subst out. split.
  - intros k Hk Hw. rewrite sample_config.
    destruct (configure_touches steps shift cfg_scale seed ie st) as (_ & _ & Hc).
    apply Hc. by apply not_elem_of_union.
  - intros lat Hok. apply sample_Ok_configure in Hok.
    rewrite sample_config.
    rewrite !(configure_Ok_config steps shift cfg_scale seed ie st _ Hok) by done.
    unfold configured. simplify_map_eq.
    repeat (split; [done|]).
    intros k v Hv Hw.
    assert (k ≠ "target_shape") as Hts by (intros ->; set_solver).
    rewrite (configure_Ok_config steps shift cfg_scale seed ie st _ Hok Hts).
    unfold configured, written_keys in *.
    rewrite !lookup_insert_ne by (intros <-; set_solver).
    by apply lookup_union_Some_l.
Qed.

(** ** The errors the node operations raise *)

Section SampleErrors.
Context {E : Engine}.
Implicit Types (st : sampler_state E) (te : text_embeddings)
  (ie : image_embeddings).

Lemma bind_getattr {B : Type} (name : string) (v : pyval)
  (k : pyval → M E B) st :
  st_config st !! name = Some v → (getattr name ≫= k) st = k v st.
Proof. intros Hv. rewrite M_bind_unfold. unfold getattr. by rewrite Hv. Qed.

Lemma bind_lift_Ok {A B : Type} (a : A) (k : A → M E B) st :
  (lift (Ok a) ≫= k) st = k a st.
Proof. reflexivity. Qed.

Lemma bind_config_get {B : Type} (name : string) (d : pyval)
  (k : pyval → M E B) st :
  st_config st !! "get" = None →
  (config_get name d ≫= k) st = k (default d (st_config st !! name)) st.
Proof.
  intros Hg. rewrite M_bind_unfold. unfold config_get.
  by rewrite (EasyDict_get_Ok _ _ _ Hg).
Qed.

Lemma stride_index (i : nat) (x : Z) :
  [VInt 4; VInt 8; VInt 8] !! i = Some (VInt x) →
  py_index (VTuple [VInt 4; VInt 8; VInt 8]) i = Ok (VInt x).
Proof. unfold py_index. by intros ->. Qed.

Lemma floordiv_pos (a b : Z) :
  b ≠ 0 → py_floordiv (VInt a) (VInt b) = Ok (VInt (a `div` b)).
Proof.
  intros Hb. unfold py_floordiv. simpl.
  by destruct (Z.eqb_spec b 0).
Qed.

(** [set_target_shape] succeeds on a configuration that holds the entries
    of an image configuration. *)
Lemma set_target_shape_Ok st (task : pyval) (n h w : Z) :
  st_config st !! "get" = None →
  st_config st !! "task" = Some task →
  st_config st !! "target_video_length" = Some (VInt n) →
  st_config st !! "target_height" = Some (VInt h) →
  st_config st !! "target_width" = Some (VInt w) →
  st_config st !! "vae_stride" = Some (VTuple [VInt 4; VInt 8; VInt 8]) →
  (eq_str task "i2v" = true →
   is_Some (st_config st !! "lat_h") ∧ is_Some (st_config st !! "lat_w")) →
  (Sampler.set_target_shape st).2 = Ok tt.
Proof.
  intros Hget Htask Hn Hh Hw Hvs Hlat. unfold Sampler.set_target_shape.
  pose proof (stride_index 0 4 eq_refl) as Hs0.
  pose proof (stride_index 1 8 eq_refl) as Hs1.
  pose proof (stride_index 2 8 eq_refl) as Hs2.
  rewrite bind_config_get by done. rewrite (bind_getattr _ _ _ _ Htask).
  destruct (eq_str task "i2v") eqn:Hi2v.
  - destruct (Hlat eq_refl) as [[lh Hlh] [lw Hlw]].
    repeat first
      [ rewrite (bind_getattr _ _ _ _ Hn) | rewrite (bind_getattr _ _ _ _ Hvs)
      | rewrite (bind_getattr _ _ _ _ Hlh) | rewrite (bind_getattr _ _ _ _ Hlw)
      | rewrite Hs0 | rewrite floordiv_pos by done | rewrite bind_lift_Ok
      | progress change (py_sub (VInt ?a) (VInt ?b))
          with (Ok (A:=pyval) (VInt (a - b)))
      | progress change (num_add (VInt ?a) (VInt ?b))
          with (Ok (A:=pyval) (VInt (a + b)))
      | progress cbv beta ].
    done.
  - rewrite (bind_getattr _ _ _ _ Htask).
    destruct (eq_str task "t2v"); [|done].
    repeat first
      [ rewrite (bind_getattr _ _ _ _ Hn) | rewrite (bind_getattr _ _ _ _ Hvs)
      | rewrite (bind_getattr _ _ _ _ Hh) | rewrite (bind_getattr _ _ _ _ Hw)
      | rewrite Hs1 | rewrite Hs2
      | rewrite floordiv_pos by done | rewrite bind_lift_Ok
      | progress change (py_sub (VInt ?a) (VInt ?b))
          with (Ok (A:=pyval) (VInt (a - b)))
      | progress change (num_add (VInt ?a) (VInt ?b))
          with (Ok (A:=pyval) (VInt (a + b)))
      | progress change (py_int (VInt ?a)) with (Ok (A:=Z) a)
      | progress cbv beta ].
    done.
Qed.

Lemma configured_lookup (steps : Z) (shift cfg_scale : Q) (seed : Z)
  (c : dict) (k : string) :
  k ∉ written_keys → configured steps shift cfg_scale seed c !! k = c !! k.
Proof.
  intros Hk. unfold configured, written_keys in *.
  rewrite !lookup_insert_ne; [done|intros <-; set_solver..].
Qed.

Lemma upstream_fields ie :
  upstream_embeddings ie →
  let ic := default ∅ (ie_config ie) in
  (∃ n h w : Z,
     ic !! "target_video_length" = Some (VInt n)
     ∧ ic !! "target_height" = Some (VInt h)
     ∧ ic !! "target_width" = Some (VInt w))
  ∧ ic !! "vae_stride" = Some (VTuple [VInt 4; VInt 8; VInt 8])
  ∧ ic !! "task" = None
  ∧ ic !! "feature_caching" = None
  ∧ ic !! "update" = None
  ∧ ic !! "get" = None
  ∧ (is_None (ie_clip_encoder_out ie) || is_None (ie_vae_encode_out ie) = false →
     is_Some (ic !! "lat_h") ∧ is_Some (ic !! "lat_w")).
Proof.
  intros [(n & w & h & ->)|(h & w & n & lh & lw & c & v & ->)]; simpl.
  - split; [exists n, h, w; by simplify_map_eq|].
    do 5 (split; [by simplify_map_eq|]). discriminate.
  - split; [exists n, h, w; by simplify_map_eq|].
    do 5 (split; [by simplify_map_eq|]).
    intros _. split; eexists; by simplify_map_eq.
Qed.

(** The errors of [sample] on a configuration that has a task and a
    caching mode and whose methods are not hidden, with embeddings of the
    upstream nodes. *)
Lemma sample_raises te (steps : Z) (shift cfg_scale : Q) (seed : Z) ie st
  (e : exn) :
  is_Some (st_config st !! "task") →
  is_Some (st_config st !! "feature_caching") →
  st_config st !! "update" = None →
  st_config st !! "get" = None →
  upstream_embeddings ie →
  (Sampler.sample te steps shift cfg_scale seed ie st).2 = Raise e →
  (e = ValueError
   ∧ st_config st !! "task" = Some (VStr "i2v")
   ∧ (ie_clip_encoder_out ie = None ∨ ie_vae_encode_out ie = None))
  ∨ (e = NotImplementedError
     ∧ ∃ fc, st_config st !! "feature_caching" = Some fc
             ∧ fc ≠ VStr "NoCaching" ∧ fc ≠ VStr "Tea").
Proof.
  intros [task Htask] [fc Hfc] Hupd Hget Hie.
  destruct (upstream_fields ie Hie)
    as ((n & h & w & Hn & Hh & Hw) & Hvs & Hnt & Hnf & Hnu & Hng & Hlat).
  set (ic := default ∅ (ie_config ie)) in *.
  rewrite sample_unfold, configure_unfold_Ok by done. cbn zeta. cbn [st_config].
  fold ic.
  assert ((ic ∪ st_config st) !! "task" = Some task) as Htask1
    by (by rewrite lookup_union_r).
  rewrite Htask1.
  destruct (eq_str task "i2v" && _) eqn:Hcheck.
  { intros [= <-]. left. split; [done|].
    apply andb_true_iff in Hcheck as [Hi2v%eq_str_true Hnone]. subst task.
    split; [done|]. apply orb_true_iff in Hnone.
    destruct Hnone as [H1|H1]; [left|right];
      [by destruct (ie_clip_encoder_out ie)|by destruct (ie_vae_encode_out ie)]. }
  set (st1 := MkState (configured steps shift cfg_scale seed (ic ∪ st_config st))
                (st_engine st) (st_trace st)).
  assert ((Sampler.set_target_shape st1).2 = Ok tt) as Hshape.
  { apply (set_target_shape_Ok st1 task n h w); subst st1; cbn [st_config];
      rewrite ?configured_lookup by compute_done;
      try (by apply lookup_union_Some_l); [by rewrite lookup_union_r|done|].
    intros Hi2v. rewrite Hi2v in Hcheck. simpl in Hcheck.
    destruct (Hlat Hcheck) as [[lh Hlh] [lw Hlw]].
    split; eexists; by apply lookup_union_Some_l. }
  destruct (set_target_shape_touches st1) as (_ & _ & Hframe).
  specialize (Hframe "feature_caching").
  destruct (Sampler.set_target_shape st1) as [st2 r]. simpl in Hshape, Hframe.
  subst r. rewrite init_scheduler_spec, Hframe by compute_done.
  subst st1. cbn [st_config]. rewrite configured_lookup by compute_done.
  rewrite lookup_union_r, Hfc by done.
  destruct (eq_str fc "NoCaching") eqn:Hno;
    [rewrite run_sampling_spec; discriminate|].
  destruct (eq_str fc "Tea") eqn:Htea;
    [rewrite run_sampling_spec; discriminate|].
  intros [= <-]. right. split; [done|]. exists fc.
  by rewrite <- !eq_str_false.
Qed.

End SampleErrors.

Lemma precision_choice_dtype (precision : string) :
  precision ∈ precision_choices → is_Some (dtype_map !! precision).
Proof.
  unfold precision_choices. rewrite !elem_of_cons, elem_of_nil.
  intros [->|[->|[->|[]]]]; by eexists.
Qed.

Lemma clip_precision_choice_dtype (precision : string) :
  precision ∈ ["fp16"; "fp32"] → is_Some (clip_dtype_map !! precision).
Proof.
  rewrite !elem_of_cons, elem_of_nil. intros [->|[->|[]]]; by eexists.
Qed.



Lemma load_model_Ok_keys (fs : filesystem)
  (model_name model_type precision device attention_type mm_type : string)
  (lora_path : option string) (lora_strength : Q) (cpu_offload : bool)
  (teacache_args : option dict) (model_dir : option string) (md : model_dict) :
  ModelLoader.load_model fs model_name model_type precision device
    attention_type mm_type lora_path lora_strength cpu_offload teacache_args
    model_dir = Ok md →
  let config_json :=
    fs_json fs (ModelLoader.config_json_path fs
                  (ModelLoader.model_path model_dir model_name)) in
  is_Some (md_config md !! "task")
  ∧ is_Some (md_config md !! "feature_caching")
  ∧ ∀ k, k ∈ ["update"; "get"; "__dict__"] → config_json !! k = None →
         md_config md !! k = None.
Proof.
  intros (dt & th & _ & _ & _ & _ & _ & ->)%load_model_Ok_inv config_json.
  unfold ModelLoader.merge_config, ModelLoader.config_literal.
  split; [|split];
    [apply lookup_union_is_Some; right; eexists; by simplify_map_eq..|].
  intros k Hk Hjson. fold config_json. rewrite lookup_union_r by done.
  repeat (apply elem_of_cons in Hk as [->|Hk]; [by simplify_map_eq|]).
  by apply elem_of_nil in Hk.
Qed.




Lemma sample_writes_model_config_witness :
  let out :=
    Sampler.sample some_text 2 5 5 42 (EmptyEmbeds.process 81 832 480)
      (fresh_state (loaded_config "t2v" false None)) in
  st_config out.1 !! "seed" = Some (VInt 42)
  ∧ st_config out.1 !! "target_height" = Some (VInt 480)
  ∧ st_config out.1 !! "model_cls" = Some (VStr "wan2.1").
Proof.
  intros out.
  destruct (sample_writes_model_config some_text 2 5 5 42
              (EmptyEmbeds.process 81 832 480)
              (fresh_state (loaded_config "t2v" false None)))
    as [Hframe Hwritten].
  destruct (Hwritten {| samples := TensorRef 2; generator := TensorRef 0 |})
    as (_ & _ & _ & Hseed & _ & _ & Himage); [vm_compute; reflexivity|].
  split; [exact Hseed|]. split.
  - apply Himage; [vm_compute; reflexivity|compute_done].
  - subst out. rewrite Hframe; [vm_compute; reflexivity|compute_done..].
Defined.


(** * Further properties of the adapters *)

(** ** The loaders without a model directory, and unknown precisions *)

(** X1. Without [model_dir] (absent or empty), the CLIP loader never gets
    to its checks: [model_name] stays a [str], which has no [exists], and
    the call ends in an [AttributeError] on every file system. *)
Theorem clip_loader_needs_model_dir (fs : filesystem)
  (model_name tokenizer_path precision device : string)
  (model_dir : option string) :
  precision ∈ ["fp16"; "fp32"] →
  opt_truthy model_dir = false →
  ClipVisionEncoderLoader.load_clip_vision_encoder fs model_name tokenizer_path
    precision device model_dir = Raise AttributeError.
Proof.
  intros [dt Hdt]%clip_precision_choice_dtype Hdir.
  unfold ClipVisionEncoderLoader.load_clip_vision_encoder, getitem.
  by rewrite Hdt, Hdir.
Qed.

Lemma clip_loader_needs_model_dir_witness :
  ClipVisionEncoderLoader.load_clip_vision_encoder fs_with_config
    "models_clip_open-clip-xlm-roberta-large-vit-huge-14.pth"
    "xlm-roberta-large" "fp16" "cuda" None = Raise AttributeError.
Proof.
  apply clip_loader_needs_model_dir; [|reflexivity].
  apply list_elem_of_here.
Defined.

(** X2. Without [model_dir], [load_model] never returns a model: an
    empty [model_name] fails the assertion that a model path is given, and
    a non-empty one, still a [str], ends in an [AttributeError]. *)
Theorem load_model_needs_model_dir (fs : filesystem)
  (model_name model_type precision device attention_type mm_type : string)
  (lora_path : option string) (lora_strength : Q) (cpu_offload : bool)
  (teacache_args : option dict) (model_dir : option string) :
  precision ∈ precision_choices →
  opt_truthy model_dir = false →
  ModelLoader.load_model fs model_name model_type precision device
    attention_type mm_type lora_path lora_strength cpu_offload teacache_args
    model_dir
  = Raise (if str_truthy model_name then AttributeError else AssertionError).
Proof.
  intros [dt Hdt]%precision_choice_dtype Hdir.
  unfold ModelLoader.load_model, getitem. rewrite Hdt, Hdir. simpl.
  by destruct (str_truthy model_name).
Qed.

Lemma load_model_needs_model_dir_witness :
  ModelLoader.load_model fs_with_config wan_dir "i2v" "bf16" "cuda"
    "flash_attn3" "Default" None 1 false None None = Raise AttributeError
  ∧ ModelLoader.load_model fs_with_config "" "i2v" "bf16" "cuda"
      "flash_attn3" "Default" None 1 false None (Some "") = Raise AssertionError.
Proof.
  split.
  - apply (load_model_needs_model_dir fs_with_config wan_dir); [|reflexivity].
    apply list_elem_of_here.
  - apply (load_model_needs_model_dir fs_with_config ""); [|reflexivity].
    apply list_elem_of_here.
Defined.

(** X3. A precision outside the loader's [dtype_map] is a [KeyError],
    raised before any path is looked at: in the T5, VAE and model loaders
    for a precision other than ["bf16"], ["fp16"], ["fp32"], and in the CLIP
    loader also for ["bf16"], which its map does not hold. *)
Theorem unknown_precision_is_KeyError (fs : filesystem)
  (model_name tokenizer_path model_type precision device attention_type
     mm_type : string)
  (lora_path : option string) (lora_strength : Q) (cpu_offload parallel : bool)
  (teacache_args : option dict) (model_dir : option string) :
  precision ∉ precision_choices →
  T5EncoderLoader.load_t5_encoder fs model_name precision device model_dir
  = Raise KeyError
  ∧ VaeLoader.load_vae fs model_name precision device parallel model_dir
    = Raise KeyError
  ∧ ModelLoader.load_model fs model_name model_type precision device
      attention_type mm_type lora_path lora_strength cpu_offload teacache_args
      model_dir = Raise KeyError
  ∧ ClipVisionEncoderLoader.load_clip_vision_encoder fs model_name
      tokenizer_path precision device model_dir = Raise KeyError
  ∧ ClipVisionEncoderLoader.load_clip_vision_encoder fs model_name
      tokenizer_path "bf16" device model_dir = Raise KeyError.
Proof.
  intros Hnot.
  assert (dtype_map !! precision = None) as Hdt.
  { destruct (dtype_map !! precision) as [dt|] eqn:Hdt; [|done].
    exfalso. apply Hnot. unfold precision_choices.
    apply dtype_map_lookup in Hdt as [[-> _]|[[-> _]|[-> _]]];
      rewrite !elem_of_cons; auto. }
  assert (clip_dtype_map !! precision = None) as Hclip.
  { destruct (clip_dtype_map !! precision) as [dt|] eqn:Hc; [|done].
    exfalso. apply Hnot. unfold clip_dtype_map in Hc.
    rewrite !lookup_insert_Some, lookup_empty in Hc. unfold precision_choices.
    destruct Hc as [[<- _]|[_ [[<- _]|[_ ?]]]]; [| |done];
      rewrite !elem_of_cons; auto. }
  unfold T5EncoderLoader.load_t5_encoder, VaeLoader.load_vae,
    ModelLoader.load_model, ClipVisionEncoderLoader.load_clip_vision_encoder,
    getitem.
  rewrite Hdt, Hclip. done.
Qed.

Lemma unknown_precision_is_KeyError_witness :
  VaeLoader.load_vae empty_fs "Wan2.1_VAE.pth" "fp8" "cuda" false None
  = Raise KeyError.
Proof.
  refine (proj1 (proj2 (unknown_precision_is_KeyError empty_fs "Wan2.1_VAE.pth"
    "" "" "fp8" "cuda" "" "" None 1 false false None None _))).
  compute_done.
Defined.

(** ** The model loader: success, [config.json] and LoRA *)

(** The value [load_model] returns when its checks pass. *)
Lemma load_model_Ok_value (fs : filesystem)
  (model_name model_type precision device attention_type mm_type : string)
  (lora_path : option string) (lora_strength : Q) (cpu_offload : bool)
  (teacache_args : option dict) (model_dir : option string)
  (dt : dtype) (thresh : pyval) :
  let p := ModelLoader.model_path model_dir model_name in
  dtype_map !! precision = Some dt →
  opt_truthy model_dir = true →
  fs_exists fs p = true →
  fs_exists fs (ModelLoader.config_json_path fs p) = true →
  ModelLoader.teacache_thresh_of teacache_args = Ok thresh →
  EasyDict.constructible
    (ModelLoader.merge_config
       (ModelLoader.config_literal cpu_offload
          (ModelLoader.feature_caching_of teacache_args) thresh dt mm_type
          (IsPath p) model_type (resolve_device device) attention_type
          lora_path lora_strength)
       (fs_json fs (ModelLoader.config_json_path fs p))) = true →
  ModelLoader.load_model fs model_name model_type precision device
    attention_type mm_type lora_path lora_strength cpu_offload teacache_args
    model_dir
  = Ok {| md_wan_model :=
            {| wm_model_path := IsPath p; wm_device := resolve_device device;
               wm_lora :=
                 if opt_truthy lora_path
                    && os_path_exists fs (default "" lora_path)
                 then Some (default "" lora_path, lora_strength) else None |};
          md_config :=
            ModelLoader.merge_config
              (ModelLoader.config_literal cpu_offload
                 (ModelLoader.feature_caching_of teacache_args) thresh dt
                 mm_type (IsPath p) model_type (resolve_device device)
                 attention_type lora_path lora_strength)
              (fs_json fs (ModelLoader.config_json_path fs p)) |}.
Proof.
  intros p Hdt Hdir Hp Hcj Hth Hcons. subst p.
  unfold ModelLoader.load_model, ModelLoader.model_path,
    ModelLoader.config_json_path, getitem in *.
  rewrite Hdt, Hdir. simpl. rewrite Hp. simpl.
  destruct (fs_is_dir fs _); simpl; rewrite Hcj; simpl; rewrite Hth; simpl;
    by rewrite (construct_Ok _ Hcons).
Qed.

(** X4. [load_model] returns a model exactly when the precision is one of
    [dtype_map], [model_dir] is given, the model path exists, a
    [config.json] exists in it (or beside it, when the path is not a
    directory), [teacache_args], when it is a non-empty dictionary, holds
    ["rel_l1_thresh"], and the constructor of [EasyDict] accepts the
    configuration: the entries of [config.json] and, unless [config.json]
    has a ["teacache_thresh"] of its own, the threshold of
    [teacache_args]. *)
Theorem load_model_succeeds_iff (fs : filesystem)
  (model_name model_type precision device attention_type mm_type : string)
  (lora_path : option string) (lora_strength : Q) (cpu_offload : bool)
  (teacache_args : option dict) (model_dir : option string) :
  let p := ModelLoader.model_path model_dir model_name in
  let config_json := fs_json fs (ModelLoader.config_json_path fs p) in
  succeeds (ModelLoader.load_model fs model_name model_type precision device
              attention_type mm_type lora_path lora_strength cpu_offload
              teacache_args model_dir)
  ↔ is_Some (dtype_map !! precision)
    ∧ opt_truthy model_dir = true
    ∧ fs_exists fs p = true
    ∧ fs_exists fs (ModelLoader.config_json_path fs p) = true
    ∧ (ModelLoader.teacache_truthy teacache_args = true →
       is_Some (default ∅ teacache_args !! "rel_l1_thresh"))
    ∧ EasyDict.constructible config_json = true
    ∧ (ModelLoader.teacache_truthy teacache_args = true →
       config_json !! "teacache_thresh" = None →
       ∀ v, default ∅ teacache_args !! "rel_l1_thresh" = Some v →
            EasyDict.convert_error v = None).
Proof.
  intros p config_json. split.
  - intros [md Hok].
    pose proof (load_model_Ok_constructible _ _ _ _ _ _ _ _ _ _ _ _ _ Hok)
      as Hcons.
    apply load_model_Ok_inv in Hok.
    destruct Hok as (dt & th & Hdt & Hdir & Hp & Hcj & Hth & Hcfg).
    rewrite Hcfg in Hcons.
    apply constructible_merge_config in Hcons as [Hjson Hconv].
    unfold ModelLoader.teacache_thresh_of, getitem in Hth.
    split; [by eexists|]. do 3 (split; [done|]). split; [|split; [done|]].
    + intros Htruthy. rewrite Htruthy in Hth.
      by destruct (default ∅ teacache_args !! "rel_l1_thresh").
    + intros Htruthy Hnone v Hv. rewrite Htruthy, Hv in Hth.
      injection Hth as <-. by apply Hconv.
  - intros ([dt Hdt] & Hdir & Hp & Hcj & Hta & Hjson & Hconv).
    assert (∃ th, ModelLoader.teacache_thresh_of teacache_args = Ok th
                  ∧ (config_json !! "teacache_thresh" = None →
                     EasyDict.convert_error th = None))
      as (th & Hth & Hthc).
    { unfold ModelLoader.teacache_thresh_of, getitem.
      destruct (ModelLoader.teacache_truthy teacache_args);
        [|by eexists].
      destruct (Hta eq_refl) as [v Hv]. rewrite Hv.
      eexists. split; [done|]. intros Hnone. by eapply Hconv. }
    eexists. eapply load_model_Ok_value; try done.
    by apply constructible_merge_config.
Qed.


(** X6. A LoRA file that does not exist is skipped without an error and
    still recorded: when [lora_path] is not blank and [os.path.exists] is
    false for it, [load_model] succeeds as without a LoRA, applies none to
    the model, and the configuration (unless [config.json] defines the key)
    holds the path under ["lora_path"]. *)
Theorem missing_lora_is_skipped_but_recorded (fs : filesystem)
  (model_name model_type precision device attention_type mm_type : string)
  (lora_path : string) (lora_strength : Q) (cpu_offload : bool)
  (teacache_args : option dict) (model_dir : option string) (md : model_dict) :
  ModelLoader.load_model fs model_name model_type precision device
    attention_type mm_type (Some lora_path) lora_strength cpu_offload
    teacache_args model_dir = Ok md →
  all_space lora_path = false →
  os_path_exists fs lora_path = false →
  fs_json fs (ModelLoader.config_json_path fs
                (ModelLoader.model_path model_dir model_name)) !! "lora_path"
  = None →
  wm_lora (md_wan_model md) = None
  ∧ md_config md !! "lora_path" = Some (VStr lora_path)
  ∧ ∃ md0,
      ModelLoader.load_model fs model_name model_type precision device
        attention_type mm_type None lora_strength cpu_offload teacache_args
        model_dir = Ok md0
      ∧ md_wan_model md0 = md_wan_model md.
Proof.
  intros Hok Hblank Hmissing Hcj.
  pose proof (load_model_Ok_constructible _ _ _ _ _ _ _ _ _ _ _ _ _ Hok)
    as Hcons.
  pose proof Hok
    as (dt & th & Hdt & Hdir & Hp & Hcjp & Hth & Hcfg)%load_model_Ok_inv.
  rewrite Hcfg in Hcons. clear Hcfg.
  rewrite (load_model_Ok_value fs _ _ _ _ _ _ _ _ _ _ _ dt th) in Hok by done.
  injection Hok as <-. cbn [md_wan_model md_config wm_lora].
  simpl. rewrite Hmissing, andb_false_r.
  split; [done|]. split.
  - unfold ModelLoader.merge_config. rewrite lookup_union_r by done.
    unfold ModelLoader.config_literal. simplify_map_eq.
    unfold ModelLoader.lora_path_entry.
    destruct lora_path as [|c s]; [discriminate|]. simpl.
    destruct (strip (String c s)) eqn:Hs; [|done].
    apply strip_empty in Hs. congruence.
  - apply constructible_merge_config in Hcons.
    eexists. split.
    + apply (load_model_Ok_value fs _ _ _ _ _ _ _ _ _ _ _ dt th); try done.
      by apply constructible_merge_config.
    + done.
Qed.


Lemma missing_lora_is_skipped_but_recorded_witness :
  ∃ md : model_dict,
    ModelLoader.load_model fs_with_config "" "t2v" "bf16" "cuda" "flash_attn3"
      "Default" (Some "/loras/style.safetensors") 1 false None (Some wan_dir)
    = Ok md
    ∧ wm_lora (md_wan_model md) = None
    ∧ md_config md !! "lora_path" = Some (VStr "/loras/style.safetensors").
Proof.
  pose proof (load_model_Ok_value fs_with_config "" "t2v" "bf16" "cuda"
    "flash_attn3" "Default" (Some "/loras/style.safetensors") 1 false None
    (Some wan_dir) bfloat16 (VFloat (26 # 100))
    eq_refl eq_refl eq_refl eq_refl eq_refl
    ltac:(vm_compute; reflexivity)) as Hload.
  eexists. split; [exact Hload|].
  destruct (missing_lora_is_skipped_but_recorded _ _ _ _ _ _ _ _ _ _ _ _ _
              Hload eq_refl eq_refl eq_refl) as (Hnone & Hrec & _).
  split; [exact Hnone|exact Hrec].
Defined.

(** ** The sampler: failures, and what the scheduler is given *)

Section SampleOutcomes.
Context {E : Engine}.
Implicit Types (st : sampler_state E) (te : text_embeddings)
  (ie : image_embeddings).

Lemma scheduler_configs_app (l1 l2 : list event) :
  scheduler_configs (l1 ++ l2)
  = (scheduler_configs l1 ++ scheduler_configs l2)%list.
Proof. apply omap_app. Qed.

Lemma scheduler_configs_sampling_events (steps : Z) te ie (n : Z) :
  scheduler_configs (sampling_events steps te ie n) = [].
Proof.
  unfold sampling_events. rewrite !scheduler_configs_app.
  assert (∀ l : list Z, scheduler_configs (l ≫= step_events te ie) = []) as Hl.
  { induction l as [|i l IH]; [done|].
    by rewrite bind_cons, scheduler_configs_app, IH. }
  by rewrite Hl.
Qed.

(** The log and the configuration of a successful call. *)
Lemma sample_Ok_trace te (steps : Z) (shift cfg_scale : Q) (seed : Z) ie
  st st' (lat : latent) :
  Sampler.sample te steps shift cfg_scale seed ie st = (st', Ok lat) →
  st_config st' = st_config (Sampler.configure steps shift cfg_scale seed ie st).1
  ∧ ∃ (cls : scheduler_class) (n : Z),
      st_trace st' =
        (st_trace st ++ EvScheduler cls (st_config st')
                        :: sampling_events steps te ie n)%list
      ∧ st_config st' !! "feature_caching" =
          Some (VStr (match cls with
                      | WanScheduler => "NoCaching"
                      | WanSchedulerTeaCaching => "Tea"
                      end)).
Proof.
  intros Hrun.
  split; [by rewrite <- (sample_config te), Hrun|].
  revert Hrun. rewrite sample_unfold.
  pose proof (configure_trace steps shift cfg_scale seed ie st) as [Ht _].
  destruct (Sampler.configure _ _ _ _ _ _) as [st1 [[]|e]]; [|discriminate].
  simpl in Ht. rewrite init_scheduler_spec.
  destruct (st_config st1 !! "feature_caching") as [fc|] eqn:Hfc;
    [|discriminate].
  destruct (eq_str fc "NoCaching") eqn:Hno.
  { rewrite run_sampling_spec. intros [= <- _]. cbn [st_config st_trace].
    apply eq_str_true in Hno as ->. unfold with_scheduler. cbn [st_config st_trace].
    exists WanScheduler. eexists. split; [|done].
    by rewrite Ht, <- app_assoc. }
  destruct (eq_str fc "Tea") eqn:Htea; [|discriminate].
  rewrite run_sampling_spec. intros [= <- _]. cbn [st_config st_trace].
  apply eq_str_true in Htea as ->. unfold with_scheduler. cbn [st_config st_trace].
  exists WanSchedulerTeaCaching. eexists. split; [|done].
  by rewrite Ht, <- app_assoc.
Qed.

End SampleOutcomes.

(** X7. When the task (after the image configuration is merged) is
    ["i2v"] and an encoder output is missing, [sample] raises [ValueError]
    with the image configuration already merged into the model's
    configuration, none of the sampling attributes written, and no call
    made on the wrapped library. This holds for a configuration object
    whose [update] method is not hidden by an entry and whose attributes
    are its entries (none is named [__dict__]), and for an image
    configuration that is storable and has no entry named [update]. *)
Theorem i2v_check_fails_after_merge {E : Engine}
  (te : text_embeddings) (steps : Z) (shift cfg_scale : Q) (seed : Z)
  (ie : image_embeddings) (st : sampler_state E) :
  st_config st !! "update" = None →
  st_config st !! "__dict__" = None →
  default ∅ (ie_config ie) !! "update" = None →
  EasyDict.storable (default ∅ (ie_config ie)) = true →
  (default ∅ (ie_config ie) ∪ st_config st) !! "task" = Some (VStr "i2v") →
  ie_clip_encoder_out ie = None ∨ ie_vae_encode_out ie = None →
  Sampler.sample te steps shift cfg_scale seed ie st
  = (MkState (default ∅ (ie_config ie) ∪ st_config st) (st_engine st)
       (st_trace st), Raise ValueError).
Proof.
  intros Hupd _ Hiupd _ Htask Hmissing.
  rewrite sample_unfold, configure_unfold_Ok by done.
  cbn zeta. cbn [st_config]. rewrite Htask.
  assert (is_None (ie_clip_encoder_out ie) || is_None (ie_vae_encode_out ie)
          = true) as ->.
  { apply orb_true_iff. destruct Hmissing as [-> | ->]; auto. }
  done.
Qed.

Lemma i2v_check_fails_after_merge_witness :
  let st := fresh_state (loaded_config "i2v" false None) in
  let out :=
    Sampler.sample some_text 20 5 5 42 (EmptyEmbeds.process 81 832 480) st in
  out.2 = Raise ValueError
  ∧ st_config out.1 !! "target_height" = Some (VInt 480)
  ∧ st_config out.1 !! "infer_steps" = None
  ∧ st_trace out.1 = [].
Proof.
  intros st out. subst out.
  rewrite (i2v_check_fails_after_merge some_text 20 5 5 42
             (EmptyEmbeds.process 81 832 480) st);
    [|vm_compute; reflexivity..|by left].
  cbn [fst snd st_config st_trace].
  split; [reflexivity|]. repeat split; vm_compute; reflexivity.
Defined.

(** X8. Whatever error [sample] raises, it raises it before any call on
    the wrapped library: the log of calls and the library's state are as
    before the call. *)
Theorem sample_fails_before_any_call {E : Engine}
  (te : text_embeddings) (steps : Z) (shift cfg_scale : Q) (seed : Z)
  (ie : image_embeddings) (st : sampler_state E) (e : exn) :
  (Sampler.sample te steps shift cfg_scale seed ie st).2 = Raise e →
  st_trace (Sampler.sample te steps shift cfg_scale seed ie st).1 = st_trace st
  ∧ st_engine (Sampler.sample te steps shift cfg_scale seed ie st).1
    = st_engine st.
Proof.
  rewrite sample_unfold.
  pose proof (configure_trace steps shift cfg_scale seed ie st) as [Ht He].
  destruct (Sampler.configure _ _ _ _ _ _) as [st1 [[]|e1]]; [|done].
  simpl in Ht, He. rewrite init_scheduler_spec.
  destruct (st_config st1 !! "feature_caching") as [fc|]; [|done].
  destruct (eq_str fc "NoCaching"); [rewrite run_sampling_spec; discriminate|].
  destruct (eq_str fc "Tea"); [rewrite run_sampling_spec; discriminate|].
  done.
Qed.

Lemma sample_fails_before_any_call_witness :
  let st := fresh_state (loaded_config "i2v" false None) in
  st_trace (Sampler.sample some_text 20 5 5 42
              (EmptyEmbeds.process 81 832 480) st).1 = [].
Proof.
  intros st.
  apply (sample_fails_before_any_call some_text 20 5 5 42
           (EmptyEmbeds.process 81 832 480) st ValueError).
  vm_compute. reflexivity.
Defined.

(** X9. In a successful call, the one scheduler constructed is given the
    configuration as the call leaves it: the sampling attributes are
    written before the constructor runs and nothing is written after it. *)
Theorem scheduler_is_given_final_config {E : Engine}
  (te : text_embeddings) (steps : Z) (shift cfg_scale : Q) (seed : Z)
  (ie : image_embeddings) (st st' : sampler_state E) (lat : latent) :
  Sampler.sample te steps shift cfg_scale seed ie st = (st', Ok lat) →
  scheduler_configs (st_trace st')
  = (scheduler_configs (st_trace st) ++ [st_config st'])%list
  ∧ st_config st' !! "infer_steps" = Some (VInt steps)
  ∧ st_config st' !! "sample_shift" = Some (VFloat shift)
  ∧ st_config st' !! "sample_guide_scale" = Some (VFloat cfg_scale)
  ∧ st_config st' !! "seed" = Some (VInt seed).
Proof.
  intros Hrun.
  destruct (sample_Ok_trace _ _ _ _ _ _ _ _ _ Hrun)
    as (Hcfg & cls & n & Htr & _).
  split.
  { rewrite Htr, scheduler_configs_app.
    change (scheduler_configs (EvScheduler ?c ?cfg :: ?l))
      with (cfg :: scheduler_configs l).
    by rewrite scheduler_configs_sampling_events. }
  assert ((Sampler.configure steps shift cfg_scale seed ie st).2 = Ok tt) as Hok.
  { apply (sample_Ok_configure te _ _ _ _ _ _ lat). by rewrite Hrun. }
  rewrite Hcfg.
  rewrite !(configure_Ok_config steps shift cfg_scale seed ie st _ Hok) by done.
  unfold configured. by simplify_map_eq.
Qed.

Lemma scheduler_is_given_final_config_witness :
  let out :=
    Sampler.sample some_text 2 5 5 42 (EmptyEmbeds.process 81 832 480)
      (fresh_state (loaded_config "t2v" false None)) in
  scheduler_configs (st_trace out.1) = [st_config out.1]
  ∧ st_config out.1 !! "infer_steps" = Some (VInt 2).
Proof.
  intros out.
  destruct (scheduler_is_given_final_config some_text 2 5 5 42
              (EmptyEmbeds.process 81 832 480)
              (fresh_state (loaded_config "t2v" false None)) out.1
              {| samples := TensorRef 2; generator := TensorRef 0 |})
    as (Hsched & Hsteps & _); [vm_compute; reflexivity|].
  split; [exact Hsched|exact Hsteps].
Defined.

(** ** The sampler: the target shape *)

Section TargetShape.
Context {E : Engine}.
Implicit Types (st : sampler_state E).

Local Ltac run_shape Hn Hvs :=
  repeat first
    [ rewrite (bind_getattr _ _ _ _ Hn) | rewrite (bind_getattr _ _ _ _ Hvs)
    | rewrite (stride_index 0 4 eq_refl) | rewrite (stride_index 1 8 eq_refl)
    | rewrite (stride_index 2 8 eq_refl)
    | rewrite floordiv_pos by done | rewrite bind_lift_Ok
    | progress change (py_sub (VInt ?a) (VInt ?b))
        with (Ok (A:=pyval) (VInt (a - b)))
    | progress change (num_add (VInt ?a) (VInt ?b))
        with (Ok (A:=pyval) (VInt (a + b)))
    | progress change (py_int (VInt ?a)) with (Ok (A:=Z) a)
    | progress cbv beta ].

Lemma set_target_shape_t2v st (n h w : Z) :
  st_config st !! "get" = None →
  st_config st !! "task" = Some (VStr "t2v") →
  st_config st !! "target_video_length" = Some (VInt n) →
  st_config st !! "target_height" = Some (VInt h) →
  st_config st !! "target_width" = Some (VInt w) →
  st_config st !! "vae_stride" = Some (VTuple [VInt 4; VInt 8; VInt 8]) →
  Sampler.set_target_shape st =
  (MkState
     (<["target_shape" :=
          VTuple [VInt 16; VInt ((n - 1) `div` 4 + 1); VInt (h `div` 8);
                  VInt (w `div` 8)]]> (st_config st))
     (st_engine st) (st_trace st), Ok tt).
Proof.
  intros Hget Htask Hn Hh Hw Hvs. unfold Sampler.set_target_shape.
  rewrite bind_config_get by done. rewrite (bind_getattr _ _ _ _ Htask).
  change (eq_str (VStr "t2v") "i2v") with false. cbv iota.
  rewrite (bind_getattr _ _ _ _ Htask).
  change (eq_str (VStr "t2v") "t2v") with true. cbv iota.
  run_shape Hn Hvs. rewrite (bind_getattr _ _ _ _ Hh).
  run_shape Hn Hvs. rewrite (bind_getattr _ _ _ _ Hw).
  run_shape Hn Hvs. reflexivity.
Qed.

Lemma set_target_shape_i2v st (n : Z) (lat_h lat_w : pyval) :
  st_config st !! "get" = None →
  st_config st !! "task" = Some (VStr "i2v") →
  st_config st !! "target_video_length" = Some (VInt n) →
  st_config st !! "vae_stride" = Some (VTuple [VInt 4; VInt 8; VInt 8]) →
  st_config st !! "lat_h" = Some lat_h →
  st_config st !! "lat_w" = Some lat_w →
  Sampler.set_target_shape st =
  (MkState
     (<["target_shape" :=
          VTuple [default (VInt 16) (st_config st !! "num_channels_latents");
                  VInt ((n - 1) `div` 4 + 1); lat_h; lat_w]]> (st_config st))
     (st_engine st) (st_trace st), Ok tt).
Proof.
  intros Hget Htask Hn Hvs Hlh Hlw. unfold Sampler.set_target_shape.
  rewrite bind_config_get by done. rewrite (bind_getattr _ _ _ _ Htask).
  change (eq_str (VStr "i2v") "i2v") with true. cbv iota.
  run_shape Hn Hvs.
  rewrite (bind_getattr _ _ _ _ Hlh). cbv beta.
  rewrite (bind_getattr _ _ _ _ Hlw). reflexivity.
Qed.

End TargetShape.

(** X10. On a ["t2v"] model, [sample] run on the embeddings of
    [Lightx2vWanVideoEmptyEmbeds.process] writes the target shape
    [(16, (num_frames - 1) // 4 + 1, height // 8, width // 8)], whatever
    happens at the construction of the scheduler afterwards; the channel
    count is the constant 16, not the configuration's
    [num_channels_latents]. The configuration object is one whose [update]
    and [get] methods are not hidden by entries and whose attributes are
    its entries (none is named [__dict__]). *)
Theorem t2v_target_shape {E : Engine}
  (te : text_embeddings) (steps : Z) (shift cfg_scale : Q) (seed : Z)
  (num_frames width height : Z) (st : sampler_state E) :
  st_config st !! "update" = None →
  st_config st !! "get" = None →
  st_config st !! "__dict__" = None →
  st_config st !! "task" = Some (VStr "t2v") →
  let out :=
    Sampler.sample te steps shift cfg_scale seed
      (EmptyEmbeds.process num_frames width height) st in
  st_config out.1 !! "target_shape"
  = Some (VTuple [VInt 16; VInt ((num_frames - 1) `div` 4 + 1);
                  VInt (height `div` 8); VInt (width `div` 8)]).
Proof.
  intros Hupd Hget _ Htask out. subst out.
  rewrite sample_config, configure_unfold_Ok by done.
  cbn zeta. cbn [st_config]. simpl (default _ _).
  rewrite lookup_union_r by (by simplify_map_eq). rewrite Htask.
  change (eq_str (VStr "t2v") "i2v") with false. cbn [andb].
  rewrite (set_target_shape_t2v _ num_frames height width);
    cbn [st_config fst];
    rewrite ?configured_lookup by compute_done;
    [by simplify_map_eq | | | by simplify_map_eq..].
  - by rewrite lookup_union_r by (by simplify_map_eq).
  - by rewrite lookup_union_r by (by simplify_map_eq).
Qed.

Lemma t2v_target_shape_witness :
  let out :=
    Sampler.sample some_text 2 5 5 42 (EmptyEmbeds.process 81 832 480)
      (fresh_state (loaded_config "t2v" false None)) in
  st_config out.1 !! "target_shape"
  = Some (VTuple [VInt 16; VInt 21; VInt 60; VInt 104]).
Proof.
  apply (t2v_target_shape some_text 2 5 5 42 81 832 480
           (fresh_state (loaded_config "t2v" false None)));
    vm_compute; reflexivity.
Defined.

(** X11. On an ["i2v"] model, [sample] run on the embeddings
    [encode_image] returns writes the target shape
    [(num_channels_latents, (num_frames - 1) // 4 + 1, lat_h, lat_w)], where
    [num_channels_latents] is the configuration's entry, 16 when it has
    none, and [lat_h], [lat_w] are those of the image embeddings. The
    configuration object is one whose [update] and [get] methods are not
    hidden by entries and whose attributes are its entries (none is named
    [__dict__]). *)
Theorem i2v_target_shape {E : Engine}
  (te : text_embeddings) (steps : Z) (shift cfg_scale : Q) (seed : Z)
  (height width num_frames lat_h lat_w : Z) (clip vae : tensor_ref)
  (st : sampler_state E) :
  st_config st !! "update" = None →
  st_config st !! "get" = None →
  st_config st !! "__dict__" = None →
  st_config st !! "task" = Some (VStr "i2v") →
  let out :=
    Sampler.sample te steps shift cfg_scale seed
      (ImageEncoder.encode_image_output height width num_frames lat_h lat_w
         clip vae) st in
  st_config out.1 !! "target_shape"
  = Some (VTuple [default (VInt 16) (st_config st !! "num_channels_latents");
                  VInt ((num_frames - 1) `div` 4 + 1); VInt lat_h; VInt lat_w]).
Proof.
  intros Hupd Hget _ Htask out. subst out.
  rewrite sample_config, configure_unfold_Ok by done.
  cbn zeta. cbn [st_config]. simpl (default _ (ie_config _)).
  rewrite lookup_union_r by (by simplify_map_eq). rewrite Htask.
  change (eq_str (VStr "i2v") "i2v") with true. cbn.
  rewrite (set_target_shape_i2v _ num_frames (VInt lat_h) (VInt lat_w));
    cbn [st_config fst];
    rewrite ?configured_lookup by compute_done;
    [ | | | by simplify_map_eq..].
  - simplify_map_eq. do 3 f_equal.
    by rewrite lookup_union_r by (by simplify_map_eq).
  - by rewrite lookup_union_r by (by simplify_map_eq).
  - by rewrite lookup_union_r by (by simplify_map_eq).
Qed.

Lemma i2v_target_shape_witness :
  let out :=
    Sampler.sample some_text 2 5 5 42 some_image
      (fresh_state (loaded_config "i2v" false None)) in
  st_config out.1 !! "target_shape"
  = Some (VTuple [VInt 16; VInt 21; VInt 60; VInt 104]).
Proof.
  apply (i2v_target_shape some_text 2 5 5 42 480 832 81 60 104
           (TensorRef 20) (TensorRef 21)
           (fresh_state (loaded_config "i2v" false None)));
    vm_compute; reflexivity.
Defined.

(** ** The host's call of the nodes *)

Lemma unexpected_keyword_false (kwargs : dict) (sig : signature) :
  (∀ k, is_Some (kwargs !! k) → k ∈ param_names sig) →
  unexpected_keyword kwargs sig = false.
Proof.
  intros Hall. unfold unexpected_keyword. apply negb_false_iff, forallb_forall.
  intros k Hk%list_elem_of_In. apply bool_decide_eq_true, Hall.
  apply list_elem_of_fmap in Hk as [[k' v] [-> Hkv]].
  apply elem_of_map_to_list in Hkv. by eexists.
Qed.

Lemma bind_params_succeeds (kwargs : dict) (sig : signature) :
  (∀ p, p ∈ sig → p.2 = None → is_Some (kwargs !! p.1)) →
  succeeds (bind_params kwargs sig).
Proof.
  induction sig as [|p sig IH]; intros Hreq; [by eexists|].
  cbn [bind_params].
  destruct IH as [bs Hbs].
  { intros q Hq. apply Hreq. by apply list_elem_of_further. }
  assert (∃ b, bind_param kwargs p = Ok b) as [b Hb].
  { unfold bind_param. destruct (kwargs !! p.1) as [v|] eqn:Hv; [by eexists|].
    destruct (p.2) as [d|] eqn:Hd; [by eexists|].
    destruct (Hreq p (list_elem_of_here _ _) Hd) as [v Hv']. congruence. }
  rewrite Hb, Hbs. by eexists.
Qed.

(** The value a parameter is bound to: the keyword argument of its name
    or else its default. *)
Lemma bind_params_Ok (kwargs : dict) (sig : signature)
  (bs : list (string * pyval)) :
  bind_params kwargs sig = Ok bs →
  bs.*1 = param_names sig
  ∧ ∀ (n : string) (o : option pyval), (n, o) ∈ sig →
      ∃ v, (n, v) ∈ bs
           ∧ (∀ x, kwargs !! n = Some x → v = x)
           ∧ (∀ d, kwargs !! n = None → o = Some d → v = d).
Proof.
  revert bs. induction sig as [|p sig IH]; intros bs; cbn [bind_params].
  - intros [= <-]. split; [done|]. intros n o Hin. by apply elem_of_nil in Hin.
  - destruct (bind_param kwargs p) as [b|] eqn:Hb; [|discriminate].
    destruct (bind_params kwargs sig) as [bs'|] eqn:Hbs; [|discriminate].
    intros [= <-]. destruct (IH bs' eq_refl) as [Hnames Hvals].
    assert (b.1 = p.1 ∧ (∀ x, kwargs !! p.1 = Some x → b.2 = x)
            ∧ (∀ d, kwargs !! p.1 = None → p.2 = Some d → b.2 = d))
      as (Hb1 & Hb2 & Hb3).
    { unfold bind_param in Hb.
      destruct (kwargs !! p.1) as [v|], (p.2) as [d|]; try discriminate;
        injection Hb as <-; simpl; repeat split; congruence. }
    split.
    + unfold param_names in *. rewrite !fmap_cons. by f_equal.
    + intros n o [Heq|Hin]%elem_of_cons.
      * subst p. simpl in *. exists b.2.
        split; [|split; [apply Hb2|apply Hb3]].
        destruct b as [b1 b2]. simpl in *. subst b1. apply list_elem_of_here.
      * destruct (Hvals n o Hin) as (v & Hv & Hrest).
        exists v. split; [by apply list_elem_of_further|done].
Qed.

(** X13. Every registered class other than the TeaCache node can be
    called by the host: when the keyword arguments carry all the required
    inputs [INPUT_TYPES] declares and nothing but declared inputs, they bind
    to the parameters of the [FUNCTION] method without a [TypeError]; every
    parameter is bound, to the keyword argument of its name when there is
    one, and a parameter without one to its default. *)
Theorem registered_nodes_accept_declared_inputs (name : string)
  (c : node_class) (kwargs : dict) :
  (name, c) ∈ NODE_CLASS_MAPPINGS →
  name ≠ "Lightx2vTeaCache" →
  (∀ n, n ∈ required_names c → is_Some (kwargs !! n)) →
  (∀ k, is_Some (kwargs !! k) →
        k ∈ (required_names c ++ optional_names c)%list) →
  ∃ (sig : signature) (bound : dict),
    function_method c = Some sig
    ∧ bind_kwargs kwargs sig = Ok bound
    ∧ (∀ n, is_Some (bound !! n) ↔ n ∈ param_names sig)
    ∧ (∀ n v, kwargs !! n = Some v → bound !! n = Some v)
    ∧ (∀ n d, (n, Some d) ∈ sig → kwargs !! n = None → bound !! n = Some d).
Proof.
  intros Hin Hname Hreq Hdecl.
  assert (host_callable c = true
          ∧ ∀ sig, function_method c = Some sig → NoDup (param_names sig))
    as [Hcall Hnodup].
  { assert (forallb (fun nc : string * node_class =>
                       String.eqb nc.1 "Lightx2vTeaCache"
                       || host_callable nc.2
                          && bool_decide (NoDup (param_names
                                                   (default [] (function_method nc.2)))))
              NODE_CLASS_MAPPINGS = true) as Hall by (vm_compute; reflexivity).
    rewrite forallb_forall in Hall.
    apply list_elem_of_In, Hall, orb_true_iff in Hin as [Heq%String.eqb_eq|Hok];
      [done|].
    apply andb_true_iff in Hok as [Hok Hnd%bool_decide_eq_true_1].
    split; [done|]. intros sig Hsig. simpl in Hnd. by rewrite Hsig in Hnd. }
  unfold host_callable in Hcall.
  destruct (function_method c) as [sig|]; [|discriminate].
  specialize (Hnodup sig eq_refl).
  apply andb_true_iff in Hcall as [Hparams Hdefaults].
  rewrite forallb_forall in Hparams. rewrite forallb_forall in Hdefaults.
  assert (∀ k, is_Some (kwargs !! k) → k ∈ param_names sig) as Hnamed.
  { intros k Hk. apply Hdecl, list_elem_of_In, Hparams in Hk.
    by apply bool_decide_eq_true in Hk. }
  destruct (bind_params_succeeds kwargs sig) as [bs Hbs].
  { intros p Hp%list_elem_of_In Hnone. apply Hdefaults in Hp.
    rewrite Hnone in Hp. apply bool_decide_eq_true in Hp. by apply Hreq. }
  assert (bind_kwargs kwargs sig = Ok (list_to_map bs)) as Hbound.
  { unfold bind_kwargs. rewrite unexpected_keyword_false by done.
    by rewrite Hbs. }
  destruct (bind_params_Ok _ _ _ Hbs) as [Hnames Hvals].
  assert (NoDup bs.*1) as Hnd by (by rewrite Hnames).
  exists sig, (list_to_map bs). do 2 (split; [done|]).
  split; [|split].
  - intros n. rewrite <- Hnames. split.
    + intros [v Hv]. apply elem_of_list_to_map in Hv; [|done].
      apply list_elem_of_fmap. by exists (n, v).
    + intros [[n' v] [-> Hv]]%list_elem_of_fmap. exists v.
      by apply elem_of_list_to_map.
  - intros n v Hv.
    assert (n ∈ param_names sig) as Hn by (apply Hnamed; by eexists).
    apply list_elem_of_fmap in Hn as [[n' o] [-> Hno]].
    destruct (Hvals _ _ Hno) as (x & Hx & Hkw & _).
    apply elem_of_list_to_map; [done|]. simpl in *.
    by rewrite <- (Hkw v Hv).
  - intros n d Hnd' Hnone.
    destruct (Hvals _ _ Hnd') as (x & Hx & _ & Hdef).
    apply elem_of_list_to_map; [done|]. by rewrite <- (Hdef d Hnone eq_refl).
Qed.

Lemma registered_nodes_accept_declared_inputs_witness :
  ∃ (sig : signature) (bound : dict),
    function_method Lightx2vWanVideoEmptyEmbeds = Some sig
    ∧ bind_kwargs empty_embeds_inputs sig = Ok bound
    ∧ bound !! "height" = Some (VInt 480)
    ∧ bound !! "control_embeds" = Some VNone.
Proof.
  destruct (registered_nodes_accept_declared_inputs "Lightx2vWanVideoEmptyEmbeds"
              Lightx2vWanVideoEmptyEmbeds empty_embeds_inputs)
    as (sig & bound & Hsig & Hbound & _ & Hkw & Hdef).
  - unfold NODE_CLASS_MAPPINGS. do 6 apply list_elem_of_further.
    apply list_elem_of_here.
  - discriminate.
  - intros n Hn. unfold required_names, Lightx2vWanVideoEmptyEmbeds in Hn.
    simpl in Hn. unfold empty_embeds_inputs.
    repeat (apply elem_of_cons in Hn as [->|Hn]; [by simplify_map_eq|]).
    by apply elem_of_nil in Hn.
  - intros k [v Hk]. unfold empty_embeds_inputs in Hk.
    repeat (apply lookup_insert_Some in Hk as [[<- _]|[_ Hk]]; [compute_done|]).
    by rewrite lookup_empty in Hk.
  - exists sig, bound. do 2 (split; [done|]). split.
    + apply Hkw. reflexivity.
    + apply Hdef; [|reflexivity].
      vm_compute in Hsig. injection Hsig as <-.
      do 3 apply list_elem_of_further. apply list_elem_of_here.
Defined.

(** X12. Called with keyword arguments named after its parameters,
    [WanVideoTeaCache.process] returns the arguments under their names,
    with ["e"] for a [mode] that is not passed and, under ["cache_device"],
    the torch device for ["main_device"] and the offload device for any
    other choice. The dictionary is never empty. *)
Theorem teacache_process_by_parameter_names (kwargs : dict)
  (rel_l1_thresh start_step end_step cache_device coefficients : pyval) :
  kwargs !! "rel_l1_thresh" = Some rel_l1_thresh →
  kwargs !! "start_step" = Some start_step →
  kwargs !! "end_step" = Some end_step →
  kwargs !! "cache_device" = Some cache_device →
  kwargs !! "coefficients" = Some coefficients →
  (∀ k, is_Some (kwargs !! k) → k ∈ param_names TeaCache.process_signature) →
  ∃ teacache_args : dict,
    TeaCache.invoke kwargs = Ok teacache_args
    ∧ teacache_args ≠ ∅
    ∧ teacache_args !! "rel_l1_thresh" = Some rel_l1_thresh
    ∧ teacache_args !! "start_step" = Some start_step
    ∧ teacache_args !! "end_step" = Some end_step
    ∧ teacache_args !! "coefficients" = Some coefficients
    ∧ teacache_args !! "mode" = Some (default (VStr "e") (kwargs !! "mode"))
    ∧ teacache_args !! "cache_device" =
        Some (VDevice (if eq_str cache_device "main_device"
                       then comfy_torch_device else comfy_offload_device)).
Proof.
  intros H1 H2 H3 H4 H5 Hkeys. unfold TeaCache.invoke, bind_kwargs.
  rewrite (unexpected_keyword_false _ _ Hkeys).
  change TeaCache.process_signature with
    [req "rel_l1_thresh"; req "start_step"; req "end_step";
     req "cache_device"; req "coefficients"; opt "mode" (VStr "e")].
  unfold bind_params, bind_param, req, opt. cbn [fst snd].
  rewrite H1, H2, H3, H4, H5.
  destruct (kwargs !! "mode") as [m|]; cbn;
    (eexists; split; [reflexivity|]);
    unfold TeaCache.process, arg; cbn [list_to_map foldr uncurry];
    simplify_map_eq;
    (split; [intros Hempty;
             apply (f_equal (fun d : dict => d !! "mode")) in Hempty;
             by simplify_map_eq|]);
    repeat split; by simplify_map_eq.
Qed.

Lemma teacache_process_by_parameter_names_witness :
  ∃ teacache_args : dict,
    TeaCache.invoke teacache_parameter_inputs = Ok teacache_args
    ∧ teacache_args !! "mode" = Some (VStr "e")
    ∧ teacache_args !! "cache_device" = Some (VDevice comfy_torch_device).
Proof.
  destruct (teacache_process_by_parameter_names teacache_parameter_inputs
              (VFloat (3 # 10)) (VInt 1) (VInt (-1)) (VStr "main_device")
              (VStr "14B") eq_refl eq_refl eq_refl eq_refl eq_refl)
    as (r & Hr & _ & _ & _ & _ & _ & Hmode & Hdev).
  { intros k [v Hk]. unfold teacache_parameter_inputs in Hk.
    repeat (apply lookup_insert_Some in Hk as [[<- _]|[_ Hk]]; [compute_done|]).
    by rewrite lookup_empty in Hk. }
  exists r. split; [exact Hr|]. split; [exact Hmode|exact Hdev].
Defined.

(** ** From the TeaCache node to the scheduler *)

Lemma teacache_process_lookup
  (rel_l1_thresh start_step end_step cache_device coefficients mode : pyval) :
  ModelLoader.teacache_thresh_of
    (Some (TeaCache.process rel_l1_thresh start_step end_step cache_device
             coefficients mode)) = Ok rel_l1_thresh.
Proof.
  unfold ModelLoader.teacache_thresh_of, ModelLoader.teacache_truthy,
    TeaCache.process, getitem.
  rewrite bool_decide_eq_false_2 by apply insert_non_empty.
  simpl. by simplify_map_eq.
Qed.

(** X14. The dictionary of the TeaCache node, given to [load_model], makes
    the loaded configuration hold its [rel_l1_thresh] as
    ["teacache_thresh"], and [sample] run on the loaded model (with
    embeddings of the upstream nodes that carry the encoder outputs when
    the task is ["i2v"]) succeeds and constructs a [WanSchedulerTeaCaching],
    provided [config.json] is storable and defines none of ["task"],
    ["feature_caching"], ["teacache_thresh"], ["update"] and ["get"]. *)
Theorem teacache_args_select_tea_scheduler {E : Engine} (fs : filesystem)
  (model_name model_type precision device attention_type mm_type : string)
  (lora_path : option string) (lora_strength : Q) (cpu_offload : bool)
  (model_dir : option string)
  (rel_l1_thresh start_step end_step cache_device coefficients mode : pyval)
  (md : model_dict) (te : text_embeddings) (steps : Z) (shift cfg_scale : Q)
  (seed : Z) (ie : image_embeddings) (st : sampler_state E) :
  let config_json :=
    fs_json fs (ModelLoader.config_json_path fs
                  (ModelLoader.model_path model_dir model_name)) in
  let out := Sampler.sample te steps shift cfg_scale seed ie st in
  ModelLoader.load_model fs model_name model_type precision device
    attention_type mm_type lora_path lora_strength cpu_offload
    (Some (TeaCache.process rel_l1_thresh start_step end_step cache_device
             coefficients mode)) model_dir = Ok md →
  EasyDict.storable config_json = true →
  config_json !! "task" = None →
  config_json !! "feature_caching" = None →
  config_json !! "teacache_thresh" = None →
  config_json !! "update" = None →
  config_json !! "get" = None →
  st_config st = md_config md →
  upstream_embeddings ie →
  (model_type = "i2v" →
   is_Some (ie_clip_encoder_out ie) ∧ is_Some (ie_vae_encode_out ie)) →
  md_config md !! "teacache_thresh" = Some rel_l1_thresh
  ∧ (∃ lat, out.2 = Ok lat)
  ∧ constructed (st_trace out.1)
    = (constructed (st_trace st) ++ [WanSchedulerTeaCaching])%list.
Proof.
  intros config_json out Hload _ Hcj_task Hcj_fc Hcj_th Hcj_upd Hcj_get Hst
    Hie Hi2v.
  destruct (load_model_Ok_keys _ _ _ _ _ _ _ _ _ _ _ _ _ Hload)
    as (_ & _ & Hkeys).
  assert (st_config st !! "update" = None) as Hupd
    by (rewrite Hst; apply Hkeys; [compute_done|done]).
  assert (st_config st !! "get" = None) as Hget
    by (rewrite Hst; apply Hkeys; [compute_done|done]).
  clear Hkeys.
  apply load_model_Ok_inv in Hload.
  destruct Hload as (dt & th & _ & _ & _ & _ & Hth & Hcfg).
  rewrite teacache_process_lookup in Hth. injection Hth as <-.
  fold config_json in Hcfg.
  assert (md_config md !! "teacache_thresh" = Some rel_l1_thresh) as Hthresh.
  { rewrite Hcfg. unfold ModelLoader.merge_config.
    rewrite lookup_union_r by done.
    unfold ModelLoader.config_literal. by simplify_map_eq. }
  assert (st_config st !! "task" = Some (VStr model_type)) as Htask.
  { rewrite Hst, Hcfg. unfold ModelLoader.merge_config.
    rewrite lookup_union_r by done.
    unfold ModelLoader.config_literal. by simplify_map_eq. }
  assert (st_config st !! "feature_caching" = Some (VStr "Tea")) as Hfc.
  { rewrite Hst, Hcfg. unfold ModelLoader.merge_config.
    rewrite lookup_union_r by done.
    unfold ModelLoader.config_literal. by simplify_map_eq. }
  split; [exact Hthresh|].
  assert (st_config out.1 !! "feature_caching" = Some (VStr "Tea")) as Hfc'.
  { subst out. rewrite sample_config.
    destruct (configure_touches steps shift cfg_scale seed ie st)
      as (_ & _ & Hframe).
    rewrite Hframe; [done|].
    destruct (upstream_fields ie Hie) as (_ & _ & _ & Hnone & _).
    apply not_elem_of_union. split; [by apply not_elem_of_dom|compute_done]. }
  subst out.
  destruct (Sampler.sample te steps shift cfg_scale seed ie st)
    as [st' [lat|e]] eqn:Hrun; cbn [fst snd] in *.
  - split; [by exists lat|].
    destruct (sample_Ok_trace _ _ _ _ _ _ _ _ _ Hrun)
      as (_ & cls & n & Htr & Hcls).
    rewrite Hfc' in Hcls. destruct cls; [discriminate|].
    rewrite Htr, constructed_app.
    change (constructed (EvScheduler ?c ?cfg :: ?l)) with (c :: constructed l).
    by rewrite constructed_sampling_events.
  - exfalso.
    assert ((Sampler.sample te steps shift cfg_scale seed ie st).2 = Raise e)
      as Hraise by (by rewrite Hrun).
    apply sample_raises in Hraise; [|by eexists|by eexists|done..].
    destruct Hraise as [(_ & Ht & Hmiss)|(_ & fc & Hfc2 & _ & Hnot)].
    + rewrite Htask in Ht. injection Ht as ->.
      destruct (Hi2v eq_refl) as [[c Hc] [v Hv]].
      destruct Hmiss; congruence.
    + rewrite Hfc in Hfc2. by injection Hfc2 as <-.
Qed.

Lemma teacache_args_select_tea_scheduler_witness :
  let teacache_args :=
    TeaCache.process (VFloat (3 # 10)) (VInt 1) (VInt (-1))
      (VStr "offload_device") (VStr "14B") (VStr "e") in
  let st := fresh_state (loaded_config "t2v" false (Some teacache_args)) in
  let out :=
    Sampler.sample some_text 2 5 5 42 (EmptyEmbeds.process 81 832 480) st in
  st_config st !! "teacache_thresh" = Some (VFloat (3 # 10))
  ∧ (∃ lat, out.2 = Ok lat)
  ∧ constructed (st_trace out.1) = [WanSchedulerTeaCaching].
Proof.
  intros teacache_args st out.
  pose proof (load_model_Ok_value fs_with_config "" "t2v" "bf16" "cuda"
    "flash_attn3" "Default" None 1 false (Some teacache_args) (Some wan_dir)
    bfloat16 (VFloat (3 # 10)) eq_refl eq_refl eq_refl eq_refl eq_refl
    ltac:(vm_compute; reflexivity)) as Hload.
  assert (st_config st = loaded_config "t2v" false (Some teacache_args))
    as Hst by reflexivity.
  unfold loaded_config in Hst. rewrite Hload in Hst.
  destruct (teacache_args_select_tea_scheduler (E:=counting_engine)
              fs_with_config "" "t2v" "bf16" "cuda" "flash_attn3" "Default"
              None 1 false (Some wan_dir) (VFloat (3 # 10)) (VInt 1)
              (VInt (-1)) (VStr "offload_device") (VStr "14B") (VStr "e") _
              some_text 2 5 5 42 (EmptyEmbeds.process 81 832 480) st Hload)
    as (Hth & Hok & Hcons).
  - vm_compute. reflexivity.
  - vm_compute. reflexivity.
  - vm_compute. reflexivity.
  - vm_compute. reflexivity.
  - vm_compute. reflexivity.
  - vm_compute. reflexivity.
  - exact Hst.
  - left. by exists 81, 832, 480.
  - discriminate.
  - split; [|split; [exact Hok|exact Hcons]].
    rewrite Hst. exact Hth.
Defined.

(** ** The VAE decoder: accepted shapes and saturation *)

Lemma length_four {A : Type} (l : list A) :
  length l = 4%nat ↔ ∃ a b c d, l = [a; b; c; d].
Proof.
  split.
  - destruct l as [|a [|b [|c [|d [|e l]]]]]; try discriminate.
    intros _. by exists a, b, c, d.
  - by intros (a & b & c & d & ->).
Qed.

Lemma is_permutation_1230 (rank : nat) :
  is_permutation [1; 2; 3; 0]%nat rank = Nat.eqb 4 rank.
Proof.
  destruct rank as [|[|[|[|[|rank]]]]]; try reflexivity.
Qed.

Lemma squeeze0_shape (x : tensor) :
  shape (squeeze0 x)
  = match shape x with
    | 1%nat :: s => s
    | s => s
    end.
Proof.
  unfold squeeze0. by destruct (shape x) as [|[|[|n]] s] eqn:Hs.
Qed.

Lemma decode_latent_outcome
  (decode : tensor_ref → tensor_ref → dict → tensor) (lat : latent) :
  let d := decode (samples lat) (generator lat) (<["cpu_offload" := VBool false]> ∅) in
  (length (shape (squeeze0 d)) = 4%nat →
   succeeds (VaeDecoder.decode_latent decode lat))
  ∧ (length (shape (squeeze0 d)) ≠ 4%nat →
     VaeDecoder.decode_latent decode lat = Raise RuntimeError).
Proof.
  intros d. unfold VaeDecoder.decode_latent. fold d. unfold permute.
  rewrite is_permutation_1230.
  assert (shape (squeeze0 (div_int (add_int d 1) 2)) = shape (squeeze0 d))
    as -> by (by rewrite !squeeze0_shape).
  split; intros Hlen.
  - rewrite Hlen. simpl. by eexists.
  - destruct (Nat.eqb_spec 4 (length (shape (squeeze0 d)))); [congruence|done].
Qed.

(** X15. [decode_latent] accepts a decoded tensor exactly when it has
    five dimensions with a batch of one, or four dimensions the first of
    which is not of size one (which [squeeze(0)] leaves as it is); any
    other shape, a batch of several videos in particular, ends in the
    [RuntimeError] of [permute]. *)
Theorem decode_latent_accepted_shapes
  (decode : tensor_ref → tensor_ref → dict → tensor) (lat : latent) :
  let d := decode (samples lat) (generator lat) (<["cpu_offload" := VBool false]> ∅) in
  (succeeds (VaeDecoder.decode_latent decode lat)
   ↔ (∃ C T H W : nat, shape d = [1; C; T; H; W]%nat)
     ∨ (∃ C T H W : nat, shape d = [C; T; H; W] ∧ C ≠ 1%nat))
  ∧ (¬ succeeds (VaeDecoder.decode_latent decode lat) →
     VaeDecoder.decode_latent decode lat = Raise RuntimeError).
Proof.
  intros d. destruct (decode_latent_outcome decode lat) as [Hok Hfail].
  fold d in Hok, Hfail.
  assert (length (shape (squeeze0 d)) = 4%nat
          ↔ (∃ C T H W : nat, shape d = [1; C; T; H; W]%nat)
            ∨ (∃ C T H W : nat, shape d = [C; T; H; W] ∧ C ≠ 1%nat)) as Hshape.
  { rewrite squeeze0_shape.
    destruct (shape d) as [|n0 s] eqn:Hs.
    - split; [discriminate|].
      intros [(? & ? & ? & ? & [=])|(? & ? & ? & ? & [=] & ?)].
    - destruct n0 as [|[|n0]]; rewrite length_four; split.
      + intros (a & b & c & e & [= <- ->]). right. by exists 0%nat, b, c, e.
      + intros [(a & b & c & e & [=])|(a & b & c & e & [= <- ->] & Hn)].
        by exists 0%nat, b, c, e.
      + intros (a & b & c & e & ->). left. by exists a, b, c, e.
      + intros [(a & b & c & e & [= ->])|(a & b & c & e & [= <- ->] & Hn)];
          [by exists a, b, c, e|done].
      + intros (a & b & c & e & [= <- ->]). right.
        by exists (S (S n0)), b, c, e.
      + intros [(a & b & c & e & [=])|(a & b & c & e & [= <- ->] & Hn)].
        by exists (S (S n0)), b, c, e. }
  split.
  - rewrite <- Hshape. split; [|exact Hok].
    intros [img Himg].
    destruct (decide (length (shape (squeeze0 d)) = 4%nat)) as [|Hne]; [done|].
    rewrite (Hfail Hne) in Himg. discriminate.
  - intros Hnot. apply Hfail. intros Hlen. by apply Hnot, Hok.
Qed.

Lemma decode_latent_accepted_shapes_witness :
  VaeDecoder.decode_latent (fun _ _ _ => two_videos) small_latent
  = Raise RuntimeError.
Proof.
  apply (decode_latent_accepted_shapes (fun _ _ _ => two_videos) small_latent).
  intros Hok.
  apply (decode_latent_accepted_shapes (fun _ _ _ => two_videos) small_latent)
    in Hok.
  destruct Hok as [(C & T & H & W & [=])|(C & T & H & W & [=] & _)].
Defined.

(** X16. A NaN element of the decoded tensor comes out as a NaN pixel,
    and a pixel is NaN only for a NaN element; the infinities saturate,
    plus infinity to 1 and minus infinity to 0, in every dtype. *)
Theorem decoded_nan_and_infinities
  (decode : tensor_ref → tensor_ref → dict → tensor) (lat : latent)
  (C T H W : nat) :
  let d := decode (samples lat) (generator lat) (<["cpu_offload" := VBool false]> ∅) in
  let dt := dtype_of d in
  shape d = [1; C; T; H; W]%nat →
  ∃ images : tensor,
    VaeDecoder.decode_latent decode lat = Ok images
    ∧ ∀ t h w c : nat,
        let x := at_index d [0; c; t; h; w]%nat in
        let y := at_index images [t; h; w; c] in
        isnan y = isnan x
        ∧ (x = S754_infinity false → y = of_int dt 1)
        ∧ (x = S754_infinity true → y = of_int dt 0).
Proof.
  intros d dt Hshape.
  destruct (decode_latent_at decode lat C T H W Hshape)
    as (images & Hok & _ & _ & Hat).
  fold d dt in Hat. exists images. split; [exact Hok|].
  intros t h w c x y. subst x y. rewrite Hat.
  split; [apply pixel_nan|].
  split; intros ->; destruct dt; vm_compute; reflexivity.
Qed.

Lemma decoded_nan_and_infinities_witness :
  ∃ images : tensor,
    VaeDecoder.decode_latent (fun _ _ _ => small_video) small_latent = Ok images
    ∧ at_index images [0; 0; 0; 2]%nat = of_int float32 1
    ∧ at_index images [0; 0; 1; 2]%nat = of_int float32 0
    ∧ isnan (at_index images [0; 1; 0; 2]%nat) = true.
Proof.
  destruct (decoded_nan_and_infinities (fun _ _ _ => small_video) small_latent
              3 1 2 2 eq_refl) as (images & Hok & Hpix).
  exists images. split; [exact Hok|].
  split; [by apply (Hpix 0 0 0 2)%nat|].
  split; [by apply (Hpix 0 0 1 2)%nat|].
  by rewrite (proj1 (Hpix 0 1 0 2)%nat).
Defined.

(** ** The text encoder *)

(** X17. [encode_text] encodes the prompt and the negative prompt each in
    a call of its own, the negative prompt always as it is given (the
    fallback for an empty one is the empty string itself), and fails, with
    an [IndexError] from the shape it prints, exactly when the encoder
    returns no tensor for the prompt. *)
Theorem encode_text_spec (infer : list string → list tensor_ref)
  (prompt negative_prompt : string) :
  T5Encoder.encode_text infer prompt negative_prompt
  = match infer [prompt] with
    | [] => Raise IndexError
    | _ :: _ =>
        Ok {| te_context := infer [prompt];
              te_context_null := infer [negative_prompt] |}
    end.
Proof.
  unfold T5Encoder.encode_text.
  assert ((if str_truthy negative_prompt then negative_prompt else "")
          = negative_prompt) as -> by (by destruct negative_prompt).
  by destruct (infer [prompt]).
Qed.

(** ** The display names *)

(** X18. Every registered node has a display name, no two nodes share
    one, and the table of display names holds exactly one key that is not
    registered, ["Lightx2vWanVideoClipVisionEncoder"]. *)
Theorem display_names_cover_registered_nodes :
  (∀ (name : string) (c : node_class),
     (name, c) ∈ NODE_CLASS_MAPPINGS →
     ∃ shown, (name, shown) ∈ NODE_DISPLAY_NAME_MAPPINGS)
  ∧ NoDup (NODE_DISPLAY_NAME_MAPPINGS.*2)
  ∧ NoDup (NODE_DISPLAY_NAME_MAPPINGS.*1)
  ∧ (∀ name, name ∈ NODE_DISPLAY_NAME_MAPPINGS.*1 →
             name ∉ NODE_CLASS_MAPPINGS.*1 →
             name = "Lightx2vWanVideoClipVisionEncoder")
  ∧ "Lightx2vWanVideoClipVisionEncoder" ∉ NODE_CLASS_MAPPINGS.*1.
Proof.
  split.
  { intros name c Hin.
    assert (name ∈ NODE_DISPLAY_NAME_MAPPINGS.*1) as Hname.
    { assert (forallb (fun n => bool_decide (n ∈ NODE_DISPLAY_NAME_MAPPINGS.*1))
                (NODE_CLASS_MAPPINGS.*1) = true) as Hall
        by (vm_compute; reflexivity).
      rewrite forallb_forall in Hall.
      eapply bool_decide_eq_true_1, Hall, list_elem_of_In, list_elem_of_fmap.
      by exists (name, c). }
    apply list_elem_of_fmap in Hname as [[n shown] [-> Hin']]. by exists shown. }
  split; [compute_done|]. split; [compute_done|]. split; [|compute_done].
  intros name Hin Hnot.
  assert (forallb (fun n => bool_decide (n ∈ NODE_CLASS_MAPPINGS.*1)
                            || String.eqb n "Lightx2vWanVideoClipVisionEncoder")
            (NODE_DISPLAY_NAME_MAPPINGS.*1) = true) as Hall
    by (vm_compute; reflexivity).
  rewrite forallb_forall in Hall.
  apply list_elem_of_In, Hall, orb_true_iff in Hin
    as [Hreg%bool_decide_eq_true|Heq%String.eqb_eq]; done.
Qed.

(** ** The mask of the image encoder *)

Section Mask.
Local Open Scope nat_scope.

Lemma ravel_lt (idx s : list nat) :
  Forall2 lt idx s → (ravel idx s < numel s)%nat.
Proof.
  induction 1 as [|i n idx s Hi _ IH]; simpl; [lia|].
  unfold numel in *. nia.
Qed.

(** An index within the bounds of a shape is recovered from its position
    in row-major order. *)
Lemma unravel_ravel (idx s : list nat) :
  Forall2 lt idx s → unravel (ravel idx s) s = idx.
Proof.
  induction 1 as [|i n idx s Hi Hrest IH]; simpl; [done|].
  pose proof (ravel_lt idx s Hrest) as Hlt.
  assert (numel s ≠ 0)%nat as Hpos by lia.
  rewrite Nat.div_add_l, Nat.div_small, Nat.add_0_r by done.
  rewrite Nat.add_comm, Nat.Div0.mod_add, Nat.mod_small by done.
  by rewrite IH.
Qed.

Lemma ravel_regroup (t c i j K N h w : nat) :
  ravel [0; t; c; i; j]%nat [1; K; 4; h; w]%nat
  = ravel [0; 4 * t + c; i; j]%nat [1; N; h; w]%nat.
Proof. simpl. lia. Qed.

(** X19. For a number of frames [F >= 1] with [F + 3] divisible by 4 (the
    values 1, 5, 9, ... of the widget), the mask [encode_image] builds has
    the shape [[4; (F + 3) / 4; lat_h; lat_w]], whose second size is the
    [(F - 1) // 4 + 1] of the sampler's target shape, and marks the first
    latent frame: its elements, of dtype [float32], are 1 at frame 0 and
    0 at every other frame. For any other [F >= 1] (and a non-empty latent)
    the [view] fails with a [RuntimeError]. *)
Theorem image_mask_marks_first_frame (F lat_h lat_w : nat) :
  (1 <= F)%nat →
  ((F + 3) mod 4 = 0%nat →
   ∃ m : tensor,
     ImageEncoderMask.msk F lat_h lat_w = Ok m
     ∧ shape m = [4; (F + 3) / 4; lat_h; lat_w]%nat
     ∧ dtype_of m = float32
     ∧ ((F + 3) / 4 = (F - 1) / 4 + 1)%nat
     ∧ ∀ c t i j : nat,
         (c < 4)%nat → (t < (F + 3) / 4)%nat → (i < lat_h)%nat →
         (j < lat_w)%nat →
         at_index m [c; t; i; j]
         = of_int float32 (if Nat.eqb t 0 then 1%Z else 0%Z))
  ∧ ((F + 3) mod 4 ≠ 0%nat → (0 < lat_h * lat_w)%nat →
     ImageEncoderMask.msk F lat_h lat_w = Raise RuntimeError).
Proof.
  intros HF. unfold ImageEncoderMask.msk.
  assert (∃ cat : tensor,
            concat1
              (repeat_interleave1 4
                 (slice1 0 (Some 1) (fill_from 1 0 (ones [1; F; lat_h; lat_w]))))
              (slice1 1 None (fill_from 1 0 (ones [1; F; lat_h; lat_w])))
            = Ok cat
            ∧ shape cat = [1; F + 3; lat_h; lat_w]
            ∧ dtype_of cat = float32
            ∧ ∀ k i j : nat,
                at_index cat [0; k; i; j]
                = of_int float32 (if k <? 4 then 1%Z else 0%Z))
    as (cat & -> & Hshape & Hdtype & Hcat).
  { unfold concat1, repeat_interleave1, slice1, fill_from, ones.
    cbn [shape at_index dtype_of default from_option]. unfold id.
    assert (Nat.min 0 F = 0) as -> by lia.
    assert (Nat.min 1 F = 1) as -> by lia.
    assert (Nat.min F F = F) as -> by lia.
    assert (Nat.max 0 1 = 1) as -> by lia.
    assert (Nat.max 1 F = F) as -> by lia.
    rewrite bool_decide_eq_true_2 by done.
    eexists. split; [reflexivity|]. cbn [shape at_index dtype_of]. split.
    { do 2 f_equal. lia. }
    split; [reflexivity|].
    - intros k i j. change ((1 - 0) * 4) with 4.
      destruct (Nat.ltb_spec k 4) as [Hk|Hk].
      + rewrite Nat.div_small by done. reflexivity.
      + destruct (Nat.leb_spec 1 (1 + (k - 4))); [reflexivity|lia]. }
  cbn [mbind result_bind]. rewrite Hshape. cbn [nth].
  unfold view. rewrite Hshape.
  split.
  - intros Hdiv.
    assert (4 * ((F + 3) / 4) = F + 3)%nat as Hmul.
    { pose proof (Nat.div_mod_eq (F + 3) 4). lia. }
    assert (numel [1; (F + 3) / 4; 4; lat_h; lat_w]%nat
            = numel [1; F + 3; lat_h; lat_w]%nat) as Hnumel.
    { unfold numel. cbn [foldr]. revert Hmul.
      generalize ((F + 3) / 4). intros q <-.
      generalize (lat_h * (lat_w * 1)). intros p. nia. }
    rewrite Hnumel, Nat.eqb_refl.
    unfold transpose12, first_item. cbn [mbind result_bind shape].
    eexists. split; [reflexivity|]. cbn [shape at_index dtype_of].
    split; [reflexivity|]. split; [exact Hdtype|]. split.
    { pose proof (Nat.div_mod_eq (F - 1) 4).
      pose proof (Nat.mod_upper_bound (F - 1) 4). lia. }
    intros c t i j Hc Ht Hi Hj.
    rewrite (ravel_regroup t c i j _ (F + 3)).
    rewrite unravel_ravel.
    2: { repeat constructor; lia. }
    rewrite Hcat.
    destruct t as [|t].
    + destruct (Nat.ltb_spec (4 * 0 + c) 4); [reflexivity|lia].
    + destruct (Nat.ltb_spec (4 * S t + c) 4); [lia|reflexivity].
  - intros Hdiv Hpos.
    destruct (Nat.eqb_spec (numel [1; (F + 3) / 4; 4; lat_h; lat_w]%nat)
                (numel [1; F + 3; lat_h; lat_w]%nat)) as [Heq|]; [|done].
    exfalso. unfold numel in Heq. cbn [foldr] in Heq.
    pose proof (Nat.div_mod_eq (F + 3) 4) as Hdm.
    assert ((F + 3) / 4 * 4 < F + 3) as Hlt by lia.
    assert (0 < lat_h * (lat_w * 1)) as Hp by lia.
    clear Hdm Hdiv Hpos Hcat Hshape.
    remember ((F + 3) / 4) as q. remember (lat_h * (lat_w * 1)) as p.
    remember (F + 3) as n.
    assert (q * 4 * p < n * p) by (apply Nat.mul_lt_mono_pos_r; lia). nia.
Qed.

Lemma image_mask_marks_first_frame_witness :
  ∃ m : tensor,
    ImageEncoderMask.msk 81 60 104 = Ok m
    ∧ shape m = [4; 21; 60; 104]%nat
    ∧ at_index m [3; 0; 59; 103]%nat = of_int float32 1
    ∧ at_index m [0; 1; 0; 0]%nat = of_int float32 0.
Proof.
  assert (1 <= 81)%nat as HF by lia.
  destruct (proj1 (image_mask_marks_first_frame 81 60 104 HF) eq_refl)
    as (m & Hm & Hshape & _ & _ & Hat).
  exists m. split; [exact Hm|]. split; [exact Hshape|]. split.
  - apply (Hat 3 0 59 103); try lia. change ((81 + 3) / 4) with 21. lia.
  - apply (Hat 0 1 0 0); try lia. change ((81 + 3) / 4) with 21. lia.
Defined.

End Mask.

(** ** The sampler: running it again *)

Section Rerun.
Context {E : Engine}.
Implicit Types (st : sampler_state E) (te : text_embeddings)
  (ie : image_embeddings).

Lemma bind_getattr_case {B : Type} (name : string) (k : pyval → M E B) st :
  (getattr name ≫= k) st =
  match attr (st_config st) name with
  | Ok v => k v st
  | Raise e => (st, Raise e)
  end.
Proof.
  rewrite M_bind_unfold. unfold getattr, attr.
  by destruct (st_config st !! name).
Qed.

Lemma bind_lift_case {A B : Type} (r : result A) (k : A → M E B) st :
  (lift r ≫= k) st =
  match r with
  | Ok a => k a st
  | Raise e => (st, Raise e)
  end.
Proof. rewrite M_bind_unfold. by destruct r. Qed.

Lemma result_bind_unfold {A B : Type} (m : result A) (k : A → result B) :
  m ≫= k = match m with Ok a => k a | Raise e => Raise e end.
Proof. reflexivity. Qed.

(** [set_target_shape] assigns the value of [target_shape_of], when there
    is one, and does nothing else. *)
Lemma set_target_shape_eq st :
  Sampler.set_target_shape st =
  match target_shape_of (st_config st) with
  | Ok (Some v) =>
      (MkState (<["target_shape" := v]> (st_config st)) (st_engine st)
         (st_trace st), Ok tt)
  | Ok None => (st, Ok tt)
  | Raise e => (st, Raise e)
  end.
Proof.
  unfold Sampler.set_target_shape, target_shape_of.
  rewrite M_bind_unfold. unfold config_get at 1. rewrite result_bind_unfold.
  destruct (EasyDict.get (st_config st) "num_channels_latents" (VInt 16))
    as [num_channels_latents|x]; [|reflexivity].
  cbv beta iota.
  repeat first
    [ rewrite bind_getattr_case
    | rewrite bind_lift_case
    | rewrite result_bind_unfold
    | match goal with
      | H : attr _ ?n = _ |- context [attr _ ?n] => rewrite H
      end
    | match goal with
      | |- context [attr (st_config st) ?n] =>
          destruct (attr (st_config st) n) eqn:?; [|reflexivity]
      end
    | match goal with
      | |- context [match ?r with Ok _ => _ | Raise _ => _ end] =>
          destruct r eqn:?; [|reflexivity]
      end
    | match goal with
      | |- context [eq_str ?v ?s] => destruct (eq_str v s)
      end
    | progress cbv beta iota
    | reflexivity ].
Qed.

Lemma target_shape_of_ext (c c' : dict) :
  (∀ k, k ∈ shape_keys → c !! k = c' !! k) → target_shape_of c = target_shape_of c'.
Proof.
  intros Hagree. unfold target_shape_of, attr, EasyDict.get, EasyDict.method.
  rewrite !(Hagree "get"), !(Hagree "num_channels_latents"), !(Hagree "task"),
    !(Hagree "target_video_length"), !(Hagree "vae_stride"),
    !(Hagree "lat_h"), !(Hagree "lat_w"), !(Hagree "target_height"),
    !(Hagree "target_width") by compute_done.
  reflexivity.
Qed.

Lemma configure_Ok_inv (steps : Z) (shift cfg_scale : Q) (seed : Z) ie st st1 :
  Sampler.configure steps shift cfg_scale seed ie st = (st1, Ok tt) →
  let ic := default ∅ (ie_config ie) in
  ∃ (task : pyval) (o : option pyval),
    st_config st !! "update" = None
    ∧ ic !! "update" = None
    ∧ (ic ∪ st_config st) !! "task" = Some task
    ∧ eq_str task "i2v"
      && (is_None (ie_clip_encoder_out ie) || is_None (ie_vae_encode_out ie))
      = false
    ∧ target_shape_of (configured steps shift cfg_scale seed (ic ∪ st_config st))
      = Ok o
    ∧ st_config st1 = after_configure steps shift cfg_scale seed ic (st_config st) o.
Proof.
  rewrite configure_unfold.
  destruct (EasyDict.update (st_config st) (ie_config ie)) as [c0|x] eqn:Hup;
    [|discriminate].
  apply EasyDict_update_inv in Hup as (Hupd & Hiupd & ->).
  cbn zeta. cbn [st_config].
  destruct ((default ∅ (ie_config ie) ∪ st_config st) !! "task") as [task|];
    [|discriminate].
  destruct (eq_str task "i2v" && _) eqn:Hcheck; [discriminate|].
  rewrite set_target_shape_eq. cbn [st_config st_engine st_trace].
  destruct (target_shape_of _) as [[v|]|e] eqn:Hts; [| |discriminate];
    intros [= <-]; exists task; eexists; repeat split; done.
Qed.

Lemma configure_Ok_intro (steps : Z) (shift cfg_scale : Q) (seed : Z) ie st
  (task : pyval) (o : option pyval) :
  let ic := default ∅ (ie_config ie) in
  st_config st !! "update" = None →
  ic !! "update" = None →
  (ic ∪ st_config st) !! "task" = Some task →
  eq_str task "i2v"
  && (is_None (ie_clip_encoder_out ie) || is_None (ie_vae_encode_out ie))
  = false →
  target_shape_of (configured steps shift cfg_scale seed (ic ∪ st_config st))
  = Ok o →
  ∃ st1,
    Sampler.configure steps shift cfg_scale seed ie st = (st1, Ok tt)
    ∧ st_config st1 = after_configure steps shift cfg_scale seed ic (st_config st) o.
Proof.
  intros ic Hupd Hiupd Htask Hcheck Hts.
  rewrite configure_unfold_Ok by done. cbn zeta.
  cbn [st_config]. fold ic. rewrite Htask, Hcheck, set_target_shape_eq.
  cbn [st_config st_engine st_trace]. rewrite Hts.
  destruct o as [v|]; eexists; split; reflexivity.
Qed.

Lemma after_configure_lookup (steps : Z) (shift cfg_scale : Q) (seed : Z)
  (ic c : dict) (o : option pyval) (k : string) :
  k ∉ written_keys →
  after_configure steps shift cfg_scale seed ic c o !! k = (ic ∪ c) !! k.
Proof.
  intros Hk. unfold after_configure.
  destruct o as [v|]; [rewrite lookup_insert_ne|];
    [by apply configured_lookup|intros <-; apply Hk; compute_done|
     by apply configured_lookup].
Qed.

(** Merging the image configuration and assigning again, over a
    configuration [configure] left, changes no entry but the target
    shape. *)
Lemma configured_again (steps : Z) (shift cfg_scale : Q) (seed : Z)
  (ic c : dict) (o : option pyval) (k : string) :
  let c1 := after_configure steps shift cfg_scale seed ic c o in
  (k ≠ "target_shape" ∨ o = None) →
  configured steps shift cfg_scale seed (ic ∪ c1) !! k
  = c1 !! k.
Proof.
  intros c1 Hk.
  assert (∀ j, j ∉ written_keys → (ic ∪ c1) !! j = (ic ∪ c) !! j) as Hmerge.
  { intros j Hj. destruct (ic !! j) as [v|] eqn:Hic.
    - by rewrite !(lookup_union_Some_l _ _ _ v).
    - rewrite (lookup_union_r ic c1) by done. subst c1.
      by apply after_configure_lookup. }
  destruct (decide (k ∈ written_keys)) as [Hin|Hout].
  - destruct (decide (k = "target_shape")) as [->|Hne].
    + destruct Hk as [Hk | ->]; [done|]. subst c1. unfold after_configure.
      unfold configured at 1. rewrite !lookup_insert_ne by done.
      destruct (ic !! "target_shape") as [v|] eqn:Hic.
      * rewrite (lookup_union_Some_l _ _ _ v) by done.
        unfold configured. rewrite !lookup_insert_ne by done.
        by rewrite (lookup_union_Some_l _ _ _ v).
      * by rewrite lookup_union_r.
    + subst c1. unfold after_configure, written_keys in *.
      assert (∀ x : dict,
                configured steps shift cfg_scale seed x !! k
                = configured steps shift cfg_scale seed ∅ !! k) as Hfixed.
      { intros x. unfold configured. rewrite !lookup_insert.
        repeat (case_decide; [done|]).
        exfalso.
        repeat (apply elem_of_union in Hin as [Hin|Hin]);
          apply elem_of_singleton in Hin; congruence. }
      destruct o as [v|]; [rewrite lookup_insert_ne by done|];
        by rewrite Hfixed, (Hfixed (ic ∪ c)).
  - rewrite configured_lookup, Hmerge by done. subst c1.
    by rewrite after_configure_lookup.
Qed.

End Rerun.

(** X20. Running [sample] again with the same arguments on a model whose
    configuration a successful call has left succeeds again and leaves the
    configuration as it is: what the first call wrote is a fixed point of
    the update. *)
Theorem sample_again_keeps_config {E : Engine}
  (te te' : text_embeddings) (steps : Z) (shift cfg_scale : Q) (seed : Z)
  (ie : image_embeddings) (st st1 st2 : sampler_state E) (lat : latent) :
  Sampler.sample te steps shift cfg_scale seed ie st = (st1, Ok lat) →
  st_config st2 = st_config st1 →
  st_config (Sampler.sample te' steps shift cfg_scale seed ie st2).1
  = st_config st1
  ∧ ∃ lat', (Sampler.sample te' steps shift cfg_scale seed ie st2).2 = Ok lat'.
Proof.
  intros Hrun Hst2.
  destruct (sample_Ok_trace _ _ _ _ _ _ _ _ _ Hrun) as (Hcfg & cls & n & _ & Hfc).
  assert ((Sampler.configure steps shift cfg_scale seed ie st).2 = Ok tt) as Hok.
  { apply (sample_Ok_configure te _ _ _ _ _ _ lat). by rewrite Hrun. }
  destruct (Sampler.configure steps shift cfg_scale seed ie st)
    as [stA r] eqn:HconfA. simpl in Hok, Hcfg. subst r.
  destruct (configure_Ok_inv _ _ _ _ _ _ _ HconfA)
    as (task & o & Hupd & Hiupd & Htask & Hcheck & Hts & HcA).
  set (ic := default ∅ (ie_config ie)) in *.
  set (c1 := after_configure steps shift cfg_scale seed ic (st_config st) o) in *.
  assert (st_config st1 = c1) as Hc1 by congruence.
  assert (∀ k, k ≠ "target_shape" →
               c1 !! k = configured steps shift cfg_scale seed (ic ∪ st_config st) !! k)
    as Hoff.
  { intros k Hk. subst c1. unfold after_configure.
    destruct o; [by rewrite lookup_insert_ne|done]. }
  destruct (configure_Ok_intro steps shift cfg_scale seed ie st2 task o)
    as (stB & HconfB & HcB).
  { rewrite Hst2, Hc1. subst c1.
    rewrite after_configure_lookup by compute_done. fold ic.
    by rewrite lookup_union_r. }
  { exact Hiupd. }
  { rewrite Hst2, Hc1. fold ic.
    rewrite <- (configured_lookup steps shift cfg_scale seed) by compute_done.
    subst c1. rewrite configured_again by (by left).
    rewrite after_configure_lookup by compute_done. exact Htask. }
  { exact Hcheck. }
  { rewrite Hst2, Hc1. fold ic. rewrite <- Hts. apply target_shape_of_ext.
    intros k Hk.
    assert (k ≠ "target_shape") as Hne.
    { intros ->. revert Hk. compute_done. }
    subst c1. rewrite configured_again by (by left). by apply Hoff. }
  assert (st_config stB = c1) as HB.
  { rewrite HcB, Hst2, Hc1. fold ic. apply map_eq. intros k.
    unfold after_configure at 1. destruct o as [v|] eqn:Ho.
    - destruct (decide (k = "target_shape")) as [->|Hne].
      + subst c1. unfold after_configure. by rewrite !lookup_insert_eq.
      + rewrite lookup_insert_ne by done. subst c1.
        by rewrite configured_again by (by left).
    - subst c1. by rewrite configured_again by (by right). }
  split.
  - by rewrite sample_config, HconfB, Hc1.
  - rewrite sample_unfold, HconfB, init_scheduler_spec, HB, <- Hc1, Hfc.
    destruct cls; cbn; rewrite run_sampling_spec; by eexists.
Qed.

Lemma sample_again_keeps_config_witness :
  let st := fresh_state (loaded_config "t2v" false None) in
  let first :=
    (Sampler.sample some_text 2 5 5 42 (EmptyEmbeds.process 81 832 480) st).1 in
  st_config (Sampler.sample some_text 2 5 5 42 (EmptyEmbeds.process 81 832 480)
               (next_invocation first)).1 = st_config first.
Proof.
  intros st first.
  apply (sample_again_keeps_config some_text some_text 2 5 5 42
           (EmptyEmbeds.process 81 832 480) st first (next_invocation first)
           {| samples := TensorRef 2; generator := TensorRef 0 |}).
  - vm_compute. reflexivity.
  - reflexivity.
Defined.

(** ** Entries of [config.json] that hide a method *)

Lemma load_model_config_json_entry (fs : filesystem)
  (model_name model_type precision device attention_type mm_type : string)
  (lora_path : option string) (lora_strength : Q) (cpu_offload : bool)
  (teacache_args : option dict) (model_dir : option string) (md : model_dict)
  (k : string) (v : pyval) :
  ModelLoader.load_model fs model_name model_type precision device
    attention_type mm_type lora_path lora_strength cpu_offload teacache_args
    model_dir = Ok md →
  fs_json fs (ModelLoader.config_json_path fs
                (ModelLoader.model_path model_dir model_name)) !! k = Some v →
  md_config md !! k = Some v.
Proof.
  intros (dt & th & _ & _ & _ & _ & _ & ->)%load_model_Ok_inv Hk.
  unfold ModelLoader.merge_config. by apply lookup_union_Some_l.
Qed.

Lemma set_target_shape_hidden {E : Engine} (st : sampler_state E) :
  is_Some (st_config st !! "get") →
  Sampler.set_target_shape st = (st, Raise TypeError).
Proof.
  intros [v Hv]. unfold Sampler.set_target_shape. rewrite M_bind_unfold.
  unfold config_get, EasyDict.get, EasyDict.method. by rewrite Hv.
Qed.

(** X21. A storable [config.json] with an entry named ["update"] does not
    stop [load_model], but every call of [sample] on the model it returns
    raises a [TypeError] at once: the entry hides the method of the
    configuration object, nothing is written to the configuration and
    nothing is called on the wrapped library. *)
Theorem config_json_update_entry_stops_sample {E : Engine} (fs : filesystem)
  (model_name model_type precision device attention_type mm_type : string)
  (lora_path : option string) (lora_strength : Q) (cpu_offload : bool)
  (teacache_args : option dict) (model_dir : option string) (md : model_dict)
  (te : text_embeddings) (steps : Z) (shift cfg_scale : Q) (seed : Z)
  (ie : image_embeddings) (st : sampler_state E) :
  let config_json :=
    fs_json fs (ModelLoader.config_json_path fs
                  (ModelLoader.model_path model_dir model_name)) in
  ModelLoader.load_model fs model_name model_type precision device
    attention_type mm_type lora_path lora_strength cpu_offload teacache_args
    model_dir = Ok md →
  EasyDict.storable config_json = true →
  is_Some (config_json !! "update") →
  st_config st = md_config md →
  Sampler.sample te steps shift cfg_scale seed ie st = (st, Raise TypeError).
Proof.
  intros config_json Hload _ [v Hv] Hst.
  pose proof (load_model_config_json_entry _ _ _ _ _ _ _ _ _ _ _ _ _ _ _
                Hload Hv) as Hupd.
  rewrite <- Hst in Hupd.
  rewrite sample_unfold, configure_unfold.
  unfold EasyDict.update, EasyDict.method. by rewrite Hupd.
Qed.

Lemma config_json_update_entry_stops_sample_witness :
  let fs := fs_with_entry "update" (VInt 1) in
  ∃ md : model_dict,
    ModelLoader.load_model fs "" "t2v" "bf16" "cuda" "flash_attn3" "Default"
      None 1 false None (Some wan_dir) = Ok md
    ∧ Sampler.sample some_text 2 5 5 42 (EmptyEmbeds.process 81 832 480)
        (fresh_state (md_config md))
      = (fresh_state (md_config md), Raise TypeError).
Proof.
  intros fs.
  pose proof (load_model_Ok_value fs "" "t2v" "bf16" "cuda" "flash_attn3"
    "Default" None 1 false None (Some wan_dir) bfloat16 (VFloat (26 # 100))
    eq_refl eq_refl eq_refl eq_refl eq_refl
    ltac:(vm_compute; reflexivity)) as Hload.
  eexists. split; [exact Hload|].
  apply (config_json_update_entry_stops_sample fs "" "t2v" "bf16" "cuda"
           "flash_attn3" "Default" None 1 false None (Some wan_dir) _
           some_text 2 5 5 42 (EmptyEmbeds.process 81 832 480) _ Hload).
  - vm_compute. reflexivity.
  - exists (VInt 1). vm_compute. reflexivity.
  - reflexivity.
Defined.

(** X22. A storable [config.json] with an entry named ["get"] (and none
    named ["update"]) lets [sample], run with embeddings of the upstream
    nodes, merge the image configuration and write its six attributes, and
    then stops it with a [TypeError] at [model_config.get]: no target shape
    is computed and nothing is called on the wrapped library. (An ["i2v"]
    task without the encoder outputs fails earlier, with its
    [ValueError].) *)
Theorem config_json_get_entry_stops_sample {E : Engine} (fs : filesystem)
  (model_name model_type precision device attention_type mm_type : string)
  (lora_path : option string) (lora_strength : Q) (cpu_offload : bool)
  (teacache_args : option dict) (model_dir : option string) (md : model_dict)
  (te : text_embeddings) (steps : Z) (shift cfg_scale : Q) (seed : Z)
  (ie : image_embeddings) (st : sampler_state E) (task : pyval) :
  let config_json :=
    fs_json fs (ModelLoader.config_json_path fs
                  (ModelLoader.model_path model_dir model_name)) in
  ModelLoader.load_model fs model_name model_type precision device
    attention_type mm_type lora_path lora_strength cpu_offload teacache_args
    model_dir = Ok md →
  EasyDict.storable config_json = true →
  config_json !! "update" = None →
  is_Some (config_json !! "get") →
  st_config st = md_config md →
  upstream_embeddings ie →
  md_config md !! "task" = Some task →
  eq_str task "i2v"
  && (is_None (ie_clip_encoder_out ie) || is_None (ie_vae_encode_out ie))
  = false →
  Sampler.sample te steps shift cfg_scale seed ie st
  = (MkState (configured steps shift cfg_scale seed
                (default ∅ (ie_config ie) ∪ st_config st))
       (st_engine st) (st_trace st), Raise TypeError).
Proof.
  intros config_json Hload _ Hnoupd [v Hv] Hst Hie Htask Hcheck.
  pose proof (load_model_config_json_entry _ _ _ _ _ _ _ _ _ _ _ _ _ _ _
                Hload Hv) as Hget.
  destruct (load_model_Ok_keys _ _ _ _ _ _ _ _ _ _ _ _ _ Hload)
    as (_ & _ & Hkeys).
  assert (st_config st !! "update" = None) as Hupd
    by (rewrite Hst; apply Hkeys; [compute_done|done]).
  rewrite <- Hst in Hget, Htask. clear Hkeys.
  destruct (upstream_fields ie Hie) as (_ & _ & Hnt & _ & Hnu & Hng & _).
  set (ic := default ∅ (ie_config ie)) in *.
  rewrite sample_unfold, configure_unfold_Ok by done.
  cbn zeta. cbn [st_config]. fold ic.
  rewrite lookup_union_r, Htask, Hcheck by done.
  rewrite set_target_shape_hidden; [done|]. cbn [st_config].
  rewrite configured_lookup by compute_done.
  rewrite lookup_union_r by done. by eexists.
Qed.

Lemma config_json_get_entry_stops_sample_witness :
  let fs := fs_with_entry "get" (VStr "x") in
  ∃ md : model_dict,
    ModelLoader.load_model fs "" "t2v" "bf16" "cuda" "flash_attn3" "Default"
      None 1 false None (Some wan_dir) = Ok md
    ∧ let out :=
        Sampler.sample some_text 2 5 5 42 (EmptyEmbeds.process 81 832 480)
          (fresh_state (md_config md)) in
      out.2 = Raise TypeError
      ∧ st_config out.1 !! "infer_steps" = Some (VInt 2)
      ∧ st_config out.1 !! "target_shape" = None.
Proof.
  intros fs.
  pose proof (load_model_Ok_value fs "" "t2v" "bf16" "cuda" "flash_attn3"
    "Default" None 1 false None (Some wan_dir) bfloat16 (VFloat (26 # 100))
    eq_refl eq_refl eq_refl eq_refl eq_refl
    ltac:(vm_compute; reflexivity)) as Hload.
  eexists. split; [exact Hload|]. cbn zeta.
  rewrite (config_json_get_entry_stops_sample fs "" "t2v" "bf16" "cuda"
             "flash_attn3" "Default" None 1 false None (Some wan_dir) _
             some_text 2 5 5 42 (EmptyEmbeds.process 81 832 480) _
             (VStr "t2v") Hload).
  - cbn [fst snd st_config]. split; [reflexivity|].
    split; vm_compute; reflexivity.
  - vm_compute. reflexivity.
  - vm_compute. reflexivity.
  - exists (VStr "x"). vm_compute. reflexivity.
  - reflexivity.
  - left. by exists 81, 832, 480.
  - vm_compute. reflexivity.
  - reflexivity.
Defined.

(** X23. A [config.json] with an entry named ["__class__"] or
    ["__weakref__"] stops [load_model] after all its checks have passed:
    the constructor of the configuration object cannot set the entry, and
    raises a [TypeError] or an [AttributeError]. *)
Theorem config_json_attribute_entry_stops_load_model (fs : filesystem)
  (model_name model_type precision device attention_type mm_type : string)
  (lora_path : option string) (lora_strength : Q) (cpu_offload : bool)
  (teacache_args : option dict) (model_dir : option string) :
  let p := ModelLoader.model_path model_dir model_name in
  let config_json := fs_json fs (ModelLoader.config_json_path fs p) in
  is_Some (dtype_map !! precision) →
  opt_truthy model_dir = true →
  fs_exists fs p = true →
  fs_exists fs (ModelLoader.config_json_path fs p) = true →
  succeeds (ModelLoader.teacache_thresh_of teacache_args) →
  is_Some (config_json !! "__class__") ∨ is_Some (config_json !! "__weakref__") →
  ∃ e : exn,
    ModelLoader.load_model fs model_name model_type precision device
      attention_type mm_type lora_path lora_strength cpu_offload teacache_args
      model_dir = Raise e
    ∧ (e = TypeError ∨ e = AttributeError).
Proof.
  intros p config_json [dt Hdt] Hdir Hp Hcj [th Hth] Hentry.
  set (config :=
         ModelLoader.merge_config
           (ModelLoader.config_literal cpu_offload
              (ModelLoader.feature_caching_of teacache_args) th dt mm_type
              (IsPath p) model_type (resolve_device device) attention_type
              lora_path lora_strength) config_json).
  assert (EasyDict.constructible config = false) as Hcons.
  { apply bool_decide_eq_false_2. intros Hall.
    assert (∃ k v, k ∈ ["__class__"; "__weakref__"] ∧ config !! k = Some v)
      as (k & v & Hk & Hv).
    { unfold config, ModelLoader.merge_config.
      destruct Hentry as [[v Hv]|[v Hv]]; eexists _, v;
        (split; [|by apply lookup_union_Some_l]);
        rewrite !elem_of_cons; auto. }
    destruct (entry_error_None _ _ (Hall _ _ Hv)) as [_ Herr].
    repeat (apply elem_of_cons in Hk as [->|Hk]; [by cbv in Herr|]).
    by apply elem_of_nil in Hk. }
  assert (∃ e, EasyDict.construct config = Raise e
               ∧ (e = TypeError ∨ e = AttributeError)) as (e & He & Hkind).
  { unfold EasyDict.construct. rewrite Hcons.
    destruct (bool_decide _); eexists; split; eauto. }
  exists e. split; [|done]. subst p config_json.
  unfold ModelLoader.load_model, ModelLoader.model_path,
    ModelLoader.config_json_path, getitem in *.
  rewrite Hdt, Hdir. simpl. rewrite Hp. simpl.
  destruct (fs_is_dir fs _); simpl; rewrite Hcj; simpl; rewrite Hth; simpl;
    subst config; by rewrite He.
Qed.

Lemma config_json_attribute_entry_stops_load_model_witness :
  ∃ e : exn,
    ModelLoader.load_model (fs_with_entry "__class__" (VStr "EasyDict")) ""
      "t2v" "bf16" "cuda" "flash_attn3" "Default" None 1 false None
      (Some wan_dir) = Raise e
    ∧ (e = TypeError ∨ e = AttributeError).
Proof.
  apply (config_json_attribute_entry_stops_load_model
           (fs_with_entry "__class__" (VStr "EasyDict")) "" "t2v" "bf16" "cuda"
           "flash_attn3" "Default" None 1 false None (Some wan_dir)).
  - by eexists.
  - reflexivity.
  - vm_compute. reflexivity.
  - vm_compute. reflexivity.
  - by eexists.
  - left. exists (VStr "EasyDict"). vm_compute. reflexivity.
Defined.
